(** * The tracker: bounding-box constraint, tracking state machine, ROI keys

    A shallow embedding of the Go packages [utils], [types], [tracking] and
    [input] of the tracker, and of the per-frame body of [main].

    - Go's [int] is the 64-bit two's-complement integer: a [Z] kept in
      [[-2^63, 2^63)] by [GoInt.wrap] after every operation.
    - Go's [float64] is IEEE binary64: [spec_float] with precision 53 and
      [emax] 1024, operations rounded to nearest even.
    - [image.Rectangle] and its methods follow the Go standard library
      (image/geom.go).
    - The tracker (gocv.Tracker) is an opaque capability with internal
      state: a type class with [Init] and [Update].
    - A frame carries what the program reads from it: its size and the
      contours found in its foreground mask. *)

From Stdlib Require Import ZArith List Bool Lia.
From Stdlib Require Import Floats.SpecFloat.
From Stdlib Require String Ascii.
Import ListNotations.

Local Open Scope Z_scope.

(** ** Go's [int] *)

Module GoInt.

Definition min_int : Z := - 2 ^ 63.
Definition max_int : Z := 2 ^ 63 - 1.

(** Two's-complement wrap-around into [[min_int, max_int]]. *)
Definition wrap (z : Z) : Z := (z + 2 ^ 63) mod 2 ^ 64 - 2 ^ 63.

Definition in_range (z : Z) : Prop := min_int <= z <= max_int.

Definition add (a b : Z) : Z := wrap (a + b).
Definition sub (a b : Z) : Z := wrap (a - b).
Definition neg (a : Z) : Z := wrap (- a).
(** Go's [/] truncates toward zero. *)
Definition div (a b : Z) : Z := wrap (Z.quot a b).
(** [x++] *)
Definition incr (a : Z) : Z := add a 1.

End GoInt.

(** ** Go's [float64] *)

Module Float64.

Definition prec : Z := 53.
Definition emax : Z := 1024.

Definition t := spec_float.

(** [float64(n)] for an [int] n. *)
Definition of_int (n : Z) : t := binary_normalize prec emax n 0 false.

Definition mul (x y : t) : t := SFmul prec emax x y.
Definition div (x y : t) : t := SFdiv prec emax x y.
(** [x > y] and [x < y]; false when either side is NaN. *)
Definition gt (x y : t) : bool := SFltb y x.
Definition lt (x y : t) : bool := SFltb x y.
Definition le (x y : t) : bool := SFleb x y.

(** Truncation toward zero of a finite float. *)
Definition trunc (s : bool) (m : positive) (e : Z) : Z :=
  let a := match e with
           | Z0 => Zpos m
           | Zpos p => Zpos m * 2 ^ Zpos p
           | Zneg p => Zpos m / 2 ^ Zpos p
           end in
  if s then - a else a.

(** [int(f)]: the fraction is discarded.  Go leaves the result
    unspecified when the value does not fit (or is NaN); amd64 yields the
    smallest [int], which is what is taken here. *)
Definition to_int (f : t) : Z :=
  match f with
  | S754_zero _ => 0
  | S754_finite s m e =>
      let z := trunc s m e in
      if (GoInt.min_int <=? z) && (z <=? GoInt.max_int) then z
      else GoInt.min_int
  | S754_infinity _ | S754_nan => GoInt.min_int
  end.

Definition is_nan (f : t) : bool :=
  match f with S754_nan => true | _ => false end.

End Float64.

(** ** Package image (Go standard library) *)

Module image.

Record Point := Pt { X : Z; Y : Z }.

Record Rectangle := mkRectangle { Min : Point; Max : Point }.

(** The zero value [image.Rectangle{}]. *)
Definition ZR : Rectangle := mkRectangle (Pt 0 0) (Pt 0 0).

(** [image.Rect]: the corners are put in order. *)
Definition Rect (x0 y0 x1 y1 : Z) : Rectangle :=
  let '(x0, x1) := if x0 >? x1 then (x1, x0) else (x0, x1) in
  let '(y0, y1) := if y0 >? y1 then (y1, y0) else (y0, y1) in
  mkRectangle (Pt x0 y0) (Pt x1 y1).

Definition Dx (r : Rectangle) : Z := GoInt.sub (X (Max r)) (X (Min r)).
Definition Dy (r : Rectangle) : Z := GoInt.sub (Y (Max r)) (Y (Min r)).

Definition Empty (r : Rectangle) : bool :=
  (X (Min r) >=? X (Max r)) || (Y (Min r) >=? Y (Max r)).

Definition Add (r : Rectangle) (p : Point) : Rectangle :=
  mkRectangle
    (Pt (GoInt.add (X (Min r)) (X p)) (GoInt.add (Y (Min r)) (Y p)))
    (Pt (GoInt.add (X (Max r)) (X p)) (GoInt.add (Y (Max r)) (Y p))).

Definition set_MinX (v : Z) (r : Rectangle) : Rectangle :=
  mkRectangle (Pt v (Y (Min r))) (Max r).
Definition set_MinY (v : Z) (r : Rectangle) : Rectangle :=
  mkRectangle (Pt (X (Min r)) v) (Max r).
Definition set_MaxX (v : Z) (r : Rectangle) : Rectangle :=
  mkRectangle (Min r) (Pt v (Y (Max r))).
Definition set_MaxY (v : Z) (r : Rectangle) : Rectangle :=
  mkRectangle (Min r) (Pt (X (Max r)) v).

End image.

Import image.

(** ** Package utils *)

Module utils.

(** [int(float64(initialSize) * maxGrowth)] *)
Definition maxAllowedSize (initialSize : Z) (maxGrowth : Float64.t) : Z :=
  Float64.to_int (Float64.mul (Float64.of_int initialSize) maxGrowth).

Definition ConstrainBoundingBox (rect : Rectangle) (initialSize : Z)
    (maxGrowth : Float64.t) (minSize imgWidth imgHeight : Z) : Rectangle :=
  let currentWidth := Dx rect in
  let currentHeight := Dy rect in
  let maxAllowedSize := maxAllowedSize initialSize maxGrowth in
  let newWidth := currentWidth in
  let newHeight := currentHeight in
  let newWidth :=
    if currentWidth >? maxAllowedSize then maxAllowedSize else newWidth in
  let newHeight :=
    if currentHeight >? maxAllowedSize then maxAllowedSize else newHeight in
  let newWidth := if newWidth <? minSize then minSize else newWidth in
  let newHeight := if newHeight <? minSize then minSize else newHeight in
  let centerX := GoInt.add (X (Min rect)) (GoInt.div (Dx rect) 2) in
  let centerY := GoInt.add (Y (Min rect)) (GoInt.div (Dy rect) 2) in
  let halfWidth := GoInt.div newWidth 2 in
  let halfHeight := GoInt.div newHeight 2 in
  let newRect :=
    Rect (GoInt.sub centerX halfWidth) (GoInt.sub centerY halfHeight)
         (GoInt.add centerX halfWidth) (GoInt.add centerY halfHeight) in
  let newRect :=
    if X (Min newRect) <? 0
    then Add newRect (Pt (GoInt.neg (X (Min newRect))) 0) else newRect in
  let newRect :=
    if Y (Min newRect) <? 0
    then Add newRect (Pt 0 (GoInt.neg (Y (Min newRect)))) else newRect in
  let newRect :=
    if X (Max newRect) >? imgWidth
    then Add newRect (Pt (GoInt.sub imgWidth (X (Max newRect))) 0)
    else newRect in
  let newRect :=
    if Y (Max newRect) >? imgHeight
    then Add newRect (Pt 0 (GoInt.sub imgHeight (Y (Max newRect))))
    else newRect in
  newRect.

End utils.

(** ** Package types *)

Module types.

(** What the program reads from a frame: [frame.Cols()], [frame.Rows()],
    and the outcome of the background subtractor followed by
    [gocv.FindContours] on it ([None] when [BackSub.Apply] reports an
    error).  A contour is known by [gocv.ContourArea] and
    [gocv.BoundingRect]. *)
Record Contour := mkContour { ContourArea : Float64.t; BoundingRect : Rectangle }.

Record Mat := mkMat {
  Cols : Z;
  Rows : Z;
  Foreground : option (list Contour)
}.

(** gocv.Tracker: both calls may change the tracker's own state. *)
Class gocv_Tracker (T : Type) := {
  Init : T -> Mat -> Rectangle -> T * bool;
  Update : T -> Mat -> T * (Rectangle * bool)
}.

(** The fields of [AppState] that the tracking state machine and the ROI
    keys read or write.  The recording fields, the debug log and the
    subtractor's buffers only feed the display and the video file. *)
Record AppState (T : Type) := mkAppState {
  Tracker : T;
  TrackingEnabled : bool;
  AutoTrackingEnabled : bool;
  ROI : Rectangle;
  InitialROISize : Z;
  TrackingFailureCount : Z;
  LastKnownRect : Rectangle;
  ROISelectionMode : bool;
  ROICenterX : Z;
  ROICenterY : Z;
  ROIWidth : Z;
  ROIHeight : Z;
  FrameCount : Z
}.

Arguments mkAppState {T}.
Arguments Tracker {T}.
Arguments TrackingEnabled {T}.
Arguments AutoTrackingEnabled {T}.
Arguments ROI {T}.
Arguments InitialROISize {T}.
Arguments TrackingFailureCount {T}.
Arguments LastKnownRect {T}.
Arguments ROISelectionMode {T}.
Arguments ROICenterX {T}.
Arguments ROICenterY {T}.
Arguments ROIWidth {T}.
Arguments ROIHeight {T}.
Arguments FrameCount {T}.

Section Setters.
Context {T : Type}.
Implicit Type s : AppState T.

Definition set_Tracker (v : T) s :=
  mkAppState v (TrackingEnabled s) (AutoTrackingEnabled s) (ROI s)
    (InitialROISize s) (TrackingFailureCount s) (LastKnownRect s)
    (ROISelectionMode s) (ROICenterX s) (ROICenterY s) (ROIWidth s)
    (ROIHeight s) (FrameCount s).
Definition set_TrackingEnabled (v : bool) s :=
  mkAppState (Tracker s) v (AutoTrackingEnabled s) (ROI s)
    (InitialROISize s) (TrackingFailureCount s) (LastKnownRect s)
    (ROISelectionMode s) (ROICenterX s) (ROICenterY s) (ROIWidth s)
    (ROIHeight s) (FrameCount s).
Definition set_AutoTrackingEnabled (v : bool) s :=
  mkAppState (Tracker s) (TrackingEnabled s) v (ROI s)
    (InitialROISize s) (TrackingFailureCount s) (LastKnownRect s)
    (ROISelectionMode s) (ROICenterX s) (ROICenterY s) (ROIWidth s)
    (ROIHeight s) (FrameCount s).
Definition set_ROI (v : Rectangle) s :=
  mkAppState (Tracker s) (TrackingEnabled s) (AutoTrackingEnabled s) v
    (InitialROISize s) (TrackingFailureCount s) (LastKnownRect s)
    (ROISelectionMode s) (ROICenterX s) (ROICenterY s) (ROIWidth s)
    (ROIHeight s) (FrameCount s).
Definition set_InitialROISize (v : Z) s :=
  mkAppState (Tracker s) (TrackingEnabled s) (AutoTrackingEnabled s)
    (ROI s) v (TrackingFailureCount s) (LastKnownRect s)
    (ROISelectionMode s) (ROICenterX s) (ROICenterY s) (ROIWidth s)
    (ROIHeight s) (FrameCount s).
Definition set_TrackingFailureCount (v : Z) s :=
  mkAppState (Tracker s) (TrackingEnabled s) (AutoTrackingEnabled s)
    (ROI s) (InitialROISize s) v (LastKnownRect s)
    (ROISelectionMode s) (ROICenterX s) (ROICenterY s) (ROIWidth s)
    (ROIHeight s) (FrameCount s).
Definition set_LastKnownRect (v : Rectangle) s :=
  mkAppState (Tracker s) (TrackingEnabled s) (AutoTrackingEnabled s)
    (ROI s) (InitialROISize s) (TrackingFailureCount s) v
    (ROISelectionMode s) (ROICenterX s) (ROICenterY s) (ROIWidth s)
    (ROIHeight s) (FrameCount s).
Definition set_ROISelectionMode (v : bool) s :=
  mkAppState (Tracker s) (TrackingEnabled s) (AutoTrackingEnabled s)
    (ROI s) (InitialROISize s) (TrackingFailureCount s) (LastKnownRect s)
    v (ROICenterX s) (ROICenterY s) (ROIWidth s)
    (ROIHeight s) (FrameCount s).
Definition set_ROICenterX (v : Z) s :=
  mkAppState (Tracker s) (TrackingEnabled s) (AutoTrackingEnabled s)
    (ROI s) (InitialROISize s) (TrackingFailureCount s) (LastKnownRect s)
    (ROISelectionMode s) v (ROICenterY s) (ROIWidth s)
    (ROIHeight s) (FrameCount s).
Definition set_ROICenterY (v : Z) s :=
  mkAppState (Tracker s) (TrackingEnabled s) (AutoTrackingEnabled s)
    (ROI s) (InitialROISize s) (TrackingFailureCount s) (LastKnownRect s)
    (ROISelectionMode s) (ROICenterX s) v (ROIWidth s)
    (ROIHeight s) (FrameCount s).
Definition set_ROIWidth (v : Z) s :=
  mkAppState (Tracker s) (TrackingEnabled s) (AutoTrackingEnabled s)
    (ROI s) (InitialROISize s) (TrackingFailureCount s) (LastKnownRect s)
    (ROISelectionMode s) (ROICenterX s) (ROICenterY s) v
    (ROIHeight s) (FrameCount s).
Definition set_ROIHeight (v : Z) s :=
  mkAppState (Tracker s) (TrackingEnabled s) (AutoTrackingEnabled s)
    (ROI s) (InitialROISize s) (TrackingFailureCount s) (LastKnownRect s)
    (ROISelectionMode s) (ROICenterX s) (ROICenterY s) (ROIWidth s)
    v (FrameCount s).
Definition set_FrameCount (v : Z) s :=
  mkAppState (Tracker s) (TrackingEnabled s) (AutoTrackingEnabled s)
    (ROI s) (InitialROISize s) (TrackingFailureCount s) (LastKnownRect s)
    (ROISelectionMode s) (ROICenterX s) (ROICenterY s) (ROIWidth s)
    (ROIHeight s) v.
End Setters.

Record TrackingConfig := mkTrackingConfig {
  MaxROIGrowth : Float64.t;
  MinROISize : Z;
  MaxTrackingFailures : Z;
  SearchRadius : Z;
  SizeChangeThreshold : Float64.t;
  MinContourArea : Float64.t;
  StabilizationFrames : Z
}.

Definition DefaultTrackingConfig : TrackingConfig :=
  {| MaxROIGrowth := Float64.of_int 2;
     MinROISize := 40;
     MaxTrackingFailures := 12;
     SearchRadius := 120;
     SizeChangeThreshold := Float64.of_int 5;
     MinContourArea := Float64.of_int 500;
     StabilizationFrames := 30 |}.

End types.

Import types.

(** ** Package tracking *)

Module tracking.

Section WithTracker.
Context {T : Type} `{gocv_Tracker T}.

(** [(r.Dx() + r.Dy()) / 2] *)
Definition avgSize (r : Rectangle) : Z :=
  GoInt.div (GoInt.add (Dx r) (Dy r)) 2.

(** Returns the tracker after the call and what [tracker.Init] said. *)
Definition TryTrackingRecovery (frame : Mat) (tracker : T)
    (lastRect : Rectangle) (searchRadius : Z) : T * bool :=
  let centerX := GoInt.add (X (Min lastRect)) (GoInt.div (Dx lastRect) 2) in
  let centerY := GoInt.add (Y (Min lastRect)) (GoInt.div (Dy lastRect) 2) in
  let searchRect :=
    Rect (GoInt.sub centerX searchRadius) (GoInt.sub centerY searchRadius)
         (GoInt.add centerX searchRadius) (GoInt.add centerY searchRadius) in
  let searchRect :=
    if X (Min searchRect) <? 0 then set_MinX 0 searchRect else searchRect in
  let searchRect :=
    if Y (Min searchRect) <? 0 then set_MinY 0 searchRect else searchRect in
  let searchRect :=
    if X (Max searchRect) >? Cols frame
    then set_MaxX (Cols frame) searchRect else searchRect in
  let searchRect :=
    if Y (Max searchRect) >? Rows frame
    then set_MaxY (Rows frame) searchRect else searchRect in
  Init tracker frame searchRect.

(** The loop over the contours, from position [i] on.  The accumulator
    is [(largestContourIndex, largestArea)]; the index -1 of the source
    is [None]. *)
Fixpoint largestContourFrom (contours : list Contour) (i : nat)
    (minContourArea : Float64.t) (acc : option nat * Float64.t)
  : option nat * Float64.t :=
  match contours with
  | [] => acc
  | contour :: rest =>
      let area := ContourArea contour in
      let acc :=
        if Float64.gt area (snd acc) && Float64.gt area minContourArea
        then (Some i, area) else acc in
      largestContourFrom rest (S i) minContourArea acc
  end.

(** [largestContourIndex] after the loop; [largestArea] starts as the
    zero value of [float64]. *)
Definition largestContourIndex (contours : list Contour)
    (minContourArea : Float64.t) : option nat :=
  fst (largestContourFrom contours 0%nat minContourArea
         (None, S754_zero false)).

(** The padded bounding box of the chosen contour, cut at the frame. *)
Definition paddedROI (roi : Rectangle) (frame : Mat) : Rectangle :=
  let padding := 20 in
  let roi :=
    Rect (GoInt.sub (X (Min roi)) padding) (GoInt.sub (Y (Min roi)) padding)
         (GoInt.add (X (Max roi)) padding) (GoInt.add (Y (Max roi)) padding) in
  let roi := if X (Min roi) <? 0 then set_MinX 0 roi else roi in
  let roi := if Y (Min roi) <? 0 then set_MinY 0 roi else roi in
  let roi :=
    if X (Max roi) >? Cols frame then set_MaxX (Cols frame) roi else roi in
  let roi :=
    if Y (Max roi) >? Rows frame then set_MaxY (Rows frame) roi else roi in
  roi.

(** The region the detector proposes for a frame, if any. *)
Definition detect (contours : list Contour) (minContourArea : Float64.t)
    (frame : Mat) : option Rectangle :=
  match largestContourIndex contours minContourArea with
  | Some i =>
      match nth_error contours i with
      | Some largestContour =>
          Some (paddedROI (BoundingRect largestContour) frame)
      | None => None
      end
  | None => None
  end.

Definition ProcessAutoTracking (state : AppState T) (frame : Mat)
    (config : TrackingConfig) : AppState T :=
  if TrackingEnabled state || negb (AutoTrackingEnabled state)
     || ROISelectionMode state
     || (FrameCount state <=? StabilizationFrames config)
  then state
  else
    match Foreground frame with
    | None => state
    | Some contours =>
        match detect contours (MinContourArea config) frame with
        | Some roi =>
            let '(tracker, ok) := Init (Tracker state) frame roi in
            let state := set_Tracker tracker state in
            if ok then
              let state := set_ROI roi state in
              let state := set_TrackingEnabled true state in
              let state := set_AutoTrackingEnabled false state in
              set_InitialROISize (avgSize roi) state
            else state
        | None => state
        end
    end.

(** The drift test of [ProcessTracking]:
    [sizeRatio > threshold || sizeRatio < 1.0/threshold]. *)
Definition suspiciousSizeChange (rect lastKnownRect : Rectangle)
    (sizeChangeThreshold : Float64.t) : bool :=
  let currentSize := avgSize rect in
  let lastSize := avgSize lastKnownRect in
  let sizeRatio :=
    Float64.div (Float64.of_int currentSize) (Float64.of_int lastSize) in
  Float64.gt sizeRatio sizeChangeThreshold
  || Float64.lt sizeRatio (Float64.div (Float64.of_int 1) sizeChangeThreshold).

Definition ProcessTracking (state : AppState T) (frame : Mat)
    (config : TrackingConfig) : AppState T * Rectangle :=
  if negb (TrackingEnabled state) then (state, ZR)
  else
    let '(tracker, (rect, ok)) := Update (Tracker state) frame in
    let state := set_Tracker tracker state in
    if ok then
      let state := set_TrackingFailureCount 0 state in
      if negb (Empty (LastKnownRect state))
         && suspiciousSizeChange rect (LastKnownRect state)
              (SizeChangeThreshold config)
      then
        let state :=
          set_TrackingFailureCount
            (GoInt.incr (TrackingFailureCount state)) state in
        let rect := LastKnownRect state in
        (state, rect)
      else
        let rect :=
          utils.ConstrainBoundingBox rect (InitialROISize state)
            (MaxROIGrowth config) (MinROISize config)
            (Cols frame) (Rows frame) in
        let state := set_LastKnownRect rect state in
        (state, rect)
    else
      let state :=
        set_TrackingFailureCount
          (GoInt.incr (TrackingFailureCount state)) state in
      if TrackingFailureCount state >=? MaxTrackingFailures config then
        let state := set_TrackingEnabled false state in
        let state := set_TrackingFailureCount 0 state in
        let state :=
          if negb (ROISelectionMode state)
          then set_AutoTrackingEnabled true state else state in
        (state, ZR)
      else if negb (Empty (LastKnownRect state)) then
        let '(tracker, recovered) :=
          TryTrackingRecovery frame (Tracker state) (LastKnownRect state)
            (SearchRadius config) in
        let state := set_Tracker tracker state in
        let state :=
          if recovered then set_TrackingFailureCount 0 state else state in
        (state, LastKnownRect state)
      else (state, ZR).

Definition InitializeTracking (state : AppState T) (frame : Mat)
    (roi : Rectangle) : AppState T * bool :=
  let '(tracker, ok) := Init (Tracker state) frame roi in
  let state := set_Tracker tracker state in
  if ok then
    let state := set_ROI roi state in
    let state := set_TrackingEnabled true state in
    let state := set_ROISelectionMode false state in
    let state := set_AutoTrackingEnabled false state in
    let state := set_InitialROISize (avgSize roi) state in
    (state, true)
  else (state, false).

Definition ResetTracking (state : AppState T) : AppState T :=
  let state := set_TrackingEnabled false state in
  let state := set_AutoTrackingEnabled true state in
  let state := set_ROISelectionMode false state in
  set_FrameCount 0 state.

Definition EnableAutoTracking (state : AppState T) : AppState T :=
  if negb (ROISelectionMode state) then
    let state := set_AutoTrackingEnabled true state in
    let state := set_TrackingEnabled false state in
    set_FrameCount 0 state
  else state.

End WithTracker.

End tracking.

(** ** Package input *)

Module input.

(** Key codes as [gocv]'s [WaitKey] reports them. *)
Definition key_up : Z := 0.
Definition key_down : Z := 1.
Definition key_left : Z := 2.
Definition key_right : Z := 3.
Definition key_enter : Z := 13.
Definition key_escape : Z := 27.
Definition key_plus : Z := 43.   (* '+' *)
Definition key_minus : Z := 45.  (* '-' *)
Definition key_equal : Z := 61.  (* '=' *)
Definition key_underscore : Z := 95. (* '_' *)
Definition key_a : Z := 97.
Definition key_d : Z := 100.
Definition key_q : Z := 113.
Definition key_r : Z := 114.
Definition key_s : Z := 115.
Definition key_v : Z := 118.

Section WithTracker.
Context {T : Type} `{gocv_Tracker T}.

(** The boolean is "quit the program".  Stopping the recording before
    quitting does not touch the fields kept in [AppState]. *)
Definition HandleEscapeKey (state : AppState T) : AppState T * bool :=
  if ROISelectionMode state then
    let state := set_ROISelectionMode false state in
    let state :=
      if negb (TrackingEnabled state)
      then set_AutoTrackingEnabled true state else state in
    (state, false)
  else (state, true).

(** The keys 'v' (recording) and 'd' (debug overlay) change only fields
    outside the embedded state. *)
Definition HandleMainKeys (key : Z) (state : AppState T) (frame : Mat)
  : AppState T * bool :=
  if key =? key_q then (state, true)
  else if key =? key_s then
    if negb (ROISelectionMode state) then
      let state := set_AutoTrackingEnabled false state in
      let state := set_TrackingEnabled false state in
      let state := set_ROISelectionMode true state in
      let state := set_ROICenterX (GoInt.div (Cols frame) 2) state in
      let state := set_ROICenterY (GoInt.div (Rows frame) 2) state in
      (state, false)
    else (state, false)
  else if key =? key_a then
    if negb (ROISelectionMode state) then
      if AutoTrackingEnabled state then
        let state := set_AutoTrackingEnabled false state in
        let state := set_TrackingEnabled false state in
        (state, false)
      else (tracking.EnableAutoTracking state, false)
    else (state, false)
  else if key =? key_r then (tracking.ResetTracking state, false)
  else (state, false).

Definition HandleROIKeys (key : Z) (state : AppState T) (frame : Mat)
  : AppState T :=
  if negb (ROISelectionMode state) then state
  else if key =? key_up then
    let state := set_ROICenterY (GoInt.sub (ROICenterY state) 10) state in
    if ROICenterY state <? GoInt.div (ROIHeight state) 2
    then set_ROICenterY (GoInt.div (ROIHeight state) 2) state else state
  else if key =? key_down then
    let state := set_ROICenterY (GoInt.add (ROICenterY state) 10) state in
    if ROICenterY state
         >? GoInt.sub (Rows frame) (GoInt.div (ROIHeight state) 2)
    then set_ROICenterY
           (GoInt.sub (Rows frame) (GoInt.div (ROIHeight state) 2)) state
    else state
  else if key =? key_left then
    let state := set_ROICenterX (GoInt.sub (ROICenterX state) 10) state in
    if ROICenterX state <? GoInt.div (ROIWidth state) 2
    then set_ROICenterX (GoInt.div (ROIWidth state) 2) state else state
  else if key =? key_right then
    let state := set_ROICenterX (GoInt.add (ROICenterX state) 10) state in
    if ROICenterX state
         >? GoInt.sub (Cols frame) (GoInt.div (ROIWidth state) 2)
    then set_ROICenterX
           (GoInt.sub (Cols frame) (GoInt.div (ROIWidth state) 2)) state
    else state
  else if (key =? key_plus) || (key =? key_equal) then
    let state := set_ROIWidth (GoInt.add (ROIWidth state) 20) state in
    let state := set_ROIHeight (GoInt.add (ROIHeight state) 20) state in
    let state :=
      if ROIWidth state >? Cols frame
      then set_ROIWidth (Cols frame) state else state in
    if ROIHeight state >? Rows frame
    then set_ROIHeight (Rows frame) state else state
  else if (key =? key_minus) || (key =? key_underscore) then
    let state := set_ROIWidth (GoInt.sub (ROIWidth state) 20) state in
    let state := set_ROIHeight (GoInt.sub (ROIHeight state) 20) state in
    let state :=
      if ROIWidth state <? 40 then set_ROIWidth 40 state else state in
    if ROIHeight state <? 40 then set_ROIHeight 40 state else state
  else if key =? key_enter then
    let halfWidth := GoInt.div (ROIWidth state) 2 in
    let halfHeight := GoInt.div (ROIHeight state) 2 in
    let x1 := GoInt.sub (ROICenterX state) halfWidth in
    let y1 := GoInt.sub (ROICenterY state) halfHeight in
    let x2 := GoInt.add (ROICenterX state) halfWidth in
    let y2 := GoInt.add (ROICenterY state) halfHeight in
    let x1 := if x1 <? 0 then 0 else x1 in
    let y1 := if y1 <? 0 then 0 else y1 in
    let x2 := if x2 >? Cols frame then Cols frame else x2 in
    let y2 := if y2 >? Rows frame then Rows frame else y2 in
    let roi := Rect x1 y1 x2 y2 in
    let '(state, ok) := tracking.InitializeTracking state frame roi in
    if ok then state else set_ROISelectionMode false state
  else state.

Definition InitializeROISelection (state : AppState T) : AppState T :=
  let state := set_ROICenterX 320 state in
  let state := set_ROICenterY 240 state in
  let state := set_ROIWidth 100 state in
  set_ROIHeight 100 state.

Definition ProcessInput (key : Z) (state : AppState T) (frame : Mat)
  : AppState T * bool :=
  if key =? key_escape then HandleEscapeKey state
  else
    let '(state, shouldQuit) := HandleMainKeys key state frame in
    if shouldQuit then (state, true)
    else (HandleROIKeys key state frame, false).

(** The selection rectangle as the ROI keys and the overlay derive it:
    centre plus and minus the halved dimensions. *)
Definition selectionRect (state : AppState T) : Rectangle :=
  let halfWidth := GoInt.div (ROIWidth state) 2 in
  let halfHeight := GoInt.div (ROIHeight state) 2 in
  mkRectangle
    (Pt (GoInt.sub (ROICenterX state) halfWidth)
        (GoInt.sub (ROICenterY state) halfHeight))
    (Pt (GoInt.add (ROICenterX state) halfWidth)
        (GoInt.add (ROICenterY state) halfHeight)).

End WithTracker.

End input.

(** ** Package main: one turn of the frame loop *)

Module main.

Section WithTracker.
Context {T : Type} `{gocv_Tracker T}.

(** The state [main] starts the loop with. *)
Definition initialState (tracker : T) : AppState T :=
  input.InitializeROISelection
    {| Tracker := tracker;
       TrackingEnabled := false;
       AutoTrackingEnabled := true;
       ROI := ZR;
       InitialROISize := 0;
       TrackingFailureCount := 0;
       LastKnownRect := ZR;
       ROISelectionMode := false;
       ROICenterX := 0;
       ROICenterY := 0;
       ROIWidth := 0;
       ROIHeight := 0;
       FrameCount := 0 |}.

(** The enabling of auto-tracking "by default if nothing is active". *)
Definition defaultAutoTracking (state : AppState T) : AppState T :=
  if negb (TrackingEnabled state) && negb (AutoTrackingEnabled state)
     && negb (ROISelectionMode state)
  then set_AutoTrackingEnabled true state else state.

(** The loop body for a frame that was read and is not empty, with the
    key [WaitKey] returned: the new state, the tracking rectangle
    handed to the renderer, and whether the loop ends. *)
Definition loopBody (state : AppState T) (frame : Mat) (key : Z)
  : AppState T * Rectangle * bool :=
  let state := set_FrameCount (GoInt.incr (FrameCount state)) state in
  let state := tracking.ProcessAutoTracking state frame DefaultTrackingConfig in
  let state := defaultAutoTracking state in
  let '(state, trackingRect) :=
    tracking.ProcessTracking state frame DefaultTrackingConfig in
  let '(state, shouldQuit) := input.ProcessInput key state frame in
  (state, trackingRect, shouldQuit).

End WithTracker.

End main.

(** ** Modes *)

(** The mode the status line shows ([ui.DrawStatusMessage]): selection
    first, then tracking, then searching, else idle. *)
Inductive Mode := Idle | AutoSearching | ActiveTracking | ManualSelecting.

Definition trackingMode {T} (state : AppState T) : Mode :=
  if TrackingEnabled state then ActiveTracking
  else if AutoTrackingEnabled state then AutoSearching
  else Idle.

Definition modeOf {T} (state : AppState T) : Mode :=
  if ROISelectionMode state then ManualSelecting else trackingMode state.

(** * Vocabulary of the properties *)

(** Pixel quantities far from the ends of [int]: no operation of the
    functions below overflows on them. *)
Definition small (z : Z) : Prop := - 2 ^ 59 <= z <= 2 ^ 59.

Definition smallRect (r : Rectangle) : Prop :=
  small (X (Min r)) /\ small (Y (Min r)) /\ small (X (Max r)) /\ small (Y (Max r)).

(** The half-open box of a rectangle lies within [[0,W) x [0,H)]. *)
Definition withinX (r : Rectangle) (W : Z) : Prop := 0 <= X (Min r) /\ X (Max r) <= W.

Definition withinY (r : Rectangle) (H : Z) : Prop := 0 <= Y (Min r) /\ Y (Max r) <= H.

Definition withinFrame (r : Rectangle) (W H : Z) : Prop := withinX r W /\ withinY r H.

(** ** ConstrainBoundingBox, one axis at a time *)

Module ConstrainSpec.
Import GoInt.

(** The two clamps of one dimension, as the source applies them. *)
Definition clampedSize (current maxAllowed minSize : Z) : Z :=
  let new := if current >? maxAllowed then maxAllowed else current in
  if new <? minSize then minSize else new.

(** The new interval of one axis before the translations. *)
Definition axisRect (lo hi maxAllowed minSize : Z) : Z * Z :=
  let center := add lo (div (sub hi lo) 2) in
  let half := div (clampedSize (sub hi lo) maxAllowed minSize) 2 in
  if sub center half >? add center half
  then (add center half, sub center half)
  else (sub center half, add center half).

Definition shiftLow (ab : Z * Z) : Z * Z :=
  if fst ab <? 0
  then (add (fst ab) (neg (fst ab)), add (snd ab) (neg (fst ab))) else ab.

Definition shiftHigh (bound : Z) (ab : Z * Z) : Z * Z :=
  if snd ab >? bound
  then (add (fst ab) (sub bound (snd ab)), add (snd ab) (sub bound (snd ab)))
  else ab.

Definition axis (lo hi maxAllowed minSize bound : Z) : Z * Z :=
  shiftHigh bound (shiftLow (axisRect lo hi maxAllowed minSize)).

Definition rangePair (ab : Z * Z) : Prop := in_range (fst ab) /\ in_range (snd ab).

Definition order (a b : Z) : Z * Z := if a >? b then (b, a) else (a, b).

Definition ofAxes (p q : Z * Z) : Rectangle :=
  mkRectangle (Pt (fst p) (fst q)) (Pt (snd p) (snd q)).

Definition span (ab : Z * Z) : Z := sub (snd ab) (fst ab).

(** What [axis] computes on the integers when nothing wraps. *)
Definition axisIdeal (lo hi maxAllowed minSize bound : Z) : Z * Z :=
  let center := lo + Z.quot (hi - lo) 2 in
  let half := Z.abs (Z.quot (clampedSize (hi - lo) maxAllowed minSize) 2) in
  let ab := (center - half, center + half) in
  let ab := if fst ab <? 0 then (0, 2 * half) else ab in
  if snd ab >? bound then (bound - 2 * half, bound) else ab.

Definition within61 (z : Z) : Prop := - 2 ^ 61 <= z <= 2 ^ 61.

Definition sizeInBounds (size minSize maxAllowed : Z) : Prop :=
  minSize <= size <= Z.max minSize maxAllowed.

(** The four translations of [ConstrainBoundingBox], one at a time. *)
Definition stepMinX (r : Rectangle) : Rectangle :=
  if X (Min r) <? 0 then Add r (Pt (GoInt.neg (X (Min r))) 0) else r.
Definition stepMinY (r : Rectangle) : Rectangle :=
  if Y (Min r) <? 0 then Add r (Pt 0 (GoInt.neg (Y (Min r)))) else r.
Definition stepMaxX (W : Z) (r : Rectangle) : Rectangle :=
  if X (Max r) >? W then Add r (Pt (GoInt.sub W (X (Max r))) 0) else r.
Definition stepMaxY (H : Z) (r : Rectangle) : Rectangle :=
  if Y (Max r) >? H then Add r (Pt 0 (GoInt.sub H (Y (Max r)))) else r.

End ConstrainSpec.

Import ConstrainSpec.

(** The nominal size bounds of the constrained rectangle. *)
Definition sizeBounds (r : Rectangle) (minSize maxAllowed : Z) : Prop :=
  sizeInBounds (Dx r) minSize maxAllowed /\ sizeInBounds (Dy r) minSize maxAllowed.

(** The postcondition of [constrain] as the specification words it: the
    result inside the frame, both dimensions between [minSize] and the
    larger of [minSize] and the growth cap. *)
Definition constrainClaim (rect : Rectangle) (initialSize : Z)
    (maxGrowth : Float64.t) (minSize W H : Z) : Prop :=
  let r := utils.ConstrainBoundingBox rect initialSize maxGrowth minSize W H in
  withinFrame r W H /\
  sizeBounds r minSize (utils.maxAllowedSize initialSize maxGrowth).

(** ** Vocabulary of the tracking state machine *)

(** Tracking is on and the search for a new target is off: the flags
    while the program tracks a target. *)
Definition inActiveTracking {T} (state : AppState T) : Prop :=
  TrackingEnabled state = true /\ AutoTrackingEnabled state = false.

(** In every state the frame loop reaches, tracking excludes both the
    search and the manual selection. *)
Definition flagsExclusive {T} (state : AppState T) : Prop :=
  TrackingEnabled state = true ->
  AutoTrackingEnabled state = false /\ ROISelectionMode state = false.

Section Runs.
Context {T : Type} `{gocv_Tracker T}.

(** [ProcessTracking] on consecutive frames. *)
Fixpoint runTracking (state : AppState T) (frames : list Mat)
    (config : TrackingConfig) : AppState T :=
  match frames with
  | [] => state
  | frame :: rest =>
      runTracking (fst (tracking.ProcessTracking state frame config)) rest config
  end.

(** On this frame the tracker's update succeeds, a last known region
    exists and the size test of [ProcessTracking] fires. *)
Definition driftFrame (state : AppState T) (frame : Mat)
    (config : TrackingConfig) : Prop :=
  let '(_, (rect, ok)) := Update (Tracker state) frame in
  ok = true /\ Empty (LastKnownRect state) = false /\
  tracking.suspiciousSizeChange rect (LastKnownRect state)
    (SizeChangeThreshold config) = true.

(** Every frame of the run is such a frame, from the state it is met in. *)
Fixpoint driftRun (state : AppState T) (frames : list Mat)
    (config : TrackingConfig) : Prop :=
  match frames with
  | [] => True
  | frame :: rest =>
      driftFrame state frame config /\
      driftRun (fst (tracking.ProcessTracking state frame config)) rest config
  end.

(** The frame loop over a list of frames with the keys pressed on them,
    stopping when the program quits. *)
Fixpoint runLoop (state : AppState T) (inputs : list (Mat * Z)) : AppState T :=
  match inputs with
  | [] => state
  | (frame, key) :: rest =>
      let '(state, _, shouldQuit) := main.loopBody state frame key in
      if shouldQuit then state else runLoop state rest
  end.

End Runs.

(** ** A tracker that plays back scripted answers *)

Record ScriptedTracker := mkScripted {
  updates : list (Rectangle * bool);
  inits : list bool
}.

#[export] Instance scripted : gocv_Tracker ScriptedTracker := {|
  Init t _ _ :=
    match inits t with
    | [] => (t, false)
    | b :: bs => (mkScripted (updates t) bs, b)
    end;
  Update t _ :=
    match updates t with
    | [] => (t, (ZR, false))
    | u :: us => (mkScripted us (inits t), u)
    end
|}.

(** A 640x480 frame without foreground. *)
Definition vga : Mat := mkMat 640 480 (Some []).

(** A session that tracks, with the given failure count and last known
    region, in front of a scripted tracker. *)
Definition trackingSession (tracker : ScriptedTracker) (failures : Z)
    (lastKnown : Rectangle) : AppState ScriptedTracker :=
  {| Tracker := tracker;
     TrackingEnabled := true;
     AutoTrackingEnabled := false;
     ROI := lastKnown;
     InitialROISize := 100;
     TrackingFailureCount := failures;
     LastKnownRect := lastKnown;
     ROISelectionMode := false;
     ROICenterX := 320;
     ROICenterY := 240;
     ROIWidth := 100;
     ROIHeight := 100;
     FrameCount := 100 |}.

(** ** Vocabulary of the ROI keys *)

Definition isNudgeKey (key : Z) : bool :=
  (key =? input.key_up) || (key =? input.key_down)
  || (key =? input.key_left) || (key =? input.key_right).

Definition isResizeKey (key : Z) : bool :=
  (key =? input.key_plus) || (key =? input.key_equal)
  || (key =? input.key_minus) || (key =? input.key_underscore).

(** The keys that adjust the selection without confirming or cancelling. *)
Definition isAdjustKey (key : Z) : bool := isNudgeKey key || isResizeKey key.

(** The selection rectangle lies within the frame. *)
Definition selectionInFrame {T} (state : AppState T) (frame : Mat) : Prop :=
  withinFrame (input.selectionRect state) (Cols frame) (Rows frame).

(** No overflow in sight for the selection and the frame. *)
Definition smallSelection {T} (state : AppState T) (frame : Mat) : Prop :=
  small (ROICenterX state) /\ small (ROICenterY state) /\
  small (ROIWidth state) /\ small (ROIHeight state) /\
  small (Cols frame) /\ small (Rows frame).

(** The centre of one axis keeps the interval [[c - half, c + half]]
    within [[0, bound]]. *)
Definition centered (c half bound : Z) : Prop := half <= c <= bound - half.

(** The invariant of the nudges: sizes and frame are small and both
    centres keep the selection inside. *)
Definition nudgeInv {T} (state : AppState T) (frame : Mat) : Prop :=
  small (ROIWidth state) /\ small (ROIHeight state) /\
  small (Cols frame) /\ small (Rows frame) /\
  centered (ROICenterX state) (Z.quot (ROIWidth state) 2) (Cols frame) /\
  centered (ROICenterY state) (Z.quot (ROIHeight state) 2) (Rows frame).

Section Keys.
Context {T : Type} `{gocv_Tracker T}.

(** [HandleROIKeys] for a sequence of keys on frames of one size. *)
Fixpoint pressROIKeys (state : AppState T) (keys : list Z) (frame : Mat)
  : AppState T :=
  match keys with
  | [] => state
  | key :: rest => pressROIKeys (input.HandleROIKeys key state frame) rest frame
  end.

(** [ProcessInput] for a sequence of keys, each with its frame; a quit is
    the end of the sequence. *)
Fixpoint pressKeys (state : AppState T) (inputs : list (Mat * Z))
  : AppState T :=
  match inputs with
  | [] => state
  | (frame, key) :: rest =>
      let '(state, shouldQuit) := input.ProcessInput key state frame in
      if shouldQuit then state else pressKeys state rest
  end.

(** Selection is entered with 's', adjusted, and cancelled with ESC. *)
Definition selectThenCancel (state : AppState T) (frame : Mat)
    (adjust : list (Mat * Z)) (frame' : Mat) : AppState T * bool :=
  let state := fst (input.ProcessInput input.key_s state frame) in
  let state := pressKeys state adjust in
  input.ProcessInput input.key_escape state frame'.

End Keys.

(** The claim on cancelling as the specification words it: the search
    preference after the cancel is the one before the selection. *)
Definition cancelRestoresPreference {T} `{gocv_Tracker T}
    (state : AppState T) (frame : Mat) : Prop :=
  AutoTrackingEnabled (fst (selectThenCancel state frame [] frame))
  = AutoTrackingEnabled state.

(** The keys that bring the selection of a 640x480 frame to the upper left
    corner and then enlarge it: 's', 27 times left, 19 times up, '+'. *)
Definition cornerThenGrow : list (Mat * Z) :=
  map (fun key => (vga, key))
    (input.key_s :: repeat input.key_left 27 ++ repeat input.key_up 19
       ++ [input.key_plus]).

(** ** Vocabulary of the detector *)

(** Floats other than NaN, ordered by class (negative infinity, negative,
    zero, positive, positive infinity), then exponent, then mantissa, both
    negated for negative numbers: the order [SFcompare] computes. *)
Definition areaKey (f : Float64.t) : Z * (Z * Z) :=
  match f with
  | S754_nan => (0, (0, 0))
  | S754_zero _ => (0, (0, 0))
  | S754_infinity true => (-2, (0, 0))
  | S754_infinity false => (2, (0, 0))
  | S754_finite true m e => (-1, (- e, - Zpos m))
  | S754_finite false m e => (1, (e, Zpos m))
  end.

Definition keyLt (a b : Z * (Z * Z)) : Prop :=
  fst a < fst b \/
  (fst a = fst b /\
   (fst (snd a) < fst (snd b) \/
    (fst (snd a) = fst (snd b) /\ snd (snd a) < snd (snd b)))).

(** Contour [c], at position [i], is the first contour of largest area,
    and its area is above the threshold. *)
Record FirstLargest (contours : list Contour) (minArea : Float64.t)
    (i : nat) (c : Contour) : Prop := {
  best_nth : nth_error contours i = Some c;
  best_above : Float64.gt (ContourArea c) minArea = true;
  best_largest : forall j c', nth_error contours j = Some c' ->
                   Float64.gt (ContourArea c') (ContourArea c) = false;
  best_first : forall j c', (j < i)%nat -> nth_error contours j = Some c' ->
                 Float64.lt (ContourArea c') (ContourArea c) = true
}.

(** The selection rule: the first contour of largest area if that area is
    above the threshold, none if no contour is above the threshold. *)
Definition selectionRule (contours : list Contour) (minArea : Float64.t)
    (choice : option nat) : Prop :=
  match choice with
  | Some i => exists c, FirstLargest contours minArea i c
  | None => forall c, In c contours ->
              Float64.gt (ContourArea c) minArea = false
  end.

(** No area is NaN. *)
Definition areasDefined (contours : list Contour) : Prop :=
  forall c, In c contours -> Float64.is_nan (ContourArea c) = false.

(** The bounding box grown by 20 pixels on each side and cut at the
    frame. *)
Definition paddedAndClamped (box roi : Rectangle) (frame : Mat) : Prop :=
  X (Min roi) = Z.max 0 (X (Min box) - 20) /\
  Y (Min roi) = Z.max 0 (Y (Min box) - 20) /\
  X (Max roi) = Z.min (Cols frame) (X (Max box) + 20) /\
  Y (Max roi) = Z.min (Rows frame) (Y (Max box) + 20).

(** The invariant of the loop over the contours, after the prefix [seen]. *)
Definition scanInv (seen : list Contour) (minArea : Float64.t)
    (acc : option nat * Float64.t) : Prop :=
  Float64.is_nan (snd acc) = false /\
  match fst acc with
  | None => snd acc = S754_zero false /\
            forall c, In c seen -> Float64.gt (ContourArea c) minArea = false
  | Some i => exists c, FirstLargest seen minArea i c /\ snd acc = ContourArea c
  end.

(** Three contours of areas 100, 600 and 550. *)
Definition threeContours (b1 b2 b3 : Rectangle) : list Contour :=
  [mkContour (Float64.of_int 100) b1; mkContour (Float64.of_int 600) b2;
   mkContour (Float64.of_int 550) b3].

(** * The rest of the packages *)

(** ** Package ui: what is drawn *)

Module ui.
Import Stdlib.Strings.String.

Inductive Color := Blue | Red | Green | Yellow | White | Black.

(** The rectangle drawn and its colour. *)
Definition DrawTrackingRect (rect : Rectangle) (success : bool)
  : Rectangle * Color :=
  let rectColor := Blue in
  let rectColor := if negb success then Red else rectColor in
  (rect, rectColor).

(** A log line as [DrawDebugLogs] puts it on the screen: a message longer
    than 50 bytes is cut to its first 47 and three dots. *)
Definition debugLine (logMsg : String.string) : String.string :=
  if Z.of_nat (String.length logMsg) >? 50
  then String.append (String.substring 0 47 logMsg) "..."%string
  else logMsg.

(** What stands for the rest of a message that was cut. *)
Definition ellipsis : String.string := "..."%string.

(** The message of [ProcessTracking] for a size ratio of 3.41, 74 bytes. *)
Definition suspiciousMessage : String.string :=
  "Suspicious size change detected (ratio: 3.41), using last known position"%string.

(** Its line on the screen. *)
Definition suspiciousLine : String.string :=
  "Suspicious size change detected (ratio: 3.41), ..."%string.

Section WithTracker.
Context {T : Type} `{gocv_Tracker T}.

(** The selection rectangle drawn, [None] outside the selection mode.
    (The two lines of the centre cross are left out.) *)
Definition DrawROISelection (state : AppState T) (frame : Mat)
  : option Rectangle :=
  if negb (ROISelectionMode state) then None
  else
    let halfWidth := GoInt.div (ROIWidth state) 2 in
    let halfHeight := GoInt.div (ROIHeight state) 2 in
    let x1 := GoInt.sub (ROICenterX state) halfWidth in
    let y1 := GoInt.sub (ROICenterY state) halfHeight in
    let x2 := GoInt.add (ROICenterX state) halfWidth in
    let y2 := GoInt.add (ROICenterY state) halfHeight in
    let x1 := if x1 <? 0 then 0 else x1 in
    let y1 := if y1 <? 0 then 0 else y1 in
    let x2 := if x2 >? Cols frame then Cols frame else x2 in
    let y2 := if y2 >? Rows frame then Rows frame else y2 in
    let selectionRect := Rect x1 y1 x2 y2 in
    Some selectionRect.

(** The status text and its colour. *)
Definition DrawStatusMessage (state : AppState T) : String.string * Color :=
  if ROISelectionMode state then
    ("Arrow keys/WASD: move, +/-: resize, ENTER: confirm, ESC: cancel"%string, Yellow)
  else if negb (TrackingEnabled state) then
    (if AutoTrackingEnabled state
     then "Auto-tracking: Looking for objects..."%string
     else "Press 's' for manual ROI or 'a' for auto"%string, Red)
  else ("Tracking active"%string, Green).

(** The status text of a state with tracking, search and selection off. *)
Definition idleText : String.string :=
  "Press 's' for manual ROI or 'a' for auto"%string.

Definition DrawHelpText (state : AppState T) : String.string :=
  if ROISelectionMode state
  then "ROI: Arrows=move  +/-=resize  Enter=confirm  Esc=cancel"%string
  else "Controls: s=ROI  a=auto  r=reset  v=record  d=debug  q=quit"%string.

(** What [RenderFrame] draws from the tracking state: the tracking
    rectangle if any, the selection if any, the status and the help text.
    (The recording timer and the debug logs depend on fields kept apart.) *)
Record Rendered := mkRendered {
  trackingDrawn : option (Rectangle * Color);
  selectionDrawn : option Rectangle;
  statusDrawn : String.string * Color;
  helpDrawn : String.string
}.

Definition RenderFrame (frame : Mat) (state : AppState T)
    (trackingRect : Rectangle) (trackingSuccess : bool) : Rendered :=
  {| trackingDrawn :=
       if TrackingEnabled state && negb (Empty trackingRect)
       then Some (DrawTrackingRect trackingRect trackingSuccess) else None;
     selectionDrawn := DrawROISelection state frame;
     statusDrawn := DrawStatusMessage state;
     helpDrawn := DrawHelpText state |}.

End WithTracker.

End ui.

(** ** Parts of the functions above *)

Module Parts.

(** The search window [TryTrackingRecovery] hands to the tracker. *)
Definition searchRect (frame : Mat) (lastRect : Rectangle)
    (searchRadius : Z) : Rectangle :=
  let centerX := GoInt.add (X (Min lastRect)) (GoInt.div (Dx lastRect) 2) in
  let centerY := GoInt.add (Y (Min lastRect)) (GoInt.div (Dy lastRect) 2) in
  let searchRect :=
    Rect (GoInt.sub centerX searchRadius) (GoInt.sub centerY searchRadius)
         (GoInt.add centerX searchRadius) (GoInt.add centerY searchRadius) in
  let searchRect :=
    if X (Min searchRect) <? 0 then set_MinX 0 searchRect else searchRect in
  let searchRect :=
    if Y (Min searchRect) <? 0 then set_MinY 0 searchRect else searchRect in
  let searchRect :=
    if X (Max searchRect) >? Cols frame
    then set_MaxX (Cols frame) searchRect else searchRect in
  let searchRect :=
    if Y (Max searchRect) >? Rows frame
    then set_MaxY (Rows frame) searchRect else searchRect in
  searchRect.

Section WithTracker.
Context {T : Type} `{gocv_Tracker T}.

(** The rectangle [HandleROIKeys] hands to [InitializeTracking] on ENTER. *)
Definition confirmedROI (state : AppState T) (frame : Mat) : Rectangle :=
  let halfWidth := GoInt.div (ROIWidth state) 2 in
  let halfHeight := GoInt.div (ROIHeight state) 2 in
  let x1 := GoInt.sub (ROICenterX state) halfWidth in
  let y1 := GoInt.sub (ROICenterY state) halfHeight in
  let x2 := GoInt.add (ROICenterX state) halfWidth in
  let y2 := GoInt.add (ROICenterY state) halfHeight in
  let x1 := if x1 <? 0 then 0 else x1 in
  let y1 := if y1 <? 0 then 0 else y1 in
  let x2 := if x2 >? Cols frame then Cols frame else x2 in
  let y2 := if y2 >? Rows frame then Rows frame else y2 in
  Rect x1 y1 x2 y2.

(** The loop body of [main] up to the rendering: the state and the
    tracking rectangle handed to [ui.RenderFrame]. *)
Definition beforeRender (state : AppState T) (frame : Mat)
  : AppState T * Rectangle :=
  let state := set_FrameCount (GoInt.incr (FrameCount state)) state in
  let state := tracking.ProcessAutoTracking state frame DefaultTrackingConfig in
  let state := main.defaultAutoTracking state in
  tracking.ProcessTracking state frame DefaultTrackingConfig.

(** [trackingSuccess] of [main]. *)
Definition trackingSuccess (state : AppState T) (trackingRect : Rectangle)
  : bool :=
  TrackingEnabled state && negb (Empty trackingRect)
  && (TrackingFailureCount state =? 0).

(** What the loop body draws for a frame. *)
Definition rendered (state : AppState T) (frame : Mat) : ui.Rendered :=
  let '(state, trackingRect) := beforeRender state frame in
  ui.RenderFrame frame state trackingRect (trackingSuccess state trackingRect).

End WithTracker.

End Parts.

(** The memory of the last target is a pair of fields. *)
Definition sameMemory {T} (state state' : AppState T) : Prop :=
  LastKnownRect state' = LastKnownRect state /\
  TrackingFailureCount state' = TrackingFailureCount state.

(** No key was pressed: [WaitKey] returns -1. *)
Definition noKey : Z := -1.

(** One of tracking, search and selection is on. *)
Definition someFlag {T} (state : AppState T) : bool :=
  TrackingEnabled state || AutoTrackingEnabled state || ROISelectionMode state.

(** Frames on which a contour of area 600 is seen, for a scripted run. *)
Definition vgaWithContour : Mat :=
  mkMat 640 480 (Some [mkContour (Float64.of_int 600) (Rect 100 100 140 130)]).

(** 'w': with 'a', 's' and 'd' the keys the status line names for moving. *)
Definition key_w : Z := 119.

(** The sizes of the selection respect the limits of the resize keys. *)
Definition sizeWithin {T} (state : AppState T) (W H : Z) : Prop :=
  40 <= ROIWidth state <= W /\ 40 <= ROIHeight state <= H.

(** The centre of the selection lies in the frame. *)
Definition centreWithin {T} (state : AppState T) (W H : Z) : Prop :=
  0 <= ROICenterX state <= W /\ 0 <= ROICenterY state <= H.

(** The invariant of the selection along the frame loop, for frames of
    size [W] x [H]. *)
Definition selectionInv {T} (state : AppState T) (W H : Z) : Prop :=
  sizeWithin state W H /\
  (ROISelectionMode state = true -> centreWithin state W H).

(** All frames of a run have the size [W] x [H]. *)
Definition framesOfSize (W H : Z) (inputs : list (Mat * Z)) : Prop :=
  Forall (fun fk => Cols (fst fk) = W /\ Rows (fst fk) = H) inputs.

(** The selection's centre and sizes are those of [state], and the
    selection is not in progress unless it was. *)
Definition sameSelection {T} (state state' : AppState T) : Prop :=
  ROICenterX state' = ROICenterX state /\
  ROICenterY state' = ROICenterY state /\
  ROIWidth state' = ROIWidth state /\
  ROIHeight state' = ROIHeight state /\
  (ROISelectionMode state' = true -> ROISelectionMode state = true).

(** ** Package recording *)

Module recording.

(** The recording fields of [AppState], kept apart from the tracking
    state: [IsRecording] and [VideoWriter] ([None] is the nil pointer).
    [RecordingStartTime] only feeds the timer on the screen. *)
Record Recorder (Writer : Type) := mkRecorder {
  IsRecording : bool;
  VideoWriter : option Writer
}.

Arguments mkRecorder {Writer}.
Arguments IsRecording {Writer}.
Arguments VideoWriter {Writer}.

(** The errors the package returns. *)
Inductive Error :=
| AlreadyActive   (* "recording already active" *)
| NoWriter        (* "could not create video writer with any codec" *)
| NoRecording     (* "no active recording" *)
| CloseFailed     (* "error closing video writer" *)
| WriteFailed.    (* the error of [VideoWriter.Write] *)

Section WithBackend.
Context {Writer : Type}.

(** gocv's video file backend as the package meets it during one call:
    [VideoWriterFile] for a codec gives a writer or an error, [Close]
    and [Write] succeed or not. *)
Variable VideoWriterFile : String.string -> option Writer.
Variable Close : Writer -> bool.
Variable Write : Writer -> Mat -> bool.

(** The loop over [config.Codecs]: [(vw, err != nil)] after it. *)
Fixpoint tryCodecs (codecs : list String.string)
    (acc : option Writer * bool) : option Writer * bool :=
  match codecs with
  | [] => acc
  | fourcc :: rest =>
      match VideoWriterFile fourcc with
      | Some vw => (Some vw, false)
      | None => tryCodecs rest (None, true)
      end
  end.

Definition StartRecording (state : Recorder Writer)
    (codecs : list String.string) : Recorder Writer * option Error :=
  if IsRecording state then (state, Some AlreadyActive)
  else
    let '(vw, failed) := tryCodecs codecs (None, false) in
    if failed then (state, Some NoWriter)
    else (mkRecorder true vw, None).

Definition StopRecording (state : Recorder Writer)
  : Recorder Writer * option Error :=
  if negb (IsRecording state) then (state, Some NoRecording)
  else
    match VideoWriter state with
    | Some vw =>
        if Close vw then (mkRecorder false None, None)
        else (state, Some CloseFailed)
    | None => (mkRecorder false (VideoWriter state), None)
    end.

Definition ToggleRecording (state : Recorder Writer)
    (codecs : list String.string) : Recorder Writer * option Error :=
  if IsRecording state then StopRecording state
  else StartRecording state codecs.

(** The writer the frame goes to, if any, and the error. *)
Definition WriteFrame (state : Recorder Writer) (frame : Mat)
  : option Writer * option Error :=
  if IsRecording state then
    match VideoWriter state with
    | Some vw => (Some vw, if Write vw frame then None else Some WriteFailed)
    | None => (None, None)
    end
  else (None, None).

Definition CleanupRecording (state : Recorder Writer) : Recorder Writer :=
  if IsRecording state then fst (StopRecording state) else state.

End WithBackend.

End recording.

(** ** The debug logger of package types *)

Module debuglog.

(** The debug fields of [AppState] and the logger's bound; the mutex
    orders concurrent calls and has no part in what one call does. *)
Record DebugLogger := mkDebugLogger {
  DebugMode : bool;
  DebugLogs : list String.string;
  maxLogs : Z
}.

Definition Log (d : DebugLogger) (message : String.string) : DebugLogger :=
  if negb (DebugMode d) then d
  else
    let logs := DebugLogs d ++ [message] in
    let logs :=
      if Z.of_nat (length logs) >? maxLogs d then tl logs else logs in
    mkDebugLogger (DebugMode d) logs (maxLogs d).

Definition GetLogs (d : DebugLogger) : list String.string := DebugLogs d.

(** [Log] for each message in turn. *)
Definition LogAll (d : DebugLogger) (messages : list String.string)
  : DebugLogger := fold_left Log messages d.

End debuglog.

(** The last [n] elements of a list. *)
Definition lastN {A} (n : nat) (l : list A) : list A :=
  skipn (length l - n) l.

(** A writer is held only while recording. *)
Definition writerOnlyWhileRecording {Writer}
    (state : recording.Recorder Writer) : Prop :=
  recording.IsRecording state = false -> recording.VideoWriter state = None.

(** Whether a codec opens. *)
Definition opens {Writer} (VideoWriterFile : String.string -> option Writer)
    (fourcc : String.string) : bool :=
  match VideoWriterFile fourcc with Some _ => true | None => false end.

Module Backends.
Import Stdlib.Strings.String.

Definition mp4v : string := "mp4v"%string.

(** A backend for which only the codec "mp4v" opens, as writer 7. *)
Definition onlyMp4v (fourcc : string) : option nat :=
  if eqb fourcc mp4v then Some 7%nat else None.

(** The codecs of [DefaultVideoConfig]. *)
Definition defaultCodecs : list string :=
  ["H264"%string; "avc1"%string; "x264"%string; "mp4v"%string].

End Backends.

(** ** Vocabulary of the defects of ConstrainBoundingBox *)

(** The keys that select a 260x260 region in the middle of a 640x480 frame
    and confirm it, and one more frame without a key: 's', 8 times '+',
    ENTER. *)
Definition growThenConfirm : list (Mat * Z) :=
  map (fun key => (vga, key))
    (input.key_s :: repeat input.key_plus 8 ++ [input.key_enter; noKey]).

(** A tracker that accepts the region and then reports a 500x500 box that
    reaches 20 pixels below a 640x480 frame. *)
Definition overshootingTracker : ScriptedTracker :=
  mkScripted [(Rect 100 0 600 500, true)] [true].

(** Both dimensions of the result as twice the halved clamped sizes,
    rounded down, for whatever input. *)
Definition evenDimensionsClaim (rect : Rectangle) (initialSize : Z)
    (maxGrowth : Float64.t) (minSize W H : Z) : Prop :=
  let r := utils.ConstrainBoundingBox rect initialSize maxGrowth minSize W H in
  let mA := utils.maxAllowedSize initialSize maxGrowth in
  Dx r = 2 * (clampedSize (Dx rect) mA minSize / 2) /\
  Dy r = 2 * (clampedSize (Dy rect) mA minSize / 2).

(** * Properties *)

(** ** Arithmetic of Go's [int] *)

Module GoIntFacts.
Import GoInt.

Lemma wrap_range (z : Z) : in_range (wrap z).
Proof.
  unfold in_range, wrap, min_int, max_int.
  pose proof (Z.mod_pos_bound (z + 2 ^ 63) (2 ^ 64) ltac:(lia)). lia.
Qed.

Lemma wrap_small (z : Z) : in_range z -> wrap z = z.
Proof.
  unfold in_range, wrap, min_int, max_int. intros Hz.
  rewrite Z.mod_small by lia. lia.
Qed.

(** [wrap z] differs from [z] by a multiple of 2^64. *)
Lemma wrap_shift (z : Z) : exists k, wrap z = z + k * 2 ^ 64.
Proof.
  unfold wrap. exists (- ((z + 2 ^ 63) / 2 ^ 64)).
  pose proof (Z.div_mod (z + 2 ^ 63) (2 ^ 64) ltac:(lia)). lia.
Qed.

Lemma wrap_plus_multiple (z k : Z) : wrap (z + k * 2 ^ 64) = wrap z.
Proof.
  unfold wrap.
  replace (z + k * 2 ^ 64 + 2 ^ 63) with (z + 2 ^ 63 + k * 2 ^ 64) by lia.
  now rewrite Z.mod_add by lia.
Qed.

Lemma wrap_even (z : Z) : Z.even (wrap z) = Z.even z.
Proof.
  destruct (wrap_shift z) as [k ->].
  replace (z + k * 2 ^ 64) with (z + 2 * (k * 2 ^ 63)) by lia.
  rewrite Z.even_add, Z.even_mul. simpl. now destruct (Z.even z).
Qed.

(** Subtraction does not see a common translation, wrapped or not. *)
Lemma sub_add_add (a b p : Z) : sub (add a p) (add b p) = sub a b.
Proof.
  unfold sub, add.
  destruct (wrap_shift (a + p)) as [k1 ->].
  destruct (wrap_shift (b + p)) as [k2 ->].
  replace (a + p + k1 * 2 ^ 64 - (b + p + k2 * 2 ^ 64))
    with (a - b + (k1 - k2) * 2 ^ 64) by lia.
  apply wrap_plus_multiple.
Qed.

Lemma sub_add_sub_even (c h : Z) : Z.even (sub (add c h) (sub c h)) = true.
Proof.
  unfold sub, add.
  destruct (wrap_shift (c + h)) as [k1 ->].
  destruct (wrap_shift (c - h)) as [k2 ->].
  rewrite wrap_even.
  replace (c + h + k1 * 2 ^ 64 - (c - h + k2 * 2 ^ 64))
    with (2 * (h + (k1 - k2) * 2 ^ 63)) by lia.
  now rewrite Z.even_mul.
Qed.

Lemma sub_sub_add_even (c h : Z) : Z.even (sub (sub c h) (add c h)) = true.
Proof.
  unfold sub, add.
  destruct (wrap_shift (c + h)) as [k1 ->].
  destruct (wrap_shift (c - h)) as [k2 ->].
  rewrite wrap_even.
  replace (c - h + k2 * 2 ^ 64 - (c + h + k1 * 2 ^ 64))
    with (2 * (- h + (k2 - k1) * 2 ^ 63)) by lia.
  now rewrite Z.even_mul.
Qed.

Lemma add_0_r_wrapped (z : Z) : in_range z -> add z 0 = z.
Proof. intros Hz. unfold add. rewrite Z.add_0_r. now apply wrap_small. Qed.

End GoIntFacts.

(** ** ConstrainBoundingBox *)

Module ConstrainFacts.
Import GoInt GoIntFacts utils.

Lemma axisRect_range lo hi mA mS : rangePair (axisRect lo hi mA mS).
Proof.
  unfold axisRect, rangePair.
  destruct (_ >? _); simpl; split; apply wrap_range.
Qed.

Lemma shiftLow_range ab : rangePair ab -> rangePair (shiftLow ab).
Proof.
  unfold shiftLow, rangePair. destruct (_ <? _); simpl; auto.
  intros _. split; apply wrap_range.
Qed.

Lemma shiftHigh_range W ab : rangePair ab -> rangePair (shiftHigh W ab).
Proof.
  unfold shiftHigh, rangePair. destruct (_ >? _); simpl; auto.
  intros _. split; apply wrap_range.
Qed.

Lemma Rect_ofAxes x0 y0 x1 y1 :
  Rect x0 y0 x1 y1 = ofAxes (order x0 x1) (order y0 y1).
Proof.
  unfold Rect, ofAxes, order.
  now destruct (x0 >? x1), (y0 >? y1).
Qed.

Lemma axisRect_order lo hi mA mS :
  order (sub (add lo (div (sub hi lo) 2))
             (div (clampedSize (sub hi lo) mA mS) 2))
        (add (add lo (div (sub hi lo) 2))
             (div (clampedSize (sub hi lo) mA mS) 2))
  = axisRect lo hi mA mS.
Proof. reflexivity. Qed.

Lemma stepMinX_ofAxes p q :
  rangePair q -> stepMinX (ofAxes p q) = ofAxes (shiftLow p) q.
Proof.
  intros [Hq1 Hq2]. unfold stepMinX, shiftLow, ofAxes; cbn [Min Max X Y].
  destruct (fst p <? 0); [|reflexivity].
  unfold Add; cbn [Min Max X Y fst snd].
  now rewrite !add_0_r_wrapped.
Qed.

Lemma stepMinY_ofAxes p q :
  rangePair p -> stepMinY (ofAxes p q) = ofAxes p (shiftLow q).
Proof.
  intros [Hp1 Hp2]. unfold stepMinY, shiftLow, ofAxes; cbn [Min Max X Y].
  destruct (fst q <? 0); [|reflexivity].
  unfold Add; cbn [Min Max X Y fst snd].
  now rewrite !add_0_r_wrapped.
Qed.

Lemma stepMaxX_ofAxes W p q :
  rangePair q -> stepMaxX W (ofAxes p q) = ofAxes (shiftHigh W p) q.
Proof.
  intros [Hq1 Hq2]. unfold stepMaxX, shiftHigh, ofAxes; cbn [Min Max X Y].
  destruct (snd p >? W); [|reflexivity].
  unfold Add; cbn [Min Max X Y fst snd].
  now rewrite !add_0_r_wrapped.
Qed.

Lemma stepMaxY_ofAxes H p q :
  rangePair p -> stepMaxY H (ofAxes p q) = ofAxes p (shiftHigh H q).
Proof.
  intros [Hp1 Hp2]. unfold stepMaxY, shiftHigh, ofAxes; cbn [Min Max X Y].
  destruct (snd q >? H); [|reflexivity].
  unfold Add; cbn [Min Max X Y fst snd].
  now rewrite !add_0_r_wrapped.
Qed.

(** The source's function is the ordered rectangle followed by the four
    translations. *)
Lemma ConstrainBoundingBox_steps rect initialSize maxGrowth minSize W H :
  ConstrainBoundingBox rect initialSize maxGrowth minSize W H =
  let mA := maxAllowedSize initialSize maxGrowth in
  let centerX := add (X (Min rect)) (div (Dx rect) 2) in
  let centerY := add (Y (Min rect)) (div (Dy rect) 2) in
  let halfWidth := div (clampedSize (Dx rect) mA minSize) 2 in
  let halfHeight := div (clampedSize (Dy rect) mA minSize) 2 in
  stepMaxY H (stepMaxX W (stepMinY (stepMinX
    (Rect (sub centerX halfWidth) (sub centerY halfHeight)
          (add centerX halfWidth) (add centerY halfHeight))))).
Proof.
  cbv beta delta [ConstrainBoundingBox stepMaxY stepMaxX stepMinY stepMinX
                  clampedSize] zeta.
  reflexivity.
Qed.

(** The source's function splits into the two axes. *)
Lemma ConstrainBoundingBox_axes rect initialSize maxGrowth minSize W H :
  ConstrainBoundingBox rect initialSize maxGrowth minSize W H =
  let mA := maxAllowedSize initialSize maxGrowth in
  ofAxes (axis (X (Min rect)) (X (Max rect)) mA minSize W)
         (axis (Y (Min rect)) (Y (Max rect)) mA minSize H).
Proof.
  rewrite ConstrainBoundingBox_steps. cbv zeta.
  set (mA := maxAllowedSize initialSize maxGrowth).
  pose proof (axisRect_range (X (Min rect)) (X (Max rect)) mA minSize) as HX.
  pose proof (axisRect_range (Y (Min rect)) (Y (Max rect)) mA minSize) as HY.
  rewrite Rect_ofAxes. unfold Dx, Dy.
  rewrite !axisRect_order.
  rewrite stepMinX_ofAxes by assumption.
  rewrite stepMinY_ofAxes by (now apply shiftLow_range).
  rewrite stepMaxX_ofAxes by (now apply shiftLow_range).
  rewrite stepMaxY_ofAxes by (now apply shiftHigh_range, shiftLow_range).
  unfold axis. reflexivity.
Qed.

(** *** Parity: no hypothesis on the inputs *)

Lemma span_ofAxes p q : Dx (ofAxes p q) = span p /\ Dy (ofAxes p q) = span q.
Proof. split; reflexivity. Qed.

Lemma span_shiftLow ab : span (shiftLow ab) = span ab.
Proof.
  unfold shiftLow, span. destruct (_ <? _); cbn [fst snd]; auto.
  apply sub_add_add.
Qed.

Lemma span_shiftHigh W ab : span (shiftHigh W ab) = span ab.
Proof.
  unfold shiftHigh, span. destruct (_ >? _); cbn [fst snd]; auto.
  apply sub_add_add.
Qed.

Lemma span_axis_even lo hi mA mS W :
  Z.even (span (axis lo hi mA mS W)) = true.
Proof.
  unfold axis. rewrite span_shiftHigh, span_shiftLow.
  unfold axisRect, span. destruct (_ >? _); cbn [fst snd].
  - apply sub_sub_add_even.
  - apply sub_add_sub_even.
Qed.

(** *** The axis without overflow *)

Lemma clampedSize_bounds cur mA mS :
  let new := clampedSize cur mA mS in
  mS <= new /\ new <= Z.max cur mS /\ new <= Z.max mA mS /\
  (new = cur \/ new = mA \/ new = mS).
Proof. unfold clampedSize. destruct (cur >? mA) eqn:?, (_ <? mS) eqn:?; lia. Qed.

Ltac unwrap :=
  repeat match goal with
    | |- context [wrap ?z] =>
        rewrite (wrap_small z)
          by (unfold in_range, min_int, max_int; Z.quot_rem_to_equations; lia)
    end.

Lemma axis_axisIdeal lo hi mA mS W :
  within61 lo -> within61 hi -> within61 mS -> within61 W ->
  axis lo hi mA mS W = axisIdeal lo hi mA mS W.
Proof.
  unfold within61. intros Hlo Hhi HmS HW.
  assert (Hr : forall z, - 2 ^ 62 <= z <= 2 ^ 62 -> wrap z = z)
    by (intros; apply wrap_small; unfold in_range, min_int, max_int; lia).
  unfold axis, axisRect, axisIdeal.
  assert (Hs : sub hi lo = hi - lo) by (apply Hr; lia).
  rewrite !Hs.
  pose proof (clampedSize_bounds (hi - lo) mA mS) as Hc. cbv zeta in Hc.
  set (new := clampedSize (hi - lo) mA mS) in *.
  assert (Hq : div new 2 = Z.quot new 2)
    by (apply Hr; Z.quot_rem_to_equations; lia).
  assert (Hd : div (hi - lo) 2 = Z.quot (hi - lo) 2)
    by (apply Hr; Z.quot_rem_to_equations; lia).
  rewrite !Hq, !Hd.
  assert (Hc' : add lo (Z.quot (hi - lo) 2) = lo + Z.quot (hi - lo) 2)
    by (apply Hr; Z.quot_rem_to_equations; lia).
  rewrite !Hc'.
  set (c := lo + Z.quot (hi - lo) 2).
  set (q := Z.quot new 2).
  assert (Hcb : - 2 ^ 61 <= c <= 2 ^ 61)
    by (subst c; Z.quot_rem_to_equations; lia).
  assert (Hqb : - 2 ^ 61 <= q <= 2 ^ 61)
    by (subst q; Z.quot_rem_to_equations; lia).
  assert (Hm : sub c q = c - q) by (apply Hr; lia).
  assert (Hp : add c q = c + q) by (apply Hr; lia).
  rewrite !Hm, !Hp.
  clear Hs Hq Hd Hc' Hm Hp Hr.
  clearbody c q. clear Hc. clearbody new.
  unfold shiftLow, shiftHigh, neg, add, sub.
  destruct (c - q >? c + q) eqn:E1; cbn [fst snd].
  - replace (Z.abs q) with (- q) by lia.
    destruct (c + q <? 0) eqn:E2;
      [replace (c - - q <? 0) with true by lia
      |replace (c - - q <? 0) with false by lia]; cbn [fst snd]; unwrap.
    + replace (c - q + - (c + q)) with (2 * - q) by lia.
      replace (c + q + - (c + q)) with 0 by lia.
      destruct (2 * - q >? W) eqn:E3; cbn [fst snd]; unwrap; f_equal; lia.
    + replace (c + - q) with (c - q) by lia.
      destruct (c - q >? W) eqn:E3; cbn [fst snd]; unwrap; f_equal; lia.
  - replace (Z.abs q) with q by lia.
    destruct (c - q <? 0) eqn:E2; cbn [fst snd]; unwrap.
    + replace (c + q + - (c - q)) with (2 * q) by lia.
      replace (c - q + - (c - q)) with 0 by lia.
      destruct (2 * q >? W) eqn:E3; cbn [fst snd]; unwrap; f_equal; lia.
    + destruct (c + q >? W) eqn:E3; cbn [fst snd]; unwrap; f_equal; lia.
Qed.

Lemma to_int_range f : in_range (Float64.to_int f).
Proof.
  unfold in_range. destruct f as [s| s| |s m e]; cbn [Float64.to_int];
    try (unfold min_int, max_int; lia).
  destruct (_ && _) eqn:E; [|unfold min_int, max_int; lia].
  apply andb_true_iff in E. lia.
Qed.

Lemma maxAllowedSize_range initialSize maxGrowth :
  in_range (maxAllowedSize initialSize maxGrowth).
Proof. apply to_int_range. Qed.

Lemma axisIdeal_spec lo hi mA mS W :
  small lo -> small hi -> small mS -> small W ->
  let half := Z.abs (Z.quot (clampedSize (hi - lo) mA mS) 2) in
  let ab := axisIdeal lo hi mA mS W in
  snd ab - fst ab = 2 * half /\ snd ab <= W /\ (fst ab < 0 -> snd ab = W) /\
  0 <= half <= 2 ^ 59 /\ - 2 ^ 61 <= fst ab /\ snd ab <= 2 ^ 61.
Proof.
  unfold small. intros Hlo Hhi HmS HW. cbv zeta. unfold axisIdeal.
  pose proof (clampedSize_bounds (hi - lo) mA mS) as Hc. cbv zeta in Hc.
  set (new := clampedSize (hi - lo) mA mS) in *.
  set (c := lo + Z.quot (hi - lo) 2).
  assert (Hcb : - 2 ^ 59 <= c <= 2 ^ 59)
    by (subst c; Z.quot_rem_to_equations; lia).
  set (h := Z.abs (Z.quot new 2)).
  assert (Hh : 0 <= h <= 2 ^ 59) by (subst h; Z.quot_rem_to_equations; lia).
  clearbody c h. cbn [fst snd].
  destruct (c - h <? 0) eqn:E1; cbn [fst snd];
    match goal with |- context [?t >? W] => destruct (t >? W) eqn:E2 end;
    cbn [fst snd]; lia.
Qed.

Lemma small_within61 z : small z -> within61 z.
Proof. unfold small, within61. lia. Qed.

Lemma axis_idempotent lo hi mA mS W :
  small lo -> small hi -> small mS -> small W ->
  let ab := axis lo hi mA mS W in
  sizeInBounds (span ab) mS mA ->
  axis (fst ab) (snd ab) mA mS W = ab.
Proof.
  intros Hlo Hhi HmS HW. cbv zeta.
  rewrite (axis_axisIdeal lo hi) by auto using small_within61.
  pose proof (axisIdeal_spec lo hi mA mS W Hlo Hhi HmS HW) as Hsp.
  cbv zeta in Hsp.
  set (h := Z.abs _) in Hsp.
  destruct (axisIdeal lo hi mA mS W) as [a b]. cbn [fst snd] in *.
  destruct Hsp as (Hd & HbW & Ha & Hh & Hal & Hbu).
  unfold sizeInBounds, span, sub. cbn [fst snd].
  rewrite wrap_small by (unfold in_range, min_int, max_int; lia).
  intros Hsz. unfold small in *.
  rewrite axis_axisIdeal by (unfold within61; lia).
  unfold axisIdeal.
  assert (Hn : clampedSize (b - a) mA mS = b - a)
    by (unfold clampedSize; destruct (b - a >? mA) eqn:?, (_ <? mS) eqn:?; lia).
  rewrite Hn.
  assert (Hq : Z.quot (b - a) 2 = h) by (Z.quot_rem_to_equations; lia).
  rewrite Hq. replace (Z.abs h) with h by lia. cbn [fst snd].
  destruct (a + h - h <? 0) eqn:E1; cbn [fst snd];
    match goal with |- context [?t >? W] => destruct (t >? W) eqn:E2 end;
    f_equal; lia.
Qed.

End ConstrainFacts.

(** ** The claims on ConstrainBoundingBox *)

Module Constrain.
Import GoInt GoIntFacts utils ConstrainFacts.

Lemma Dx_axes p q : Dx (ofAxes p q) = span p.
Proof. reflexivity. Qed.

Lemma Dy_axes p q : Dy (ofAxes p q) = span q.
Proof. reflexivity. Qed.

(** On small inputs the span of an axis is twice the halved clamped size,
    and the interval lies in the frame as soon as it is not longer than it. *)
Lemma axis_small lo hi mA mS W :
  small lo -> small hi -> small mS -> small W ->
  let half := Z.abs (Z.quot (clampedSize (sub hi lo) mA mS) 2) in
  let ab := axis lo hi mA mS W in
  span ab = 2 * half /\ (span ab <= W -> 0 <= fst ab /\ snd ab <= W).
Proof.
  intros Hlo Hhi HmS HW. cbv zeta.
  assert (Hs : sub hi lo = hi - lo).
  { apply wrap_small. unfold small, in_range, min_int, max_int in *. lia. }
  rewrite Hs, axis_axisIdeal by auto using small_within61.
  pose proof (axisIdeal_spec lo hi mA mS W Hlo Hhi HmS HW) as Hsp.
  cbv zeta in Hsp. destruct (axisIdeal lo hi mA mS W) as [a b].
  cbn [fst snd] in *. unfold span, sub. cbn [fst snd].
  rewrite wrap_small by (unfold in_range, min_int, max_int; lia).
  lia.
Qed.

(** C10.  Whatever the input, the rectangle returned by
    ConstrainBoundingBox has an even width and an even height.  When
    nothing overflows and minSize is not negative, each dimension is
    twice the halved clamped size, hence one pixel below it when it is odd:
    one below minSize when the clamp lands on an odd minSize, one below
    maxAllowedSize when it lands on an odd maxAllowedSize. *)
Theorem ConstrainBoundingBox_even_dimensions
    rect initialSize maxGrowth minSize W H :
  let r := ConstrainBoundingBox rect initialSize maxGrowth minSize W H in
  let mA := maxAllowedSize initialSize maxGrowth in
  let newWidth := clampedSize (Dx rect) mA minSize in
  let newHeight := clampedSize (Dy rect) mA minSize in
  Z.even (Dx r) = true /\ Z.even (Dy r) = true /\
  (smallRect rect -> small minSize -> small W -> small H -> 0 <= minSize ->
   Dx r = 2 * (newWidth / 2) /\ Dy r = 2 * (newHeight / 2) /\
   (Z.odd newWidth = true -> Dx r = newWidth - 1) /\
   (Z.odd newHeight = true -> Dy r = newHeight - 1) /\
   (Dx rect <= minSize -> Z.odd minSize = true -> Dx r = minSize - 1) /\
   (Dy rect <= minSize -> Z.odd minSize = true -> Dy r = minSize - 1) /\
   (minSize <= mA < Dx rect -> Z.odd mA = true -> Dx r = mA - 1) /\
   (minSize <= mA < Dy rect -> Z.odd mA = true -> Dy r = mA - 1)).
Proof.
  cbv zeta. rewrite ConstrainBoundingBox_axes. cbv zeta.
  rewrite Dx_axes, Dy_axes.
  split; [apply span_axis_even|]. split; [apply span_axis_even|].
  intros (Hx0 & Hy0 & Hx1 & Hy1) HmS HW HH Hpos.
  set (mA := maxAllowedSize initialSize maxGrowth).
  destruct (axis_small (X (Min rect)) (X (Max rect)) mA minSize W) as [Ex _];
    auto.
  destruct (axis_small (Y (Min rect)) (Y (Max rect)) mA minSize H) as [Ey _];
    auto.
  rewrite Ex, Ey. unfold Dx, Dy.
  pose proof (clampedSize_bounds (sub (X (Max rect)) (X (Min rect))) mA minSize)
    as Bx.
  pose proof (clampedSize_bounds (sub (Y (Max rect)) (Y (Min rect))) mA minSize)
    as By.
  cbv zeta in Bx, By.
  set (nw := clampedSize (sub (X (Max rect)) (X (Min rect))) mA minSize) in *.
  set (nh := clampedSize (sub (Y (Max rect)) (Y (Min rect))) mA minSize) in *.
  assert (Hw : 2 * Z.abs (Z.quot nw 2) = 2 * (nw / 2))
    by (rewrite Z.quot_div_nonneg by lia; pose proof (Z.div_pos nw 2); lia).
  assert (Hh : 2 * Z.abs (Z.quot nh 2) = 2 * (nh / 2))
    by (rewrite Z.quot_div_nonneg by lia; pose proof (Z.div_pos nh 2); lia).
  rewrite Hw, Hh.
  assert (Ow : Z.odd nw = true -> 2 * (nw / 2) = nw - 1).
  { intros Ho. rewrite (Z.div_mod nw 2) at 2 by lia.
    rewrite Zmod_odd, Ho. lia. }
  assert (Oh : Z.odd nh = true -> 2 * (nh / 2) = nh - 1).
  { intros Ho. rewrite (Z.div_mod nh 2) at 2 by lia.
    rewrite Zmod_odd, Ho. lia. }
  repeat split; auto.
  - intros Hle Ho. assert (E : nw = minSize) by lia.
    rewrite E in *. auto.
  - intros Hle Ho. assert (E : nh = minSize) by lia.
    rewrite E in *. auto.
  - intros Hle Ho.
    assert (E : nw = mA) by (subst nw; unfold clampedSize;
      destruct (_ >? mA) eqn:?, (_ <? minSize) eqn:?; lia).
    rewrite E in *. auto.
  - intros Hle Ho.
    assert (E : nh = mA) by (subst nh; unfold clampedSize;
      destruct (_ >? mA) eqn:?, (_ <? minSize) eqn:?; lia).
    rewrite E in *. auto.
Qed.

Lemma ConstrainBoundingBox_even_dimensions_witness :
  let r := ConstrainBoundingBox (Rect 100 100 110 110) 50 (Float64.of_int 2)
             41 640 480 in
  Dx r = 40 /\ Dy r = 40.
Proof.
  destruct (ConstrainBoundingBox_even_dimensions
              (Rect 100 100 110 110) 50 (Float64.of_int 2) 41 640 480)
    as (_ & _ & Hs).
  destruct Hs as (_ & _ & _ & _ & Hx & Hy & _);
    try (unfold smallRect, small; cbn [Rect Min Max X Y]; simpl; lia).
  split; [apply Hx | apply Hy]; vm_compute; intuition congruence.
Defined.

(** C10 as stated fails: a negative clamped size is halved towards zero
    and the corners are put in order, so with minSize -3 and a growth
    factor of -1.0 a 10x10 region comes out 2 wide and high, where twice
    the half rounded down is -4. *)
Lemma ConstrainBoundingBox_halved_sizes_fail :
  ConstrainBoundingBox (Rect 0 0 10 10) 50 (Float64.of_int (-1)) (-3) 640 480
  = Rect 4 4 6 6 /\
  clampedSize 10 (maxAllowedSize 50 (Float64.of_int (-1))) (-3) = -3 /\
  ~ evenDimensionsClaim (Rect 0 0 10 10) 50 (Float64.of_int (-1)) (-3) 640 480.
Proof.
  split; [vm_compute; reflexivity|]. split; [vm_compute; reflexivity|].
  unfold evenDimensionsClaim. vm_compute. intros [H _]. discriminate H.
Qed.

(** The same formula fails when the corners wrap around: a region at the
    least abscissa comes out -40 wide where the formula gives 40. *)
Example ConstrainBoundingBox_wrapped_width :
  let rect := Rect (- 2 ^ 63) 0 (10 - 2 ^ 63) 10 in
  Dx (ConstrainBoundingBox rect 50 (Float64.of_int 2) 40 640 480) = -40 /\
  ~ evenDimensionsClaim rect 50 (Float64.of_int 2) 40 640 480.
Proof.
  cbv zeta. split; [vm_compute; reflexivity|].
  unfold evenDimensionsClaim. vm_compute. intros [H _]. discriminate H.
Qed.

(** The example of the specification: with initialSize 50, maxGrowth 2.0
    and minSize 40 a 200x200 region becomes 100x100 around the same
    centre. *)
Example ConstrainBoundingBox_200_to_100 :
  ConstrainBoundingBox (Rect 200 100 400 300) 50 (Float64.of_int 2)
    40 640 480 = Rect 250 150 350 250.
Proof. vm_compute. reflexivity. Qed.

(** What ConstrainBoundingBox does keep.  When nothing overflows and
    minSize is not negative, the rectangle returned has each dimension between
    minSize rounded down to an even number and the larger of minSize and
    maxAllowedSize, and along each axis on which that dimension is at most
    the frame's the rectangle lies within the frame. *)
Theorem ConstrainBoundingBox_bounds rect initialSize maxGrowth minSize W H :
  smallRect rect -> small minSize -> 0 <= minSize -> small W -> small H ->
  let r := ConstrainBoundingBox rect initialSize maxGrowth minSize W H in
  let mA := maxAllowedSize initialSize maxGrowth in
  2 * (minSize / 2) <= Dx r <= Z.max minSize mA /\
  2 * (minSize / 2) <= Dy r <= Z.max minSize mA /\
  (Z.even minSize = true -> sizeBounds r minSize mA) /\
  (Dx r <= W -> withinX r W) /\
  (Dy r <= H -> withinY r H).
Proof.
  intros (Hx0 & Hy0 & Hx1 & Hy1) HmS Hpos HW HH. cbv zeta.
  rewrite ConstrainBoundingBox_axes. cbv zeta.
  set (mA := maxAllowedSize initialSize maxGrowth).
  unfold sizeBounds, sizeInBounds, withinX, withinY.
  rewrite Dx_axes, Dy_axes. cbn [ofAxes Min Max X Y].
  destruct (axis_small (X (Min rect)) (X (Max rect)) mA minSize W)
    as [Ex Wx]; auto.
  destruct (axis_small (Y (Min rect)) (Y (Max rect)) mA minSize H)
    as [Ey Wy]; auto.
  pose proof (clampedSize_bounds (sub (X (Max rect)) (X (Min rect))) mA minSize)
    as Bx.
  pose proof (clampedSize_bounds (sub (Y (Max rect)) (Y (Min rect))) mA minSize)
    as By.
  cbv zeta in Bx, By.
  set (nw := clampedSize (sub (X (Max rect)) (X (Min rect))) mA minSize) in *.
  set (nh := clampedSize (sub (Y (Max rect)) (Y (Min rect))) mA minSize) in *.
  assert (Hev : Z.even minSize = true -> 2 * (minSize / 2) = minSize).
  { intros He. rewrite (Z.div_mod minSize 2) at 2 by lia.
    rewrite Zmod_even, He. lia. }
  assert (Hhalf : forall n, minSize <= n ->
            2 * (minSize / 2) <= 2 * Z.abs (Z.quot n 2) <= n).
  { clear - Hpos. intros n Hn. rewrite Z.quot_div_nonneg by lia.
    pose proof (Z.div_le_mono minSize n 2 ltac:(lia) Hn).
    pose proof (Z.div_pos minSize 2 Hpos ltac:(lia)).
    pose proof (Z.mul_div_le n 2 ltac:(lia)). lia. }
  pose proof (Hhalf nw (proj1 Bx)) as Hw.
  pose proof (Hhalf nh (proj1 By)) as Hh.
  rewrite Ex in Wx |- *. rewrite Ey in Wy |- *.
  assert (Hxb : 2 * (minSize / 2) <= 2 * Z.abs (Z.quot nw 2) <= Z.max minSize mA)
    by (clear - Hw Bx; lia).
  assert (Hyb : 2 * (minSize / 2) <= 2 * Z.abs (Z.quot nh 2) <= Z.max minSize mA)
    by (clear - Hh By; lia).
  split; [exact Hxb|]. split; [exact Hyb|].
  split; [intros He; specialize (Hev He); clear - Hev Hxb Hyb; lia|].
  split; assumption.
Qed.

Lemma ConstrainBoundingBox_bounds_witness :
  let r := ConstrainBoundingBox (Rect 600 400 700 500) 30 (Float64.of_int 2)
             40 640 480 in
  Dx r <= 60 /\ withinX r 640 /\ withinY r 480.
Proof.
  destruct (ConstrainBoundingBox_bounds
              (Rect 600 400 700 500) 30 (Float64.of_int 2) 40 640 480)
    as (Hx & _ & _ & Wx & Wy);
    try (unfold smallRect, small; cbn [Rect Min Max X Y]; simpl; lia).
  cbv zeta. split; [apply Hx|].
  split; [apply Wx | apply Wy]; vm_compute; congruence.
Defined.

(** The postcondition fails on small inputs too: a region wider than the
    frame is pushed out on the left and top, and an odd minSize leaves the
    result one pixel short of it. *)
Lemma ConstrainBoundingBox_claim_fails :
  ~ constrainClaim (Rect 0 0 100 100) 100 (Float64.of_int 2) 40 50 50 /\
  ~ constrainClaim (Rect 100 100 110 110) 50 (Float64.of_int 2) 41 640 480.
Proof.
  split; unfold constrainClaim, withinFrame, withinX, withinY, sizeBounds,
    sizeInBounds; vm_compute.
  - intros [[[H _] _] _]. apply H. reflexivity.
  - intros [_ [[H _] _]]. apply H. reflexivity.
Qed.

(** C3.  ConstrainBoundingBox keeps neither the rectangle within the
    image nor the minimum size, which its comments say it ensures.  Under
    the default configuration on a 640x480 frame, after 's', eight times
    '+' and ENTER, a tracker box of 500x500 that reaches 20 pixels below
    the frame is moved up whole by the last translation: the rectangle
    returned, which ProcessTracking stores and hands on to be drawn, is
    (100,-20)-(600,480), 20 pixels above the frame.  With a minimum size
    of 41 a 10x10 box comes out 40 wide and high. *)
Theorem ConstrainBoundingBox_leaves_frame :
  let config := DefaultTrackingConfig in
  let r := ConstrainBoundingBox (Rect 100 0 600 500) 260
             (MaxROIGrowth config) (MinROISize config) 640 480 in
  let r' := ConstrainBoundingBox (Rect 100 100 110 110) 50
              (Float64.of_int 2) 41 640 480 in
  r = Rect 100 (-20) 600 480 /\
  ~ withinFrame r 640 480 /\
  ~ constrainClaim (Rect 100 0 600 500) 260
      (MaxROIGrowth config) (MinROISize config) 640 480 /\
  (let state := runLoop (main.initialState overshootingTracker)
                  growThenConfirm in
   TrackingEnabled state = true /\ InitialROISize state = 260 /\
   LastKnownRect state = r) /\
  r' = Rect 85 85 125 125 /\ Dx r' < 41 /\ Dy r' < 41.
Proof.
  cbv zeta.
  assert (E : ConstrainBoundingBox (Rect 100 0 600 500) 260
                (MaxROIGrowth DefaultTrackingConfig)
                (MinROISize DefaultTrackingConfig) 640 480
              = Rect 100 (-20) 600 480) by (vm_compute; reflexivity).
  assert (E' : ConstrainBoundingBox (Rect 100 100 110 110) 50
                 (Float64.of_int 2) 41 640 480 = Rect 85 85 125 125)
    by (vm_compute; reflexivity).
  assert (Hout : ~ withinFrame (Rect 100 (-20) 600 480) 640 480).
  { unfold withinFrame, withinY. cbn [Rect Min Max X Y].
    vm_compute. intros [_ [H _]]. apply H. reflexivity. }
  split; [exact E|]. rewrite E, E'.
  split; [exact Hout|].
  split; [unfold constrainClaim; rewrite E; intros [H _]; exact (Hout H)|].
  split; [vm_compute; repeat split; reflexivity|].
  split; [reflexivity|]. vm_compute. split; reflexivity.
Qed.

(** C4.  When nothing overflows and the rectangle returned by
    ConstrainBoundingBox satisfies the size bounds, constraining it again
    with the same parameters returns it unchanged. *)
Theorem ConstrainBoundingBox_idempotent
    rect initialSize maxGrowth minSize W H :
  smallRect rect -> small minSize -> small W -> small H ->
  let r := ConstrainBoundingBox rect initialSize maxGrowth minSize W H in
  sizeBounds r minSize (maxAllowedSize initialSize maxGrowth) ->
  ConstrainBoundingBox r initialSize maxGrowth minSize W H = r.
Proof.
  intros (Hx0 & Hy0 & Hx1 & Hy1) HmS HW HH. cbv zeta.
  rewrite (ConstrainBoundingBox_axes rect). cbv zeta.
  set (mA := maxAllowedSize initialSize maxGrowth).
  unfold sizeBounds. rewrite Dx_axes, Dy_axes. intros [Sx Sy].
  rewrite ConstrainBoundingBox_axes. cbv zeta. fold mA.
  cbn [ofAxes Min Max X Y].
  rewrite !axis_idempotent by assumption.
  reflexivity.
Qed.

Lemma ConstrainBoundingBox_idempotent_witness :
  let r := ConstrainBoundingBox (Rect 600 400 900 700) 50 (Float64.of_int 2)
             40 640 480 in
  r = Rect 540 380 640 480 /\
  ConstrainBoundingBox r 50 (Float64.of_int 2) 40 640 480 = r.
Proof.
  split; [vm_compute; reflexivity|].
  apply (ConstrainBoundingBox_idempotent
           (Rect 600 400 900 700) 50 (Float64.of_int 2) 40 640 480);
    try (unfold smallRect, small; cbn [Rect Min Max X Y]; simpl; lia).
  unfold sizeBounds, sizeInBounds. vm_compute. intuition congruence.
Defined.

End Constrain.

(** Projections of updated states. *)
Ltac state_simpl :=
  cbn [negb andb orb fst snd
       Tracker TrackingEnabled AutoTrackingEnabled ROI InitialROISize TrackingFailureCount LastKnownRect
       ROISelectionMode ROICenterX ROICenterY ROIWidth ROIHeight FrameCount
       set_Tracker set_TrackingEnabled set_AutoTrackingEnabled set_ROI set_InitialROISize set_TrackingFailureCount
       set_LastKnownRect set_ROISelectionMode set_ROICenterX set_ROICenterY set_ROIWidth set_ROIHeight set_FrameCount].

(** ** The tracking state machine *)

Module Tracking.
Import GoInt GoIntFacts tracking.

Section WithTracker.
Context {T : Type} `{gocv_Tracker T}.

(** The specification's example: a sixfold change of size passes the
    threshold 5.0 in both directions, a threefold one does not. *)
Example suspiciousSizeChange_ratio_6 :
  suspiciousSizeChange (Rect 0 0 600 600) (Rect 0 0 100 100)
    (Float64.of_int 5) = true /\
  suspiciousSizeChange (Rect 0 0 100 100) (Rect 0 0 600 600)
    (Float64.of_int 5) = true /\
  suspiciousSizeChange (Rect 0 0 300 300) (Rect 0 0 100 100)
    (Float64.of_int 5) = false.
Proof. vm_compute. auto. Qed.

(** The suspicious branch of ProcessTracking, as one equation. *)
Lemma ProcessTracking_suspicious_eq
    (state : AppState T) frame config tracker rect :
  TrackingEnabled state = true ->
  Update (Tracker state) frame = (tracker, (rect, true)) ->
  Empty (LastKnownRect state) = false ->
  suspiciousSizeChange rect (LastKnownRect state)
    (SizeChangeThreshold config) = true ->
  ProcessTracking state frame config =
  (set_TrackingFailureCount (incr 0) (set_Tracker tracker state),
   LastKnownRect state).
Proof.
  intros Hon Hup Hne Hsus. unfold ProcessTracking.
  rewrite Hon, Hup. state_simpl.
  rewrite Hne, Hsus. state_simpl. reflexivity.
Qed.

(** C1.  In a tracking step whose update succeeds while the last known
    region is not empty and the size test fires, ProcessTracking leaves
    LastKnownRect as it was, returns it as the rectangle (no growth
    constraint is applied), and the failure counter, reset to 0 by the
    success, is incremented to 1: nothing but the tracker and the counter
    changes. *)
Theorem ProcessTracking_suspicious_size
    (state : AppState T) frame config tracker rect :
  TrackingEnabled state = true ->
  Update (Tracker state) frame = (tracker, (rect, true)) ->
  Empty (LastKnownRect state) = false ->
  suspiciousSizeChange rect (LastKnownRect state)
    (SizeChangeThreshold config) = true ->
  let result := ProcessTracking state frame config in
  LastKnownRect (fst result) = LastKnownRect state /\
  snd result = LastKnownRect state /\
  TrackingFailureCount (fst result) = incr 0 /\
  incr 0 = 1 /\
  fst result = set_TrackingFailureCount 1 (set_Tracker tracker state).
Proof.
  intros Hon Hup Hne Hsus. cbv zeta.
  rewrite (ProcessTracking_suspicious_eq state frame config tracker rect)
    by assumption.
  state_simpl. assert (incr 0 = 1) as -> by reflexivity. auto.
Qed.

(** C2.  In a tracking step whose update fails and brings the failure
    counter to MaxTrackingFailures, tracking is switched off, the counter
    is reset to 0 and an empty rectangle is returned; the session goes to
    AutoSearching, or to Idle when a manual selection is in progress. *)
Theorem ProcessTracking_gives_up
    (state : AppState T) frame config tracker rect :
  inActiveTracking state ->
  Update (Tracker state) frame = (tracker, (rect, false)) ->
  MaxTrackingFailures config <= incr (TrackingFailureCount state) ->
  let result := ProcessTracking state frame config in
  TrackingEnabled (fst result) = false /\
  TrackingFailureCount (fst result) = 0 /\
  trackingMode (fst result)
    = (if ROISelectionMode state then Idle else AutoSearching) /\
  ROISelectionMode (fst result) = ROISelectionMode state /\
  snd result = ZR.
Proof.
  intros [Hon Hauto] Hup Hmax. cbv zeta. unfold ProcessTracking.
  rewrite Hon, Hup. state_simpl.
  replace (_ >=? _) with true by lia.
  unfold trackingMode.
  destruct (ROISelectionMode state) eqn:Hroi; state_simpl;
    rewrite ?Hroi, ?Hauto; auto.
Qed.

(** C7, amended.  When the failure counter reaches MaxTrackingFailures and
    tracking is given up, the rectangle returned for the frame is the
    empty one, and LastKnownRect is kept as it was. *)
Theorem ProcessTracking_gives_up_keeps_last_known
    (state : AppState T) frame config tracker rect :
  TrackingEnabled state = true ->
  Update (Tracker state) frame = (tracker, (rect, false)) ->
  MaxTrackingFailures config <= incr (TrackingFailureCount state) ->
  let result := ProcessTracking state frame config in
  TrackingEnabled (fst result) = false /\
  snd result = ZR /\ Empty (snd result) = true /\
  LastKnownRect (fst result) = LastKnownRect state.
Proof.
  intros Hon Hup Hmax. cbv zeta. unfold ProcessTracking.
  rewrite Hon, Hup. state_simpl.
  replace (_ >=? _) with true by lia.
  destruct (ROISelectionMode state) eqn:Hroi; state_simpl; auto.
Qed.

End WithTracker.

Lemma ProcessTracking_suspicious_size_witness :
  let state :=
    trackingSession (mkScripted [(Rect 0 0 600 600, true)] []) 3
      (Rect 100 100 200 200) in
  let result := ProcessTracking state vga DefaultTrackingConfig in
  snd result = Rect 100 100 200 200 /\
  TrackingFailureCount (fst result) = 1 /\
  LastKnownRect (fst result) = Rect 100 100 200 200.
Proof.
  cbv zeta.
  destruct (ProcessTracking_suspicious_size
              (trackingSession (mkScripted [(Rect 0 0 600 600, true)] []) 3
                 (Rect 100 100 200 200))
              vga DefaultTrackingConfig (mkScripted [] []) (Rect 0 0 600 600))
    as (Hl & Hr & Hc & Hone & _); try (vm_compute; reflexivity).
  rewrite Hr, Hc, Hl. auto.
Defined.

Lemma ProcessTracking_gives_up_witness :
  let state :=
    trackingSession (mkScripted [(ZR, false)] []) 11 (Rect 100 100 200 200) in
  let result := ProcessTracking state vga DefaultTrackingConfig in
  trackingMode (fst result) = AutoSearching /\
  TrackingFailureCount (fst result) = 0.
Proof.
  cbv zeta.
  destruct (ProcessTracking_gives_up
              (trackingSession (mkScripted [(ZR, false)] []) 11
                 (Rect 100 100 200 200))
              vga DefaultTrackingConfig (mkScripted [] []) ZR)
    as (_ & Hc & Hm & _).
  - split; reflexivity.
  - reflexivity.
  - vm_compute. discriminate.
  - rewrite Hm, Hc. auto.
Defined.

Lemma ProcessTracking_gives_up_keeps_last_known_witness :
  let state :=
    trackingSession (mkScripted [(ZR, false)] []) 11 (Rect 100 100 200 200) in
  let result := ProcessTracking state vga DefaultTrackingConfig in
  snd result = ZR /\ LastKnownRect (fst result) = Rect 100 100 200 200.
Proof.
  cbv zeta.
  destruct (ProcessTracking_gives_up_keeps_last_known
              (trackingSession (mkScripted [(ZR, false)] []) 11
                 (Rect 100 100 200 200))
              vga DefaultTrackingConfig (mkScripted [] []) ZR)
    as (_ & Hr & _ & Hl).
  - reflexivity.
  - reflexivity.
  - vm_compute. discriminate.
  - rewrite Hr, Hl. auto.
Defined.

(** The specification's example: twelve failed updates in a row, with no
    recovery in between, end in AutoSearching with the counter at 0; after
    eleven the session still tracks. *)
Example twelve_failures_give_up :
  let state :=
    trackingSession (mkScripted (repeat (ZR, false) 12) []) 0
      (Rect 100 100 200 200) in
  let after11 := runTracking state (repeat vga 11) DefaultTrackingConfig in
  let after12 := runTracking state (repeat vga 12) DefaultTrackingConfig in
  TrackingFailureCount after11 = 11 /\ trackingMode after11 = ActiveTracking /\
  TrackingFailureCount after12 = 0 /\ trackingMode after12 = AutoSearching.
Proof. vm_compute. auto. Qed.

(** C7 as stated fails: the twelfth failure in a row sends the session to
    AutoSearching with the counter at 0, and LastKnownRect is still the
    region known before. *)
Lemma ProcessTracking_gives_up_last_known_not_cleared :
  let state :=
    trackingSession (mkScripted [(ZR, false)] []) 11 (Rect 100 100 200 200) in
  let result := ProcessTracking state vga DefaultTrackingConfig in
  inActiveTracking state /\ Empty (LastKnownRect state) = false /\
  trackingMode (fst result) = AutoSearching /\
  TrackingFailureCount (fst result) = 0 /\
  LastKnownRect (fst result) <> ZR /\
  Empty (LastKnownRect (fst result)) = false.
Proof.
  cbv zeta. vm_compute. repeat split; congruence.
Qed.

End Tracking.

(** ** Runs of suspected drift *)

Module Drift.
Import GoInt GoIntFacts tracking.

Section WithTracker.
Context {T : Type} `{gocv_Tracker T}.

Lemma driftFrame_step (state : AppState T) frame config :
  TrackingEnabled state = true ->
  driftFrame state frame config ->
  let state' := fst (ProcessTracking state frame config) in
  TrackingEnabled state' = true /\
  TrackingFailureCount state' = 1 /\
  AutoTrackingEnabled state' = AutoTrackingEnabled state /\
  ROISelectionMode state' = ROISelectionMode state /\
  LastKnownRect state' = LastKnownRect state.
Proof.
  unfold driftFrame. intros Hon.
  destruct (Update (Tracker state) frame) as [tracker [rect ok]] eqn:Hup.
  intros (-> & Hne & Hsus).
  cbv zeta.
  rewrite (Tracking.ProcessTracking_suspicious_eq
             state frame config tracker rect Hon Hup Hne Hsus).
  state_simpl. auto.
Qed.

Lemma driftRun_firstn (n : nat) : forall (state : AppState T) frames config,
  driftRun state frames config -> driftRun state (firstn n frames) config.
Proof.
  induction n as [|n IH]; intros state [|frame rest] config; simpl; auto.
  intros [Hd Hr]. split; auto.
Qed.

Lemma driftRun_end (frames : list Mat) : forall (state : AppState T) config,
  TrackingEnabled state = true ->
  frames <> [] ->
  driftRun state frames config ->
  let state' := runTracking state frames config in
  TrackingEnabled state' = true /\
  TrackingFailureCount state' = 1 /\
  AutoTrackingEnabled state' = AutoTrackingEnabled state /\
  ROISelectionMode state' = ROISelectionMode state /\
  LastKnownRect state' = LastKnownRect state.
Proof.
  induction frames as [|frame rest IH]; intros state config Hon Hne Hrun.
  - congruence.
  - destruct Hrun as [Hd Hrun].
    destruct (driftFrame_step state frame config Hon Hd)
      as (Hon' & Hc & Ha & Hr & Hl).
    cbn [runTracking]. destruct rest as [|frame' rest'].
    + cbn [runTracking]. auto.
    + destruct (IH _ config Hon' ltac:(discriminate) Hrun)
        as (Hon2 & Hc2 & Ha2 & Hr2 & Hl2).
      cbv zeta. rewrite Hon2, Hc2, Ha2, Hr2, Hl2. auto.
Qed.

(** ProcessTracking switches tracking off only in the branch of a failed
    update that has brought the counter to the maximum. *)
Lemma ProcessTracking_off_only_on_failure (state : AppState T) frame config :
  TrackingEnabled state = true ->
  TrackingEnabled (fst (ProcessTracking state frame config)) = false ->
  snd (snd (Update (Tracker state) frame)) = false /\
  MaxTrackingFailures config <= incr (TrackingFailureCount state).
Proof.
  intros Hon. unfold ProcessTracking. rewrite Hon. state_simpl.
  destruct (Update (Tracker state) frame) as [tracker [rect ok]].
  state_simpl. destruct ok.
  - destruct (negb _ && _); state_simpl; congruence.
  - destruct (_ >=? _) eqn:Hmax.
    + intros _. split; [reflexivity | lia].
    + destruct (negb (Empty _)).
      * destruct (TryTrackingRecovery _ _ _ _) as [tracker' recovered].
        destruct recovered; state_simpl; congruence.
      * state_simpl. congruence.
Qed.

(** C9.  From any tracking state, after each frame of a run of frames on
    which the update succeeds and the size test fires, the failure counter
    is exactly 1 and tracking is still on, with the search flag untouched:
    below any threshold above 1, and never a give-up.  Tracking is
    switched off by ProcessTracking only on a failed update that brings
    the counter to MaxTrackingFailures. *)
Theorem drift_never_gives_up :
  (forall (state : AppState T) frames config (n : nat),
     TrackingEnabled state = true ->
     driftRun state frames config ->
     (0 < n <= length frames)%nat ->
     let state' := runTracking state (firstn n frames) config in
     TrackingFailureCount state' = 1 /\
     TrackingEnabled state' = true /\
     trackingMode state' = ActiveTracking /\
     AutoTrackingEnabled state' = AutoTrackingEnabled state /\
     (1 < MaxTrackingFailures config ->
      TrackingFailureCount state' < MaxTrackingFailures config)) /\
  (forall (state : AppState T) frame config,
     TrackingEnabled state = true ->
     TrackingEnabled (fst (ProcessTracking state frame config)) = false ->
     snd (snd (Update (Tracker state) frame)) = false /\
     MaxTrackingFailures config <= incr (TrackingFailureCount state)).
Proof.
  split; [|exact ProcessTracking_off_only_on_failure].
  intros state frames config n Hon Hrun Hn.
  assert (Hne : firstn n frames <> []).
  { destruct n; [lia|]. destruct frames; simpl in *; [lia | discriminate]. }
  destruct (driftRun_end (firstn n frames) state config Hon Hne
              (driftRun_firstn n state frames config Hrun))
    as (Hon' & Hc & Ha & _ & _).
  cbv zeta. unfold trackingMode. rewrite Hon', Hc, Ha.
  repeat split; auto.
Qed.

End WithTracker.

Lemma drift_never_gives_up_witness :
  let state :=
    trackingSession
      (mkScripted [(Rect 0 0 600 600, true); (Rect 0 0 700 700, true);
                   (Rect 0 0 10 10, true)] [])
      11 (Rect 100 100 200 200) in
  let state' :=
    runTracking state (firstn 3 [vga; vga; vga]) DefaultTrackingConfig in
  TrackingFailureCount state' = 1 /\ TrackingEnabled state' = true.
Proof.
  cbv zeta.
  destruct (@drift_never_gives_up ScriptedTracker scripted) as [Hrun _].
  destruct (Hrun
              (trackingSession
                 (mkScripted [(Rect 0 0 600 600, true); (Rect 0 0 700 700, true);
                              (Rect 0 0 10 10, true)] [])
                 11 (Rect 100 100 200 200))
              [vga; vga; vga] DefaultTrackingConfig 3%nat)
    as (Hc & Hon & _).
  - reflexivity.
  - vm_compute. auto 10.
  - simpl. lia.
  - split; assumption.
Defined.

End Drift.

(** ** The keys *)

Module Keys.
Import GoInt GoIntFacts input.

Ltac unwrap :=
  repeat match goal with
    | |- context [wrap ?z] =>
        rewrite (wrap_small z)
          by (unfold in_range, min_int, max_int; Z.quot_rem_to_equations; lia)
    end.

Lemma nudge_back c size bound :
  small size -> small bound ->
  centered c (Z.quot size 2) bound ->
  let c1 := sub c 10 in
  centered (if c1 <? div size 2 then div size 2 else c1) (Z.quot size 2) bound.
Proof.
  unfold small, centered. intros Hs Hb Hc. cbv zeta. unfold sub, div.
  assert (Hq : - 2 ^ 59 <= Z.quot size 2 <= 2 ^ 59)
    by (Z.quot_rem_to_equations; lia).
  set (h := Z.quot size 2) in *. clearbody h. unwrap.
  destruct (c - 10 <? h) eqn:E; lia.
Qed.

Lemma nudge_forth c size bound :
  small size -> small bound ->
  centered c (Z.quot size 2) bound ->
  let c1 := add c 10 in
  centered (if c1 >? sub bound (div size 2) then sub bound (div size 2) else c1)
    (Z.quot size 2) bound.
Proof.
  unfold small, centered. intros Hs Hb Hc. cbv zeta. unfold add, sub, div.
  assert (Hq : - 2 ^ 59 <= Z.quot size 2 <= 2 ^ 59)
    by (Z.quot_rem_to_equations; lia).
  set (h := Z.quot size 2) in *. clearbody h. unwrap.
  destruct (c + 10 >? bound - h) eqn:E; lia.
Qed.

Section WithTracker.
Context {T : Type} `{gocv_Tracker T}.

Lemma nudgeInv_of_inFrame (state : AppState T) frame :
  smallSelection state frame -> selectionInFrame state frame ->
  nudgeInv state frame.
Proof.
  unfold smallSelection, selectionInFrame, withinFrame, withinX, withinY,
    selectionRect, nudgeInv, centered, small.
  cbn [Min Max X Y]. unfold sub, add, div.
  intros (Hx & Hy & Hw & Hh & HW & HH).
  assert (Hqw : - 2 ^ 59 <= Z.quot (ROIWidth state) 2 <= 2 ^ 59)
    by (Z.quot_rem_to_equations; lia).
  assert (Hqh : - 2 ^ 59 <= Z.quot (ROIHeight state) 2 <= 2 ^ 59)
    by (Z.quot_rem_to_equations; lia).
  set (hw := Z.quot (ROIWidth state) 2) in *.
  set (hh := Z.quot (ROIHeight state) 2) in *. clearbody hw hh.
  unwrap. lia.
Qed.

Lemma inFrame_of_nudgeInv (state : AppState T) frame :
  nudgeInv state frame -> selectionInFrame state frame.
Proof.
  unfold selectionInFrame, withinFrame, withinX, withinY,
    selectionRect, nudgeInv, centered, small.
  cbn [Min Max X Y]. unfold sub, add, div.
  intros (Hw & Hh & HW & HH & Hx & Hy).
  assert (Hqw : - 2 ^ 59 <= Z.quot (ROIWidth state) 2 <= 2 ^ 59)
    by (Z.quot_rem_to_equations; lia).
  assert (Hqh : - 2 ^ 59 <= Z.quot (ROIHeight state) 2 <= 2 ^ 59)
    by (Z.quot_rem_to_equations; lia).
  set (hw := Z.quot (ROIWidth state) 2) in *.
  set (hh := Z.quot (ROIHeight state) 2) in *. clearbody hw hh.
  unwrap. lia.
Qed.

Lemma HandleROIKeys_nudgeInv key (state : AppState T) frame :
  isNudgeKey key = true ->
  nudgeInv state frame -> nudgeInv (HandleROIKeys key state frame) frame.
Proof.
  unfold isNudgeKey. intros Hk Hinv.
  unfold HandleROIKeys. destruct (negb (ROISelectionMode state)); auto.
  destruct Hinv as (Hw & Hh & HW & HH & Hx & Hy).
  destruct (key =? key_up) eqn:E0; [|destruct (key =? key_down) eqn:E1;
    [|destruct (key =? key_left) eqn:E2; [|destruct (key =? key_right) eqn:E3;
      [|discriminate]]]]; state_simpl.
  - pose proof (nudge_back _ _ _ Hh HH Hy) as Hn. cbv zeta in Hn.
    destruct (_ <? _); unfold nudgeInv; state_simpl; auto 10.
  - pose proof (nudge_forth _ _ _ Hh HH Hy) as Hn. cbv zeta in Hn.
    destruct (_ >? _); unfold nudgeInv; state_simpl; auto 10.
  - pose proof (nudge_back _ _ _ Hw HW Hx) as Hn. cbv zeta in Hn.
    destruct (_ <? _); unfold nudgeInv; state_simpl; auto 10.
  - pose proof (nudge_forth _ _ _ Hw HW Hx) as Hn. cbv zeta in Hn.
    destruct (_ >? _); unfold nudgeInv; state_simpl; auto 10.
Qed.

Lemma pressROIKeys_nudgeInv keys : forall (state : AppState T) frame,
  forallb isNudgeKey keys = true ->
  nudgeInv state frame -> nudgeInv (pressROIKeys state keys frame) frame.
Proof.
  induction keys as [|key rest IH]; intros state frame Hk Hinv; auto.
  cbn [forallb] in Hk. apply andb_true_iff in Hk as [Hk Hrest].
  cbn [pressROIKeys]. apply IH; auto.
  now apply HandleROIKeys_nudgeInv.
Qed.

(** C6, amended.  When nothing overflows and the selection rectangle lies
    within the frame, it still lies within the frame after every sequence
    of directional nudges. *)
Theorem nudges_keep_selection_in_frame (state : AppState T) frame keys :
  forallb isNudgeKey keys = true ->
  smallSelection state frame ->
  selectionInFrame state frame ->
  selectionInFrame (pressROIKeys state keys frame) frame.
Proof.
  intros Hk Hs Hin. apply inFrame_of_nudgeInv, pressROIKeys_nudgeInv; auto.
  now apply nudgeInv_of_inFrame.
Qed.

(** Adjusting keys change neither the mode flags nor the tracker. *)
Lemma ProcessInput_adjust key (state : AppState T) frame :
  isAdjustKey key = true ->
  let result := ProcessInput key state frame in
  snd result = false /\
  ROISelectionMode (fst result) = ROISelectionMode state /\
  TrackingEnabled (fst result) = TrackingEnabled state /\
  AutoTrackingEnabled (fst result) = AutoTrackingEnabled state.
Proof.
  unfold isAdjustKey, isNudgeKey, isResizeKey. intros Hk. cbv zeta.
  assert (Hm : HandleMainKeys key state frame = (state, false)).
  { unfold HandleMainKeys.
    destruct (key =? key_q) eqn:Eq; [apply Z.eqb_eq in Eq; subst; discriminate|].
    destruct (key =? key_s) eqn:Es; [apply Z.eqb_eq in Es; subst; discriminate|].
    destruct (key =? key_a) eqn:Ea; [apply Z.eqb_eq in Ea; subst; discriminate|].
    destruct (key =? key_r) eqn:Er; [apply Z.eqb_eq in Er; subst; discriminate|].
    reflexivity. }
  unfold ProcessInput.
  destruct (key =? key_escape) eqn:Ee;
    [apply Z.eqb_eq in Ee; subst; discriminate|].
  rewrite Hm. state_simpl. split; [reflexivity|].
  unfold HandleROIKeys. destruct (negb (ROISelectionMode state)); auto.
  destruct (key =? key_up); [state_simpl; destruct (_ <? _); auto|].
  destruct (key =? key_down); [state_simpl; destruct (_ >? _); auto|].
  destruct (key =? key_left); [state_simpl; destruct (_ <? _); auto|].
  destruct (key =? key_right); [state_simpl; destruct (_ >? _); auto|].
  destruct ((key =? key_plus) || (key =? key_equal));
    [state_simpl; destruct (_ >? _); state_simpl; destruct (_ >? _); auto|].
  destruct ((key =? key_minus) || (key =? key_underscore));
    [state_simpl; destruct (_ <? _); state_simpl; destruct (_ <? _); auto|].
  destruct (key =? key_enter) eqn:En; [|auto].
  apply Z.eqb_eq in En; subst; discriminate.
Qed.

Lemma pressKeys_adjust inputs : forall (state : AppState T),
  forallb (fun fk => isAdjustKey (snd fk)) inputs = true ->
  ROISelectionMode (pressKeys state inputs) = ROISelectionMode state /\
  TrackingEnabled (pressKeys state inputs) = TrackingEnabled state /\
  AutoTrackingEnabled (pressKeys state inputs) = AutoTrackingEnabled state.
Proof.
  induction inputs as [|[frame key] rest IH]; intros state Hk; auto.
  cbn [forallb snd] in Hk. apply andb_true_iff in Hk as [Hk Hrest].
  cbn [pressKeys].
  destruct (ProcessInput_adjust key state frame Hk) as (Hq & Hr & Ht & Ha).
  destruct (ProcessInput key state frame) as [state' quit].
  cbn [fst snd] in *. subst quit.
  destruct (IH state' Hrest) as (Hr' & Ht' & Ha').
  rewrite Hr', Ht', Ha'. auto.
Qed.

(** C8, amended.  Entering the selection with 's' switches tracking and
    the search off without recording what they were; after any adjusting
    keys, ESC leaves the selection without quitting and switches the
    search on, whatever the flags were before the selection began. *)
Theorem cancel_enables_auto_tracking
    (state : AppState T) frame adjust frame' :
  ROISelectionMode state = false ->
  forallb (fun fk => isAdjustKey (snd fk)) adjust = true ->
  let result := selectThenCancel state frame adjust frame' in
  snd result = false /\
  ROISelectionMode (fst result) = false /\
  TrackingEnabled (fst result) = false /\
  AutoTrackingEnabled (fst result) = true /\
  modeOf (fst result) = AutoSearching.
Proof.
  intros Hroi Hk. cbv zeta. unfold selectThenCancel.
  set (s1 := fst (ProcessInput key_s state frame)).
  assert (H1 : ROISelectionMode s1 = true /\ TrackingEnabled s1 = false).
  { subst s1. unfold ProcessInput, HandleMainKeys.
    replace (key_s =? key_escape) with false by reflexivity.
    replace (key_s =? key_q) with false by reflexivity.
    replace (key_s =? key_s) with true by reflexivity.
    rewrite Hroi. state_simpl. unfold HandleROIKeys. state_simpl.
    replace (key_s =? key_up) with false by reflexivity.
    replace (key_s =? key_down) with false by reflexivity.
    replace (key_s =? key_left) with false by reflexivity.
    replace (key_s =? key_right) with false by reflexivity.
    replace (key_s =? key_plus) with false by reflexivity.
    replace (key_s =? key_equal) with false by reflexivity.
    replace (key_s =? key_minus) with false by reflexivity.
    replace (key_s =? key_underscore) with false by reflexivity.
    replace (key_s =? key_enter) with false by reflexivity.
    state_simpl. auto. }
  destruct H1 as [Hr1 Ht1].
  destruct (pressKeys_adjust adjust s1 Hk) as (Hr2 & Ht2 & _).
  rewrite Hr1 in Hr2. rewrite Ht1 in Ht2.
  unfold ProcessInput.
  replace (key_escape =? key_escape) with true by reflexivity.
  unfold HandleEscapeKey. rewrite Hr2. state_simpl. rewrite Ht2.
  state_simpl. unfold modeOf, trackingMode. state_simpl. rewrite Ht2. auto.
Qed.

End WithTracker.

Lemma nudges_keep_selection_in_frame_witness :
  let state := main.initialState (mkScripted [] []) in
  selectionInFrame
    (pressROIKeys (fst (ProcessInput key_s state vga))
       [key_left; key_up; key_up; key_right; key_down] vga) vga.
Proof.
  cbv zeta.
  apply (nudges_keep_selection_in_frame
           (fst (ProcessInput key_s (main.initialState (mkScripted [] [])) vga))
           vga [key_left; key_up; key_up; key_right; key_down]).
  - reflexivity.
  - unfold smallSelection, small. vm_compute. intuition discriminate.
  - unfold selectionInFrame, withinFrame, withinX, withinY. vm_compute.
    intuition discriminate.
Defined.

(** C6 as stated fails.  From the start of the program, 's', 27 times
    left, 19 times up and '+' leave a 120x120 selection centred at
    (50,50) in selection mode; the nudge to the right that follows leaves
    the rectangle above the frame.  And a selection that starts far
    outside stays outside after a nudge. *)
Lemma nudge_leaves_selection_outside :
  let state := runLoop (main.initialState (mkScripted [] [])) cornerThenGrow in
  let state' := HandleROIKeys key_right state vga in
  ROISelectionMode state = true /\
  selectionRect state' = mkRectangle (Pt 0 (-10)) (Pt 120 110) /\
  ~ selectionInFrame state' vga /\
  ~ selectionInFrame
      (HandleROIKeys key_up (set_ROICenterY 5000 state) vga) vga.
Proof.
  cbv zeta. unfold selectionInFrame, withinFrame, withinX, withinY.
  vm_compute. repeat split; try reflexivity.
  - intros [_ [Hy _]]. apply Hy. reflexivity.
  - intros [_ [_ Hy]]. apply Hy. reflexivity.
Qed.

Lemma cancel_enables_auto_tracking_witness :
  let state :=
    trackingSession (mkScripted [] []) 0 (Rect 100 100 200 200) in
  AutoTrackingEnabled
    (fst (selectThenCancel state vga [(vga, key_left); (vga, key_plus)] vga))
  = true.
Proof.
  cbv zeta.
  destruct (cancel_enables_auto_tracking
              (trackingSession (mkScripted [] []) 0 (Rect 100 100 200 200))
              vga [(vga, key_left); (vga, key_plus)] vga)
    as (_ & _ & _ & Ha & _).
  - reflexivity.
  - reflexivity.
  - exact Ha.
Defined.

(** C8 as stated fails: with a target tracked and the search off, 's'
    followed by ESC leaves the search on. *)
Lemma cancel_does_not_restore_preference :
  let state :=
    trackingSession (mkScripted [] []) 0 (Rect 100 100 200 200) in
  AutoTrackingEnabled state = false /\
  AutoTrackingEnabled (fst (selectThenCancel state vga [] vga)) = true /\
  ~ cancelRestoresPreference state vga.
Proof.
  cbv zeta. unfold cancelRestoresPreference. vm_compute.
  repeat split; try reflexivity. discriminate.
Qed.

End Keys.

(** ** The flags in the states the frame loop reaches *)

Module Flags.
Import GoInt tracking input main.

Section WithTracker.
Context {T : Type} `{gocv_Tracker T}.

Ltac break_if :=
  match goal with
  | |- context [if ?b then _ else _] => destruct b eqn:?
  | |- context [let '(_, _) := ?p in _] => destruct p eqn:?
  end.

Lemma flagsExclusive_flags (state state' : AppState T) :
  flagsExclusive state ->
  (TrackingEnabled state' = true ->
   TrackingEnabled state = true /\
   AutoTrackingEnabled state' = AutoTrackingEnabled state /\
   ROISelectionMode state' = ROISelectionMode state) ->
  flagsExclusive state'.
Proof.
  unfold flagsExclusive. intros Hinv Hsame Hon.
  destruct (Hsame Hon) as (Hon0 & -> & ->). auto.
Qed.

Lemma flagsExclusive_ProcessAutoTracking (state : AppState T) frame config :
  flagsExclusive state ->
  flagsExclusive (ProcessAutoTracking state frame config).
Proof.
  intros Hinv. unfold ProcessAutoTracking.
  destruct (TrackingEnabled state || _ || ROISelectionMode state || _) eqn:Hg;
    auto.
  apply orb_false_iff in Hg as [Hg _]. apply orb_false_iff in Hg as [_ Hroi].
  destruct (Foreground frame) as [contours|]; auto.
  destruct (detect _ _ _) as [roi|]; auto.
  destruct (Init _ _ _) as [tracker ok]. destruct ok.
  - unfold flagsExclusive. state_simpl. auto.
  - apply (flagsExclusive_flags state); auto.
Qed.

Lemma flagsExclusive_defaultAutoTracking (state : AppState T) :
  flagsExclusive state -> flagsExclusive (defaultAutoTracking state).
Proof.
  intros Hinv. unfold defaultAutoTracking.
  destruct (TrackingEnabled state) eqn:Hon; state_simpl; auto.
  destruct (negb _ && negb _); auto.
  unfold flagsExclusive. state_simpl. congruence.
Qed.

Lemma flagsExclusive_ProcessTracking (state : AppState T) frame config :
  flagsExclusive state ->
  flagsExclusive (fst (ProcessTracking state frame config)).
Proof.
  intros Hinv. unfold ProcessTracking.
  destruct (TrackingEnabled state) eqn:Hon; state_simpl; auto.
  destruct (Hinv Hon) as [Hauto Hroi].
  destruct (Update _ _) as [tracker [rect ok]]. state_simpl.
  repeat break_if; state_simpl;
    unfold flagsExclusive; state_simpl; auto; congruence.
Qed.

Lemma flagsExclusive_HandleROIKeys key (state : AppState T) frame :
  flagsExclusive state -> flagsExclusive (HandleROIKeys key state frame).
Proof.
  intros Hinv. unfold HandleROIKeys.
  destruct (negb (ROISelectionMode state)); auto.
  destruct (key =? key_up);
    [state_simpl; destruct (_ <? _);
     apply (flagsExclusive_flags state); state_simpl; now auto|].
  destruct (key =? key_down);
    [state_simpl; destruct (_ >? _);
     apply (flagsExclusive_flags state); state_simpl; now auto|].
  destruct (key =? key_left);
    [state_simpl; destruct (_ <? _);
     apply (flagsExclusive_flags state); state_simpl; now auto|].
  destruct (key =? key_right);
    [state_simpl; destruct (_ >? _);
     apply (flagsExclusive_flags state); state_simpl; now auto|].
  destruct ((key =? key_plus) || (key =? key_equal));
    [state_simpl; destruct (_ >? _); state_simpl; destruct (_ >? _);
     apply (flagsExclusive_flags state); state_simpl; now auto|].
  destruct ((key =? key_minus) || (key =? key_underscore));
    [state_simpl; destruct (_ <? _); state_simpl; destruct (_ <? _);
     apply (flagsExclusive_flags state); state_simpl; now auto|].
  destruct (key =? key_enter); auto.
  unfold InitializeTracking.
  destruct (Init _ _ _) as [tracker ok]. destruct ok.
  - unfold flagsExclusive. state_simpl. auto.
  - unfold flagsExclusive in *. state_simpl. intros Hon.
    destruct (Hinv Hon). auto.
Qed.

Lemma flagsExclusive_ProcessInput key (state : AppState T) frame :
  flagsExclusive state ->
  flagsExclusive (fst (ProcessInput key state frame)).
Proof.
  intros Hinv. unfold ProcessInput.
  destruct (key =? key_escape).
  - unfold HandleEscapeKey.
    destruct (ROISelectionMode state) eqn:Hroi; state_simpl; auto.
    destruct (TrackingEnabled state) eqn:Hon; state_simpl.
    + destruct (Hinv Hon). congruence.
    + unfold flagsExclusive. state_simpl. congruence.
  - assert (Hm : flagsExclusive (fst (HandleMainKeys key state frame))).
    { unfold HandleMainKeys, ResetTracking, EnableAutoTracking.
      repeat break_if; state_simpl; auto;
        unfold flagsExclusive; state_simpl; congruence. }
    destruct (HandleMainKeys key state frame) as [state' quit].
    cbn [fst] in Hm. destruct quit; state_simpl; auto.
    now apply flagsExclusive_HandleROIKeys.
Qed.

Lemma flagsExclusive_loopBody (state : AppState T) frame key :
  flagsExclusive state ->
  flagsExclusive (fst (fst (loopBody state frame key))).
Proof.
  intros Hinv. unfold loopBody.
  set (s1 := set_FrameCount _ state).
  assert (H1 : flagsExclusive s1) by (apply (flagsExclusive_flags state); auto).
  pose proof (flagsExclusive_ProcessAutoTracking s1 frame
                DefaultTrackingConfig H1) as H2.
  apply flagsExclusive_defaultAutoTracking in H2.
  apply (flagsExclusive_ProcessTracking _ frame DefaultTrackingConfig) in H2.
  destruct (ProcessTracking _ _ _) as [s4 rect]. cbn [fst] in H2.
  apply (flagsExclusive_ProcessInput key _ frame) in H2.
  destruct (ProcessInput key s4 frame) as [s5 quit]. auto.
Qed.

(** Every state of the frame loop keeps tracking apart from the search
    and from the manual selection. *)
Lemma flagsExclusive_runLoop inputs : forall (state : AppState T),
  flagsExclusive state -> flagsExclusive (runLoop state inputs).
Proof.
  induction inputs as [|[frame key] rest IH]; intros state Hinv; auto.
  cbn [runLoop].
  pose proof (flagsExclusive_loopBody state frame key Hinv) as Hb.
  destruct (loopBody state frame key) as [[state' rect] quit].
  cbn [fst] in Hb. destruct quit; auto.
Qed.

Lemma flagsExclusive_initialState (tracker : T) :
  flagsExclusive (initialState tracker).
Proof. unfold flagsExclusive. cbn. discriminate. Qed.

(** A reachable state that tracks is in ActiveTracking. *)
Lemma reachable_tracking_inActiveTracking (tracker : T) inputs :
  let state := runLoop (initialState tracker) inputs in
  TrackingEnabled state = true ->
  inActiveTracking state /\ modeOf state = ActiveTracking.
Proof.
  cbv zeta. intros Hon.
  destruct (flagsExclusive_runLoop inputs _
              (flagsExclusive_initialState tracker) Hon) as [Ha Hr].
  unfold inActiveTracking, modeOf, trackingMode. rewrite Hr, Hon. auto.
Qed.

End WithTracker.

End Flags.

(** ** The detector *)

Module Detector.
Import GoInt GoIntFacts tracking.

(** *** The order on areas *)

Lemma SFltb_key x y :
  Float64.is_nan x = false -> Float64.is_nan y = false ->
  (SFltb x y = true <-> keyLt (areaKey x) (areaKey y)).
Proof.
  unfold keyLt, SFltb.
  destruct x as [sx|sx| |sx mx ex], y as [sy|sy| |sy my ey];
    try discriminate; intros _ _;
    try destruct sx; try destruct sy; cbn [SFcompare areaKey fst snd];
    try (split; [discriminate | lia]);
    try (split; [lia | reflexivity]).
  - change (Pos.compare_cont Eq mx my) with (Pos.compare mx my).
    destruct (Z.compare_spec ex ey), (Pos.compare_spec mx my);
      cbn [CompOpp]; split; try discriminate; try reflexivity; lia.
  - change (Pos.compare_cont Eq mx my) with (Pos.compare mx my).
    destruct (Z.compare_spec ex ey), (Pos.compare_spec mx my);
      split; try discriminate; try reflexivity; lia.
Qed.

Lemma keyLt_trans a b c : keyLt a b -> keyLt b c -> keyLt a c.
Proof. unfold keyLt. lia. Qed.

Lemma keyLt_total a b : keyLt a b \/ a = b \/ keyLt b a.
Proof.
  unfold keyLt. destruct a as [a1 [a2 a3]], b as [b1 [b2 b3]].
  cbn [fst snd].
  destruct (Z.lt_trichotomy a1 b1) as [?|[?|?]];
    destruct (Z.lt_trichotomy a2 b2) as [?|[?|?]];
    destruct (Z.lt_trichotomy a3 b3) as [?|[?|?]]; subst; auto; try lia.
Qed.

Lemma keyLt_irrefl a : ~ keyLt a a.
Proof. unfold keyLt. lia. Qed.

Section Order.
Variables x y z : Float64.t.
Hypothesis Hx : Float64.is_nan x = false.
Hypothesis Hy : Float64.is_nan y = false.
Hypothesis Hz : Float64.is_nan z = false.

Lemma gt_trans :
  Float64.gt x y = true -> Float64.gt y z = true -> Float64.gt x z = true.
Proof.
  unfold Float64.gt. rewrite !SFltb_key by assumption.
  intros H1 H2. eapply keyLt_trans; eauto.
Qed.

(** [y] not above [z], and [x] above [z]: then [y] is below [x]. *)
Lemma not_gt_lt :
  Float64.gt y z = false -> Float64.gt x z = true -> Float64.lt y x = true.
Proof.
  unfold Float64.gt, Float64.lt. intros H1.
  rewrite !SFltb_key by assumption. intros H2.
  assert (Hn : ~ keyLt (areaKey z) (areaKey y)).
  { intros Hc. apply SFltb_key in Hc; auto. congruence. }
  destruct (keyLt_total (areaKey y) (areaKey z)) as [Hl|[He|Hl]].
  - eapply keyLt_trans; eauto.
  - now rewrite He.
  - contradiction.
Qed.

Lemma lt_not_gt : Float64.lt y x = true -> Float64.gt y x = false.
Proof.
  unfold Float64.gt, Float64.lt. rewrite SFltb_key by assumption. intros Hl.
  destruct (SFltb x y) eqn:E; auto.
  apply SFltb_key in E; auto.
  exfalso. eapply keyLt_irrefl, keyLt_trans; eauto.
Qed.

End Order.

Lemma gt_irrefl x : Float64.gt x x = false.
Proof.
  unfold Float64.gt. destruct (Float64.is_nan x) eqn:Hn.
  - destruct x; try discriminate. reflexivity.
  - destruct (SFltb x x) eqn:E; auto.
    apply SFltb_key in E; auto. now apply keyLt_irrefl in E.
Qed.

Lemma le_zero_defined minArea :
  Float64.le (S754_zero false) minArea = true ->
  Float64.is_nan minArea = false /\
  Float64.gt (S754_zero false) minArea = false.
Proof.
  unfold Float64.le, Float64.gt, SFleb, SFltb.
  destruct minArea as [s|s| |s m e]; try destruct s; cbn; auto; discriminate.
Qed.

(** *** The loop over the contours *)

Lemma nth_error_snoc (seen : list Contour) c j c' :
  nth_error (seen ++ [c]) j = Some c' ->
  ((j < length seen)%nat /\ nth_error seen j = Some c') \/
  (j = length seen /\ c' = c).
Proof.
  intros Hn. destruct (Nat.lt_ge_cases j (length seen)) as [Hlt|Hge].
  - left. rewrite nth_error_app1 in Hn by assumption. auto.
  - right. rewrite nth_error_app2 in Hn by assumption.
    destruct (j - length seen)%nat as [|k] eqn:E; cbn in Hn.
    + split; [lia | congruence].
    + destruct k; discriminate.
Qed.

Section Scan.
Variable minArea : Float64.t.
Hypothesis HminNaN : Float64.is_nan minArea = false.
Hypothesis HminPos : Float64.gt (S754_zero false) minArea = false.

(** A contour above all of [seen] and above the threshold becomes the
    first largest of the extended prefix. *)
Lemma new_largest seen c :
  areasDefined (seen ++ [c]) ->
  Float64.gt (ContourArea c) minArea = true ->
  (forall c', In c' seen ->
     Float64.lt (ContourArea c') (ContourArea c) = true) ->
  FirstLargest (seen ++ [c]) minArea (length seen) c.
Proof.
  intros Hdef Habove Hbelow.
  assert (Hc : Float64.is_nan (ContourArea c) = false)
    by (apply Hdef, in_or_app; right; now left).
  split.
  - rewrite nth_error_app2, Nat.sub_diag by lia. reflexivity.
  - assumption.
  - intros j c' Hn. apply nth_error_snoc in Hn as [[_ Hn]|[_ ->]].
    + apply nth_error_In in Hn. apply lt_not_gt; auto.
      apply Hdef, in_or_app. now left.
    + apply gt_irrefl.
  - intros j c' Hj Hn. rewrite nth_error_app1 in Hn by assumption.
    apply Hbelow. eapply nth_error_In; eauto.
Qed.

Lemma scan_step seen c acc :
  areasDefined (seen ++ [c]) ->
  scanInv seen minArea acc ->
  scanInv (seen ++ [c]) minArea
    (if Float64.gt (ContourArea c) (snd acc)
        && Float64.gt (ContourArea c) minArea
     then (Some (length seen), ContourArea c) else acc).
Proof.
  intros Hdef [Hacc Hinv].
  assert (Hc : Float64.is_nan (ContourArea c) = false)
    by (apply Hdef, in_or_app; right; now left).
  assert (Hseen : forall c', In c' seen ->
            Float64.is_nan (ContourArea c') = false)
    by (intros c' Hin; apply Hdef, in_or_app; now left).
  destruct acc as [[k|] largest]; cbn [fst snd] in *.
  - destruct Hinv as (c0 & [Hn Habove Hlargest Hfirst] & ->).
    destruct (Float64.gt (ContourArea c) (ContourArea c0)) eqn:Hgt.
    + destruct (Float64.gt (ContourArea c) minArea) eqn:Hmin; cbn [andb].
      * split; [assumption|]. cbn [fst snd]. exists c. split; [|reflexivity].
        apply new_largest; auto.
        intros c' Hin. pose proof (Hseen c' Hin) as Hc'.
        apply In_nth_error in Hin as [j Hj].
        apply (not_gt_lt _ _ (ContourArea c0)); auto.
        eapply Hlargest; eauto.
      * exfalso.
        rewrite (gt_trans (ContourArea c) (ContourArea c0) minArea) in Hmin;
          auto; discriminate.
    + cbn [andb]. split; [assumption|]. cbn [fst snd].
      exists c0. split; [|reflexivity].
      assert (Hk : (k < length seen)%nat)
        by (apply nth_error_Some; congruence).
      split.
      * rewrite nth_error_app1 by assumption. assumption.
      * assumption.
      * intros j c' Hj. apply nth_error_snoc in Hj as [[_ Hj]|[_ ->]].
        -- eapply Hlargest; eauto.
        -- assumption.
      * intros j c' Hjk Hj. rewrite nth_error_app1 in Hj by lia.
        eapply Hfirst; eauto.
  - destruct Hinv as [-> Hnone].
    destruct (Float64.gt (ContourArea c) (S754_zero false)) eqn:Hgt.
    + destruct (Float64.gt (ContourArea c) minArea) eqn:Hmin; cbn [andb].
      * split; [assumption|]. cbn [fst snd]. exists c. split; [|reflexivity].
        apply new_largest; auto.
        intros c' Hin. apply (not_gt_lt _ _ minArea); auto.
      * split; [reflexivity|]. cbn [fst snd]. split; [reflexivity|].
        intros c' Hin. apply in_app_or in Hin as [Hin|[<-|[]]]; auto.
    + cbn [andb]. split; [reflexivity|]. cbn [fst snd]. split; [reflexivity|].
      intros c' Hin. apply in_app_or in Hin as [Hin|[<-|[]]]; auto.
      destruct (Float64.gt (ContourArea c) minArea) eqn:Hmin; auto.
      exfalso.
      pose proof (not_gt_lt (ContourArea c) (S754_zero false) minArea
                    Hc eq_refl HminNaN HminPos Hmin) as Hlt.
      unfold Float64.lt, Float64.gt in *. congruence.
Qed.

Lemma scan_inv rest : forall seen acc,
  areasDefined (seen ++ rest) ->
  scanInv seen minArea acc ->
  scanInv (seen ++ rest) minArea
    (largestContourFrom rest (length seen) minArea acc).
Proof.
  induction rest as [|c rest IH]; intros seen acc Hdef Hinv.
  - rewrite app_nil_r. exact Hinv.
  - cbn [largestContourFrom]. cbv zeta.
    replace (seen ++ c :: rest) with ((seen ++ [c]) ++ rest) in *
      by (rewrite <- app_assoc; reflexivity).
    replace (S (length seen)) with (length (seen ++ [c]))
      by (rewrite length_app; cbn; lia).
    apply IH; auto.
    apply scan_step; auto.
    intros c' Hin. apply Hdef, in_or_app. now left.
Qed.

Lemma largestContourIndex_rule contours :
  areasDefined contours ->
  selectionRule contours minArea (largestContourIndex contours minArea).
Proof.
  intros Hdef. unfold largestContourIndex.
  pose proof (scan_inv contours [] (None, S754_zero false) Hdef) as Hinv.
  cbn [app length] in Hinv.
  destruct Hinv as [_ Hinv].
  - split; [reflexivity|]. cbn [fst snd]. split; [reflexivity|].
    intros c [].
  - destruct (largestContourFrom _ _ _ _) as [[i|] largest];
      cbn [fst snd] in *.
    + destruct Hinv as (c & Hbest & _). exists c. exact Hbest.
    + destruct Hinv as [_ Hnone]. exact Hnone.
Qed.

End Scan.

(** *** The padded region *)

Lemma paddedROI_paddedAndClamped box frame :
  smallRect box ->
  X (Min box) <= X (Max box) -> Y (Min box) <= Y (Max box) ->
  small (Cols frame) -> small (Rows frame) ->
  paddedAndClamped box (paddedROI box frame) frame.
Proof.
  unfold smallRect, small, paddedAndClamped, paddedROI.
  intros (Hx0 & Hy0 & Hx1 & Hy1) Hx Hy HW HH. cbv zeta.
  assert (Hr : forall z, - 2 ^ 60 <= z <= 2 ^ 60 -> wrap z = z)
    by (intros; apply wrap_small; unfold in_range, min_int, max_int; lia).
  unfold sub, add. rewrite !Hr by lia. unfold Rect.
  replace (X (Min box) - 20 >? X (Max box) + 20) with false by lia.
  replace (Y (Min box) - 20 >? Y (Max box) + 20) with false by lia.
  cbn [Min Max X Y].
  destruct (X (Min box) - 20 <? 0) eqn:E1;
    unfold set_MinX; cbn [Min Max X Y];
    destruct (Y (Min box) - 20 <? 0) eqn:E2;
    unfold set_MinY; cbn [Min Max X Y];
    destruct (X (Max box) + 20 >? Cols frame) eqn:E3;
    unfold set_MaxX; cbn [Min Max X Y];
    destruct (Y (Max box) + 20 >? Rows frame) eqn:E4;
    unfold set_MaxY; cbn [Min Max X Y]; lia.
Qed.

(** C5, amended.  For a threshold minArea that is not negative and areas
    that are numbers, the loop picks the first contour of largest area
    when that area is above minArea and none when no area is; the
    detector proposes the picked contour's bounding box grown by 20
    pixels on each side and cut at the frame.  For areas 100, 600, 550 and
    minArea 500 the contour of area 600 is picked. *)
Theorem detector_selects_first_largest contours minArea frame :
  areasDefined contours ->
  Float64.le (S754_zero false) minArea = true ->
  selectionRule contours minArea (largestContourIndex contours minArea) /\
  match largestContourIndex contours minArea with
  | Some i =>
      exists c, nth_error contours i = Some c /\
        detect contours minArea frame
          = Some (paddedROI (BoundingRect c) frame) /\
        (smallRect (BoundingRect c) ->
         X (Min (BoundingRect c)) <= X (Max (BoundingRect c)) ->
         Y (Min (BoundingRect c)) <= Y (Max (BoundingRect c)) ->
         small (Cols frame) -> small (Rows frame) ->
         paddedAndClamped (BoundingRect c)
           (paddedROI (BoundingRect c) frame) frame)
  | None => detect contours minArea frame = None
  end /\
  (forall b1 b2 b3,
     largestContourIndex (threeContours b1 b2 b3) (Float64.of_int 500)
     = Some 1%nat).
Proof.
  intros Hdef Hmin. destruct (le_zero_defined minArea Hmin) as [Hnan Hpos].
  pose proof (largestContourIndex_rule minArea Hnan Hpos contours Hdef)
    as Hrule.
  split; [exact Hrule|]. split; [|intros; vm_compute; reflexivity].
  unfold detect.
  destruct (largestContourIndex contours minArea) as [i|]; [|reflexivity].
  destruct Hrule as (c & [Hn _ _ _]). exists c. rewrite Hn.
  split; [reflexivity|]. split; [reflexivity|].
  apply paddedROI_paddedAndClamped.
Qed.

Lemma detector_selects_first_largest_witness :
  let contours :=
    threeContours (Rect 0 0 5 5) (Rect 100 100 140 130) (Rect 600 10 630 40) in
  detect contours (Float64.of_int 500) vga = Some (Rect 80 80 160 150).
Proof.
  cbv zeta.
  destruct (detector_selects_first_largest
              (threeContours (Rect 0 0 5 5) (Rect 100 100 140 130)
                 (Rect 600 10 630 40))
              (Float64.of_int 500) vga) as (_ & Hd & Hex).
  - intros c [<-|[<-|[<-|[]]]]; reflexivity.
  - reflexivity.
  - rewrite Hex in Hd. destruct Hd as (c & Hn & -> & _).
    injection Hn as <-. vm_compute. reflexivity.
Defined.

(** C5 as stated fails for a negative threshold: a contour of area 0 is
    above the threshold -1, and the loop, which starts from the largest
    area 0, picks nothing. *)
Lemma detector_negative_threshold :
  let contours := [mkContour (Float64.of_int 0) (Rect 10 10 20 20)] in
  let minArea := Float64.of_int (-1) in
  Float64.gt (Float64.of_int 0) minArea = true /\
  largestContourIndex contours minArea = None /\
  detect contours minArea vga = None /\
  ~ selectionRule contours minArea (largestContourIndex contours minArea).
Proof.
  cbv zeta. repeat split; try (vm_compute; reflexivity).
  intros Hrule.
  assert (Hnone : largestContourIndex
                    [mkContour (Float64.of_int 0) (Rect 10 10 20 20)]
                    (Float64.of_int (-1)) = None) by (vm_compute; reflexivity).
  rewrite Hnone in Hrule. cbn [selectionRule] in Hrule.
  specialize (Hrule _ (or_introl eq_refl)).
  vm_compute in Hrule. discriminate.
Qed.

End Detector.

(** * Further properties of the packages *)

(** ** The recovery search window *)

Module Recovery.
Import GoInt GoIntFacts tracking Parts.

Section WithTracker.
Context {T : Type} `{gocv_Tracker T}.

Lemma TryTrackingRecovery_searchRect frame (tracker : T) lastRect radius :
  TryTrackingRecovery frame tracker lastRect radius
  = Init tracker frame (searchRect frame lastRect radius).
Proof.
  cbv beta delta [TryTrackingRecovery searchRect] zeta. reflexivity.
Qed.

End WithTracker.

(** The window without overflow: the square around the centre, cut at the
    frame edge by edge. *)
Lemma searchRect_edges frame lastRect radius :
  smallRect lastRect -> small radius -> 0 <= radius ->
  small (Cols frame) -> small (Rows frame) ->
  let cx := X (Min lastRect) + Z.quot (X (Max lastRect) - X (Min lastRect)) 2 in
  let cy := Y (Min lastRect) + Z.quot (Y (Max lastRect) - Y (Min lastRect)) 2 in
  let w := searchRect frame lastRect radius in
  X (Min w) = Z.max 0 (cx - radius) /\
  Y (Min w) = Z.max 0 (cy - radius) /\
  X (Max w) = Z.min (Cols frame) (cx + radius) /\
  Y (Max w) = Z.min (Rows frame) (cy + radius).
Proof.
  unfold smallRect, small. intros (Hx0 & Hy0 & Hx1 & Hy1) Hr Hr0 HW HH.
  cbv zeta.
  assert (Hw : forall z, - 2 ^ 61 <= z <= 2 ^ 61 -> wrap z = z)
    by (intros; apply wrap_small; unfold in_range, min_int, max_int; lia).
  unfold searchRect, Dx, Dy, sub, div, add.
  rewrite (Hw (X (Max lastRect) - X (Min lastRect))) by lia.
  rewrite (Hw (Y (Max lastRect) - Y (Min lastRect))) by lia.
  assert (Hqx : - 2 ^ 59 <= Z.quot (X (Max lastRect) - X (Min lastRect)) 2
                <= 2 ^ 59) by (Z.quot_rem_to_equations; lia).
  assert (Hqy : - 2 ^ 59 <= Z.quot (Y (Max lastRect) - Y (Min lastRect)) 2
                <= 2 ^ 59) by (Z.quot_rem_to_equations; lia).
  set (qx := Z.quot (X (Max lastRect) - X (Min lastRect)) 2) in *.
  set (qy := Z.quot (Y (Max lastRect) - Y (Min lastRect)) 2) in *.
  clearbody qx qy.
  rewrite (Hw qx), (Hw qy) by lia.
  rewrite (Hw (X (Min lastRect) + qx)), (Hw (Y (Min lastRect) + qy)) by lia.
  set (cx := X (Min lastRect) + qx). set (cy := Y (Min lastRect) + qy).
  assert (Hcx : - 2 ^ 60 <= cx <= 2 ^ 60) by (subst cx; lia).
  assert (Hcy : - 2 ^ 60 <= cy <= 2 ^ 60) by (subst cy; lia).
  clearbody cx cy.
  rewrite (Hw (cx - radius)), (Hw (cy - radius)), (Hw (cx + radius)),
    (Hw (cy + radius)) by lia.
  unfold Rect.
  replace (cx - radius >? cx + radius) with false by lia.
  replace (cy - radius >? cy + radius) with false by lia.
  cbn [Min Max X Y].
  destruct (cx - radius <? 0) eqn:E1; unfold set_MinX; cbn [Min Max X Y];
    destruct (cy - radius <? 0) eqn:E2; unfold set_MinY; cbn [Min Max X Y];
    destruct (cx + radius >? Cols frame) eqn:E3;
    unfold set_MaxX; cbn [Min Max X Y];
    destruct (cy + radius >? Rows frame) eqn:E4;
    unfold set_MaxY; cbn [Min Max X Y]; lia.
Qed.

Section Window.
Context {T : Type} `{gocv_Tracker T}.

(** X1.  TryTrackingRecovery asks the tracker for one Init on the square
    of half-side searchRadius around the centre of the last rectangle,
    each edge cut at the frame.  When the last rectangle lies within a
    frame of positive size and the radius is positive, that window lies
    within the frame, holds the centre and is not empty. *)
Theorem TryTrackingRecovery_window frame (tracker : T) lastRect radius :
  smallRect lastRect -> small radius -> 0 < radius ->
  small (Cols frame) -> small (Rows frame) ->
  0 < Cols frame -> 0 < Rows frame ->
  X (Min lastRect) <= X (Max lastRect) ->
  Y (Min lastRect) <= Y (Max lastRect) ->
  withinFrame lastRect (Cols frame) (Rows frame) ->
  let cx := X (Min lastRect) + (X (Max lastRect) - X (Min lastRect)) / 2 in
  let cy := Y (Min lastRect) + (Y (Max lastRect) - Y (Min lastRect)) / 2 in
  let w := searchRect frame lastRect radius in
  TryTrackingRecovery frame tracker lastRect radius = Init tracker frame w /\
  withinFrame w (Cols frame) (Rows frame) /\
  X (Min w) <= cx <= X (Max w) /\ Y (Min w) <= cy <= Y (Max w) /\
  X (Max w) - X (Min w) <= 2 * radius /\
  Y (Max w) - Y (Min w) <= 2 * radius /\
  Empty w = false.
Proof.
  intros Hs Hr Hr0 HW HH HW0 HH0 Hx Hy [[Hx0 Hx1] [Hy0 Hy1]]. cbv zeta.
  split; [apply TryTrackingRecovery_searchRect|].
  destruct (searchRect_edges frame lastRect radius Hs Hr ltac:(lia) HW HH)
    as (E1 & E2 & E3 & E4).
  rewrite <- !Z.quot_div_nonneg by lia.
  set (cx := X (Min lastRect) + Z.quot (X (Max lastRect) - X (Min lastRect)) 2)
    in *.
  set (cy := Y (Min lastRect) + Z.quot (Y (Max lastRect) - Y (Min lastRect)) 2)
    in *.
  assert (Hcx : 0 <= cx <= Cols frame)
    by (subst cx; Z.quot_rem_to_equations; lia).
  assert (Hcy : 0 <= cy <= Rows frame)
    by (subst cy; Z.quot_rem_to_equations; lia).
  clearbody cx cy.
  unfold withinFrame, withinX, withinY, Empty. rewrite E1, E2, E3, E4.
  repeat split; try lia.
Qed.

End Window.

Lemma TryTrackingRecovery_window_witness :
  let w := searchRect vga (Rect 600 20 640 60) 120 in
  w = Rect 500 0 640 160 /\ Empty w = false.
Proof.
  cbv zeta.
  destruct (TryTrackingRecovery_window vga (mkScripted [] [])
              (Rect 600 20 640 60) 120)
    as (_ & _ & _ & _ & _ & _ & He);
    [unfold smallRect, small, withinFrame, withinX, withinY;
     vm_compute; intuition discriminate .. |].
  split; [vm_compute; reflexivity | exact He].
Defined.

End Recovery.

(** ** Steps of the tracking state machine *)

Module Steps.
Import GoInt GoIntFacts tracking input main Parts.

Section WithTracker.
Context {T : Type} `{gocv_Tracker T}.

(** The constrained rectangle is not empty when the minimum size is at
    least 2 and nothing overflows. *)
Lemma ConstrainBoundingBox_not_empty rect initialSize maxGrowth minSize W H' :
  smallRect rect -> small minSize -> 2 <= minSize -> small W -> small H' ->
  Empty (utils.ConstrainBoundingBox rect initialSize maxGrowth minSize W H')
  = false.
Proof.
  intros (Hx0 & Hy0 & Hx1 & Hy1) HmS Hmin HW HH.
  rewrite ConstrainFacts.ConstrainBoundingBox_axes. cbv zeta.
  set (mA := utils.maxAllowedSize initialSize maxGrowth).
  rewrite !ConstrainFacts.axis_axisIdeal
    by auto using ConstrainFacts.small_within61.
  pose proof (ConstrainFacts.axisIdeal_spec
                (X (Min rect)) (X (Max rect)) mA minSize W Hx0 Hx1 HmS HW)
    as Sx.
  pose proof (ConstrainFacts.axisIdeal_spec
                (Y (Min rect)) (Y (Max rect)) mA minSize H' Hy0 Hy1 HmS HH)
    as Sy.
  cbv zeta in Sx, Sy.
  pose proof (ConstrainFacts.clampedSize_bounds
                (X (Max rect) - X (Min rect)) mA minSize) as Bx.
  pose proof (ConstrainFacts.clampedSize_bounds
                (Y (Max rect) - Y (Min rect)) mA minSize) as By.
  cbv zeta in Bx, By.
  set (nw := clampedSize (X (Max rect) - X (Min rect)) mA minSize) in *.
  set (nh := clampedSize (Y (Max rect) - Y (Min rect)) mA minSize) in *.
  assert (Hw : 1 <= Z.abs (Z.quot nw 2))
    by (clearbody nw; clear Sx Sy; Z.quot_rem_to_equations; lia).
  assert (Hh : 1 <= Z.abs (Z.quot nh 2))
    by (clearbody nh; clear Sx Sy; Z.quot_rem_to_equations; lia).
  destruct (axisIdeal (X (Min rect)) _ _ _ _) as [a b].
  destruct (axisIdeal (Y (Min rect)) _ _ _ _) as [c d].
  unfold Empty. cbn [ofAxes Min Max X Y fst snd] in *.
  apply orb_false_iff. clear - Sx Sy Hw Hh. split; lia.
Qed.

(** X2.  A tracking step whose update succeeds without suspicion (no last
    known region yet, or a plausible size) emits the constrained
    rectangle, stores it as LastKnownRect and resets the failure counter,
    all flags unchanged.  With a minimum size of at least 2 and no
    overflow the stored rectangle is not empty. *)
Theorem ProcessTracking_success (state : AppState T) frame config tracker rect :
  TrackingEnabled state = true ->
  Update (Tracker state) frame = (tracker, (rect, true)) ->
  Empty (LastKnownRect state) = true \/
  suspiciousSizeChange rect (LastKnownRect state)
    (SizeChangeThreshold config) = false ->
  let constrained :=
    utils.ConstrainBoundingBox rect (InitialROISize state)
      (MaxROIGrowth config) (MinROISize config) (Cols frame) (Rows frame) in
  ProcessTracking state frame config =
  (set_LastKnownRect constrained
     (set_TrackingFailureCount 0 (set_Tracker tracker state)), constrained) /\
  (smallRect rect -> small (MinROISize config) -> 2 <= MinROISize config ->
   small (Cols frame) -> small (Rows frame) ->
   Empty (LastKnownRect (fst (ProcessTracking state frame config))) = false).
Proof.
  intros Hon Hup Hok. cbv zeta.
  assert (E : ProcessTracking state frame config =
              (set_LastKnownRect
                 (utils.ConstrainBoundingBox rect (InitialROISize state)
                    (MaxROIGrowth config) (MinROISize config)
                    (Cols frame) (Rows frame))
                 (set_TrackingFailureCount 0 (set_Tracker tracker state)),
               utils.ConstrainBoundingBox rect (InitialROISize state)
                 (MaxROIGrowth config) (MinROISize config)
                 (Cols frame) (Rows frame))).
  { unfold ProcessTracking. rewrite Hon, Hup. state_simpl.
    destruct Hok as [-> | ->]; state_simpl;
      rewrite ?andb_false_r; reflexivity. }
  split; [exact E|]. intros Hs Hm Hm2 HW HH. rewrite E. state_simpl.
  now apply ConstrainBoundingBox_not_empty.
Qed.

(** X3.  ProcessTracking replaces LastKnownRect in no other branch: if
    the stored rectangle differs after a step, the session was tracking,
    the update succeeded, and there was no last known region or the size
    was plausible. *)
Theorem LastKnownRect_changes_only_on_success
    (state : AppState T) frame config :
  LastKnownRect (fst (ProcessTracking state frame config))
  <> LastKnownRect state ->
  TrackingEnabled state = true /\
  snd (snd (Update (Tracker state) frame)) = true /\
  (Empty (LastKnownRect state) = true \/
   suspiciousSizeChange (fst (snd (Update (Tracker state) frame)))
     (LastKnownRect state) (SizeChangeThreshold config) = false).
Proof.
  unfold ProcessTracking.
  destruct (TrackingEnabled state); state_simpl; [|congruence].
  destruct (Update (Tracker state) frame) as [tracker [rect ok]].
  state_simpl. destruct ok.
  - destruct (Empty (LastKnownRect state)) eqn:He; state_simpl.
    + intros _. auto.
    + destruct (suspiciousSizeChange _ _ _) eqn:Hs; state_simpl;
        [congruence | auto].
  - destruct (_ >=? _).
    + destruct (negb (ROISelectionMode _)); state_simpl; congruence.
    + destruct (negb (Empty _)); state_simpl; [|congruence].
      destruct (TryTrackingRecovery _ _ _ _) as [tracker' recovered].
      destruct recovered; state_simpl; congruence.
Qed.

Lemma sameMemory_HandleROIKeys key (state : AppState T) frame :
  sameMemory state (HandleROIKeys key state frame).
Proof.
  unfold sameMemory, HandleROIKeys.
  destruct (negb (ROISelectionMode state)); auto.
  destruct (key =? key_up); [state_simpl; destruct (_ <? _); auto|].
  destruct (key =? key_down); [state_simpl; destruct (_ >? _); auto|].
  destruct (key =? key_left); [state_simpl; destruct (_ <? _); auto|].
  destruct (key =? key_right); [state_simpl; destruct (_ >? _); auto|].
  destruct ((key =? key_plus) || (key =? key_equal));
    [state_simpl; destruct (_ >? _); state_simpl; destruct (_ >? _); auto|].
  destruct ((key =? key_minus) || (key =? key_underscore));
    [state_simpl; destruct (_ <? _); state_simpl; destruct (_ <? _); auto|].
  destruct (key =? key_enter); auto.
  unfold InitializeTracking. destruct (Init _ _ _) as [tracker ok].
  destruct ok; state_simpl; auto.
Qed.

Lemma sameMemory_ProcessAutoTracking (state : AppState T) frame config :
  sameMemory state (ProcessAutoTracking state frame config).
Proof.
  unfold sameMemory, ProcessAutoTracking.
  destruct (_ || _); auto.
  destruct (Foreground frame); auto. destruct (detect _ _ _); auto.
  destruct (Init _ _ _) as [tracker ok]. destruct ok; state_simpl; auto.
Qed.

Lemma sameMemory_InitializeTracking (state : AppState T) frame roi :
  sameMemory state (fst (InitializeTracking state frame roi)).
Proof.
  unfold sameMemory, InitializeTracking.
  destruct (Init _ _ _) as [tracker ok]. destruct ok; state_simpl; auto.
Qed.

Lemma sameMemory_ProcessInput key (state : AppState T) frame :
  sameMemory state (fst (ProcessInput key state frame)).
Proof.
  unfold ProcessInput.
  destruct (key =? key_escape).
  - unfold sameMemory, HandleEscapeKey.
    destruct (ROISelectionMode state); state_simpl; auto.
    destruct (negb _); state_simpl; auto.
  - assert (Hm : sameMemory state (fst (HandleMainKeys key state frame))).
    { unfold sameMemory, HandleMainKeys, ResetTracking, EnableAutoTracking.
      destruct (key =? key_q); state_simpl; auto.
      destruct (key =? key_s);
        [destruct (negb _); state_simpl; auto|].
      destruct (key =? key_a);
        [destruct (negb (ROISelectionMode state)); state_simpl; auto;
         destruct (AutoTrackingEnabled state); state_simpl; auto|].
      destruct (key =? key_r); state_simpl; auto. }
    destruct (HandleMainKeys key state frame) as [state' quit].
    cbn [fst] in Hm. destruct quit; state_simpl; auto.
    destruct Hm as [Hl Hc].
    destruct (sameMemory_HandleROIKeys key state' frame) as [Hl' Hc'].
    unfold sameMemory. rewrite Hl', Hc'. auto.
Qed.

(** X4.  Neither the automatic acquisition of a target, nor the
    initialisation from a confirmed selection, nor any key changes
    LastKnownRect or the failure counter: a new target starts with what
    the last one left. *)
Theorem acquisition_keeps_memory :
  (forall (state : AppState T) frame config,
     sameMemory state (ProcessAutoTracking state frame config)) /\
  (forall (state : AppState T) frame roi,
     sameMemory state (fst (InitializeTracking state frame roi))) /\
  (forall key (state : AppState T) frame,
     sameMemory state (fst (ProcessInput key state frame))).
Proof.
  split; [|split].
  - exact sameMemory_ProcessAutoTracking.
  - exact sameMemory_InitializeTracking.
  - exact sameMemory_ProcessInput.
Qed.

(** X5.  ProcessAutoTracking starts tracking only when the search is on,
    no selection is in progress, the warm-up frames have passed, a
    contour was detected and the tracker accepted its padded box; the
    state then holds that box as ROI and its average side as
    InitialROISize, with the search switched off. *)
Theorem ProcessAutoTracking_acquires_only_when
    (state : AppState T) frame config :
  TrackingEnabled state = false ->
  TrackingEnabled (ProcessAutoTracking state frame config) = true ->
  AutoTrackingEnabled state = true /\
  ROISelectionMode state = false /\
  StabilizationFrames config < FrameCount state /\
  exists contours roi,
    Foreground frame = Some contours /\
    detect contours (MinContourArea config) frame = Some roi /\
    snd (Init (Tracker state) frame roi) = true /\
    ROI (ProcessAutoTracking state frame config) = roi /\
    InitialROISize (ProcessAutoTracking state frame config) = avgSize roi /\
    AutoTrackingEnabled (ProcessAutoTracking state frame config) = false.
Proof.
  intros Hoff. unfold ProcessAutoTracking. rewrite Hoff. cbn [orb].
  destruct (AutoTrackingEnabled state); cbn [negb orb]; [|congruence].
  destruct (ROISelectionMode state); cbn [orb]; [congruence|].
  destruct (FrameCount state <=? StabilizationFrames config) eqn:Hf;
    [congruence|].
  destruct (Foreground frame) as [contours|]; [|congruence].
  destruct (detect _ _ _) as [roi|] eqn:Hd; [|congruence].
  destruct (Init _ _ _) as [tracker ok] eqn:Hi.
  destruct ok; state_simpl; [|congruence].
  intros _. repeat split; try lia.
  exists contours, roi. rewrite Hi. auto 10.
Qed.

End WithTracker.

Lemma ProcessTracking_success_witness :
  let state :=
    trackingSession (mkScripted [(Rect 90 90 210 210, true)] []) 3
      (Rect 100 100 200 200) in
  ProcessTracking state vga DefaultTrackingConfig
  = (set_LastKnownRect (Rect 90 90 210 210)
       (set_TrackingFailureCount 0 (set_Tracker (mkScripted [] []) state)),
     Rect 90 90 210 210).
Proof.
  cbv zeta.
  destruct (ProcessTracking_success
              (trackingSession (mkScripted [(Rect 90 90 210 210, true)] []) 3
                 (Rect 100 100 200 200))
              vga DefaultTrackingConfig (mkScripted [] []) (Rect 90 90 210 210))
    as [E _].
  - reflexivity.
  - reflexivity.
  - right. vm_compute. reflexivity.
  - rewrite E. vm_compute. reflexivity.
Defined.

Lemma LastKnownRect_changes_only_on_success_witness :
  let state :=
    trackingSession (mkScripted [(Rect 90 90 210 210, true)] []) 3
      (Rect 100 100 200 200) in
  snd (snd (Update (Tracker state) vga)) = true.
Proof.
  cbv zeta.
  apply (LastKnownRect_changes_only_on_success
           (trackingSession (mkScripted [(Rect 90 90 210 210, true)] []) 3
              (Rect 100 100 200 200))
           vga DefaultTrackingConfig).
  vm_compute. discriminate.
Defined.

Lemma ProcessAutoTracking_acquires_only_when_witness :
  let state :=
    set_FrameCount 31 (main.initialState (mkScripted [] [true])) in
  ROI (ProcessAutoTracking state vgaWithContour DefaultTrackingConfig)
  = Rect 80 80 160 150.
Proof.
  cbv zeta.
  destruct (ProcessAutoTracking_acquires_only_when
              (set_FrameCount 31 (main.initialState (mkScripted [] [true])))
              vgaWithContour DefaultTrackingConfig)
    as (_ & _ & _ & contours & roi & _ & _ & _ & E & _).
  - reflexivity.
  - vm_compute. reflexivity.
  - vm_compute. reflexivity.
Defined.

End Steps.

(** ** The frame loop *)

Module Loop.
Import GoInt GoIntFacts tracking input main Parts.

Section WithTracker.
Context {T : Type} `{gocv_Tracker T}.

Lemma loopBody_beforeRender (state : AppState T) frame key :
  loopBody state frame key =
  let '(state', trackingRect) := beforeRender state frame in
  let '(state'', shouldQuit) := ProcessInput key state' frame in
  (state'', trackingRect, shouldQuit).
Proof. reflexivity. Qed.

(** *** The failure counter stays below the maximum *)

Lemma ProcessTracking_counter_bound (state : AppState T) frame config :
  2 <= MaxTrackingFailures config <= max_int ->
  0 <= TrackingFailureCount state < MaxTrackingFailures config ->
  0 <= TrackingFailureCount (fst (ProcessTracking state frame config))
    < MaxTrackingFailures config.
Proof.
  intros Hmax Hc. unfold ProcessTracking.
  destruct (TrackingEnabled state); state_simpl; auto.
  destruct (Update (Tracker state) frame) as [tracker [rect ok]].
  state_simpl.
  assert (Hi : incr (TrackingFailureCount state)
               = TrackingFailureCount state + 1).
  { unfold incr, add. apply wrap_small.
    unfold in_range, min_int, max_int in *. lia. }
  assert (Hone : incr 0 = 1) by reflexivity.
  destruct ok.
  - destruct (negb _ && _); state_simpl; rewrite ?Hone; lia.
  - rewrite Hi. destruct (_ >=? _) eqn:Hge.
    + destruct (negb (ROISelectionMode _)); state_simpl; lia.
    + destruct (negb (Empty _)); state_simpl; [|lia].
      destruct (TryTrackingRecovery _ _ _ _) as [tracker' recovered].
      destruct recovered; state_simpl; lia.
Qed.

Lemma loopBody_counter_bound (state : AppState T) frame key :
  0 <= TrackingFailureCount state < 12 ->
  0 <= TrackingFailureCount (fst (fst (loopBody state frame key))) < 12.
Proof.
  intros Hc. unfold loopBody.
  set (s1 := set_FrameCount _ state).
  pose proof (@Steps.sameMemory_ProcessInput T _) as Hkeys.
  destruct (Steps.sameMemory_ProcessAutoTracking s1 frame
              DefaultTrackingConfig) as [_ H2].
  set (s2 := ProcessAutoTracking s1 frame DefaultTrackingConfig) in *.
  assert (H3 : TrackingFailureCount (defaultAutoTracking s2)
               = TrackingFailureCount state).
  { unfold defaultAutoTracking. destruct (_ && _); state_simpl; exact H2. }
  pose proof (ProcessTracking_counter_bound (defaultAutoTracking s2) frame
                DefaultTrackingConfig) as H4.
  destruct (ProcessTracking _ _ _) as [s4 rect]. cbn [fst] in H4.
  destruct (Hkeys key s4 frame) as [_ H5].
  destruct (ProcessInput key s4 frame) as [s5 quit]. cbn [fst] in *.
  rewrite H5. apply H4.
  - cbn. unfold max_int. lia.
  - rewrite H3. exact Hc.
Qed.

(** X6.  In every state the frame loop reaches from the start of the
    program the failure counter is at least 0 and below
    MaxTrackingFailures. *)
Theorem counter_below_maximum (tracker : T) inputs :
  0 <= TrackingFailureCount (runLoop (initialState tracker) inputs)
    < MaxTrackingFailures DefaultTrackingConfig.
Proof.
  change (MaxTrackingFailures DefaultTrackingConfig) with 12.
  assert (Hgen : forall inputs (state : AppState T),
            0 <= TrackingFailureCount state < 12 ->
            0 <= TrackingFailureCount (runLoop state inputs) < 12).
  { clear inputs. induction inputs as [|[frame key] rest IH]; intros state Hc.
    - exact Hc.
    - cbn [runLoop].
      pose proof (loopBody_counter_bound state frame key Hc) as Hb.
      destruct (loopBody state frame key) as [[state' rect] quit].
      cbn [fst] in Hb. destruct quit; auto. }
  apply Hgen. cbn. lia.
Qed.

(** *** The warm-up *)

Lemma set_FrameCount_same (state : AppState T) :
  set_FrameCount (FrameCount state) state = state.
Proof. now destruct state. Qed.

Lemma loopBody_warm_up (state : AppState T) frame :
  TrackingEnabled state = false ->
  AutoTrackingEnabled state = true ->
  ROISelectionMode state = false ->
  0 <= FrameCount state < StabilizationFrames DefaultTrackingConfig ->
  loopBody state frame noKey
  = (set_FrameCount (FrameCount state + 1) state, ZR, false).
Proof.
  intros Hoff Hauto Hroi Hfc. change (StabilizationFrames _) with 30 in Hfc.
  assert (Hi : incr (FrameCount state) = FrameCount state + 1).
  { unfold incr, add. apply wrap_small.
    unfold in_range, min_int, max_int. lia. }
  unfold loopBody. rewrite Hi. unfold ProcessAutoTracking. state_simpl.
  rewrite Hoff, Hauto, Hroi. cbn [negb orb].
  change (StabilizationFrames DefaultTrackingConfig) with 30.
  replace (FrameCount state + 1 <=? 30) with true by lia.
  unfold defaultAutoTracking. state_simpl. rewrite Hoff, Hauto.
  cbn [negb andb]. unfold ProcessTracking. state_simpl. rewrite Hoff.
  cbn [negb]. unfold ProcessInput, HandleMainKeys, HandleROIKeys.
  replace (noKey =? key_escape) with false by reflexivity.
  replace (noKey =? key_q) with false by reflexivity.
  replace (noKey =? key_s) with false by reflexivity.
  replace (noKey =? key_a) with false by reflexivity.
  replace (noKey =? key_r) with false by reflexivity.
  state_simpl. rewrite Hroi. reflexivity.
Qed.

(** X7.  While the search is on, for as long as the frame counter has not
    passed StabilizationFrames and no key is pressed, the frame loop only
    counts frames: whatever the frames show, the tracker is not called
    and nothing but FrameCount changes. *)
Theorem warm_up_only_counts (inputs : list (Mat * Z)) :
  forall (state : AppState T),
  TrackingEnabled state = false ->
  AutoTrackingEnabled state = true ->
  ROISelectionMode state = false ->
  0 <= FrameCount state ->
  FrameCount state + Z.of_nat (length inputs)
    <= StabilizationFrames DefaultTrackingConfig ->
  forallb (fun fk => snd fk =? noKey) inputs = true ->
  runLoop state inputs
  = set_FrameCount (FrameCount state + Z.of_nat (length inputs)) state.
Proof.
  induction inputs as [|[frame key] rest IH];
    intros state Hoff Hauto Hroi Hfc Hlen Hkeys.
  - cbn [length Z.of_nat]. rewrite Z.add_0_r. symmetry.
    apply set_FrameCount_same.
  - cbn [forallb snd] in Hkeys. apply andb_true_iff in Hkeys as [Hk Hrest].
    apply Z.eqb_eq in Hk. subst key.
    cbn [length] in Hlen. rewrite Nat2Z.inj_succ in Hlen.
    cbn [runLoop]. rewrite loopBody_warm_up by (auto; lia).
    rewrite IH; state_simpl; auto; try lia.
    cbn [length]. rewrite Nat2Z.inj_succ.
    unfold set_FrameCount. state_simpl. f_equal. lia.
Qed.

(** *** The selection suspends tracking and search *)

(** X8.  While a selection is in progress and tracking is off, a turn of
    the frame loop does not consult the tracker or the detector: it
    counts the frame, hands an empty tracking rectangle to the renderer
    and leaves everything else to the key. *)
Theorem selection_suspends_tracking (state : AppState T) frame key :
  ROISelectionMode state = true ->
  TrackingEnabled state = false ->
  beforeRender state frame
  = (set_FrameCount (incr (FrameCount state)) state, ZR) /\
  loopBody state frame key
  = (let '(state', shouldQuit) :=
       ProcessInput key (set_FrameCount (incr (FrameCount state)) state) frame
     in (state', ZR, shouldQuit)).
Proof.
  intros Hroi Hoff.
  assert (E : beforeRender state frame
              = (set_FrameCount (incr (FrameCount state)) state, ZR)).
  { unfold beforeRender, ProcessAutoTracking. state_simpl.
    rewrite Hoff, Hroi. rewrite orb_true_r. cbn [orb].
    unfold defaultAutoTracking. state_simpl. rewrite Hroi, Hoff.
    cbn [negb andb]. rewrite andb_false_r.
    unfold ProcessTracking. state_simpl. rewrite Hoff. reflexivity. }
  split; [exact E|]. rewrite loopBody_beforeRender, E. reflexivity.
Qed.

(** *** Never idle on the screen *)

Lemma someFlag_ProcessTracking (state : AppState T) frame config :
  someFlag state = true ->
  someFlag (fst (ProcessTracking state frame config)) = true.
Proof.
  unfold someFlag, ProcessTracking.
  destruct (TrackingEnabled state) eqn:Hon; state_simpl;
    [|rewrite Hon; auto].
  intros _. destruct (Update (Tracker state) frame) as [tracker [rect ok]].
  state_simpl. destruct ok.
  - destruct (negb _ && _); state_simpl; rewrite Hon; reflexivity.
  - destruct (_ >=? _).
    + state_simpl. destruct (ROISelectionMode state) eqn:Hroi; state_simpl;
        rewrite ?Hroi; auto using orb_true_r.
    + destruct (negb (Empty _)); state_simpl; [|rewrite Hon; reflexivity].
      destruct (TryTrackingRecovery _ _ _ _) as [tracker' recovered].
      destruct recovered; state_simpl; rewrite Hon; reflexivity.
Qed.

Lemma someFlag_defaultAutoTracking (state : AppState T) :
  someFlag (defaultAutoTracking state) = true.
Proof.
  unfold someFlag, defaultAutoTracking.
  destruct (TrackingEnabled state) eqn:Hon,
    (AutoTrackingEnabled state) eqn:Hauto,
    (ROISelectionMode state) eqn:Hroi; state_simpl;
    rewrite ?Hon, ?Hauto, ?Hroi; reflexivity.
Qed.

(** X9.  Whatever the state at the start of a turn of the frame loop, the
    state handed to the renderer has tracking, the search or the
    selection on: the status line never shows the idle text. *)
Theorem rendered_never_idle (state : AppState T) frame :
  modeOf (fst (beforeRender state frame)) <> Idle /\
  fst (ui.statusDrawn (rendered state frame)) <> ui.idleText.
Proof.
  assert (Hf : someFlag (fst (beforeRender state frame)) = true).
  { unfold beforeRender. apply someFlag_ProcessTracking,
      someFlag_defaultAutoTracking. }
  unfold rendered. destruct (beforeRender state frame) as [s rect].
  cbn [fst] in *. unfold ui.RenderFrame, ui.statusDrawn.
  unfold someFlag in Hf.
  unfold modeOf, trackingMode, ui.DrawStatusMessage, ui.idleText.
  state_simpl.
  destruct (ROISelectionMode s), (TrackingEnabled s),
    (AutoTrackingEnabled s); cbn [negb fst] in *; try discriminate;
    split; discriminate.
Qed.

End WithTracker.

Lemma warm_up_only_counts_witness :
  let state :=
    fst (ProcessInput key_r
           (trackingSession (mkScripted [] [true]) 3 (Rect 100 100 200 200))
           vga) in
  FrameCount (runLoop state (repeat (vgaWithContour, noKey) 30)) = 30.
Proof.
  cbv zeta.
  rewrite (warm_up_only_counts (repeat (vgaWithContour, noKey) 30)
             (fst (ProcessInput key_r
                     (trackingSession (mkScripted [] [true]) 3
                        (Rect 100 100 200 200)) vga)));
    reflexivity.
Defined.

Lemma selection_suspends_tracking_witness :
  let state :=
    fst (ProcessInput key_s
           (trackingSession (mkScripted [(Rect 0 0 9 9, true)] []) 0
              (Rect 100 100 200 200)) vga) in
  snd (beforeRender state vgaWithContour) = ZR.
Proof.
  cbv zeta.
  destruct (selection_suspends_tracking
              (fst (ProcessInput key_s
                      (trackingSession (mkScripted [(Rect 0 0 9 9, true)] []) 0
                         (Rect 100 100 200 200)) vga))
              vgaWithContour noKey) as [E _].
  - reflexivity.
  - reflexivity.
  - rewrite E. reflexivity.
Defined.

Section Exclusive.
Context {T : Type} `{gocv_Tracker T}.

(** X10.  In every state the frame loop reaches from the start of the
    program, tracking excludes the search and the selection: a state that
    tracks has AutoTrackingEnabled and ROISelectionMode off. *)
Theorem tracking_excludes_search_and_selection (tracker : T) inputs :
  let state := runLoop (initialState tracker) inputs in
  TrackingEnabled state = true ->
  AutoTrackingEnabled state = false /\ ROISelectionMode state = false /\
  modeOf state = ActiveTracking.
Proof.
  cbv zeta. intros Hon.
  destruct (Flags.flagsExclusive_runLoop inputs _
              (Flags.flagsExclusive_initialState tracker) Hon) as [Ha Hr].
  unfold modeOf, trackingMode. rewrite Hr, Hon. auto.
Qed.

End Exclusive.

Lemma tracking_excludes_search_and_selection_witness :
  let state :=
    runLoop (initialState (mkScripted [] [true]))
      (repeat (vgaWithContour, noKey) 31) in
  modeOf state = ActiveTracking.
Proof.
  cbv zeta.
  apply (tracking_excludes_search_and_selection
           (mkScripted [] [true]) (repeat (vgaWithContour, noKey) 31)).
  vm_compute. reflexivity.
Defined.

End Loop.

(** ** The selection *)

Module Selection.
Import GoInt GoIntFacts tracking input main Parts.

(** Tests between known keys, evaluated. *)
Ltac eval_keys :=
  repeat match goal with
    | |- context [Z.eqb ?a ?b] =>
        let v := eval vm_compute in (Z.eqb a b) in
        match v with
        | true => change (Z.eqb a b) with true
        | false => change (Z.eqb a b) with false
        end
    end; cbn [orb].

Lemma small_wrap z : - 2 ^ 60 <= z <= 2 ^ 60 -> wrap z = z.
Proof.
  intros. apply wrap_small. unfold in_range, min_int, max_int. lia.
Qed.

Ltac unwrap :=
  repeat match goal with
    | |- context [wrap ?z] => rewrite (small_wrap z) by lia
    end.

Section WithTracker.
Context {T : Type} `{gocv_Tracker T}.

(** *** The resize keys *)

Lemma HandleROIKeys_grow (state : AppState T) frame key :
  ROISelectionMode state = true ->
  key = key_plus \/ key = key_equal ->
  let w := add (ROIWidth state) 20 in
  let h := add (ROIHeight state) 20 in
  HandleROIKeys key state frame
  = set_ROIHeight (if h >? Rows frame then Rows frame else h)
      (set_ROIWidth (if w >? Cols frame then Cols frame else w) state).
Proof.
  intros Hroi Hk. cbv zeta. unfold HandleROIKeys. rewrite Hroi. cbn [negb].
  destruct Hk; subst key; eval_keys; state_simpl;
    destruct (add (ROIWidth state) 20 >? Cols frame); state_simpl;
    destruct (add (ROIHeight state) 20 >? Rows frame); reflexivity.
Qed.

Lemma HandleROIKeys_shrink (state : AppState T) frame key :
  ROISelectionMode state = true ->
  key = key_minus \/ key = key_underscore ->
  let w := sub (ROIWidth state) 20 in
  let h := sub (ROIHeight state) 20 in
  HandleROIKeys key state frame
  = set_ROIHeight (if h <? 40 then 40 else h)
      (set_ROIWidth (if w <? 40 then 40 else w) state).
Proof.
  intros Hroi Hk. cbv zeta. unfold HandleROIKeys. rewrite Hroi. cbn [negb].
  destruct Hk; subst key; eval_keys; state_simpl;
    destruct (sub (ROIWidth state) 20 <? 40); state_simpl;
    destruct (sub (ROIHeight state) 20 <? 40); reflexivity.
Qed.

Lemma isResizeKey_cases key :
  isResizeKey key = true ->
  (key = key_plus \/ key = key_equal) \/
  (key = key_minus \/ key = key_underscore).
Proof.
  unfold isResizeKey. rewrite !orb_true_iff, !Z.eqb_eq. tauto.
Qed.

(** X11.  In selection mode the keys '+' and '=' add 20 to both sizes and
    cut them at the frame's, the keys '-' and '_' take 20 off and stop at
    40; the centre and everything else stay.  Sizes between 40 and the
    frame's stay so (the frame being at least 40 wide and high). *)
Theorem resize_clamps_sizes (state : AppState T) frame key :
  ROISelectionMode state = true ->
  isResizeKey key = true ->
  small (ROIWidth state) -> small (ROIHeight state) ->
  let state' := HandleROIKeys key state frame in
  let grows := (key =? key_plus) || (key =? key_equal) in
  ROIWidth state'
  = (if grows then Z.min (ROIWidth state + 20) (Cols frame)
     else Z.max (ROIWidth state - 20) 40) /\
  ROIHeight state'
  = (if grows then Z.min (ROIHeight state + 20) (Rows frame)
     else Z.max (ROIHeight state - 20) 40) /\
  state' = set_ROIHeight (ROIHeight state')
             (set_ROIWidth (ROIWidth state') state) /\
  (40 <= Cols frame -> 40 <= Rows frame ->
   sizeWithin state (Cols frame) (Rows frame) ->
   sizeWithin state' (Cols frame) (Rows frame)).
Proof.
  unfold small. intros Hroi Hk Hw Hh. cbv zeta.
  destruct (isResizeKey_cases key Hk) as [Hg|Hs].
  - rewrite (HandleROIKeys_grow state frame key Hroi Hg). cbv zeta.
    replace ((key =? key_plus) || (key =? key_equal)) with true
      by (destruct Hg; subst key; reflexivity).
    unfold add. rewrite !small_wrap by lia. state_simpl.
    unfold sizeWithin. state_simpl.
    destruct (ROIWidth state + 20 >? Cols frame) eqn:E1,
      (ROIHeight state + 20 >? Rows frame) eqn:E2;
      repeat split; try reflexivity; lia.
  - rewrite (HandleROIKeys_shrink state frame key Hroi Hs). cbv zeta.
    replace ((key =? key_plus) || (key =? key_equal)) with false
      by (destruct Hs; subst key; reflexivity).
    unfold sub. rewrite !small_wrap by lia. state_simpl.
    unfold sizeWithin. state_simpl.
    destruct (ROIWidth state - 20 <? 40) eqn:E1,
      (ROIHeight state - 20 <? 40) eqn:E2;
      repeat split; try reflexivity; lia.
Qed.

End WithTracker.

Lemma resize_clamps_sizes_witness :
  let state := fst (ProcessInput key_s (initialState (mkScripted [] [])) vga) in
  ROIWidth (HandleROIKeys key_minus (HandleROIKeys key_minus
             (HandleROIKeys key_minus (HandleROIKeys key_minus state vga) vga)
             vga) vga) = 40.
Proof.
  cbv zeta.
  destruct (resize_clamps_sizes
              (HandleROIKeys key_minus (HandleROIKeys key_minus
                 (HandleROIKeys key_minus
                    (fst (ProcessInput key_s (initialState (mkScripted [] []))
                            vga)) vga) vga) vga)
              vga key_minus) as (Ew & _).
  - reflexivity.
  - reflexivity.
  - unfold small. vm_compute. intuition discriminate.
  - unfold small. vm_compute. intuition discriminate.
  - rewrite Ew. vm_compute. reflexivity.
Defined.

(** *** The confirmed rectangle *)

Section Confirm.
Context {T : Type} `{gocv_Tracker T}.

Lemma HandleROIKeys_enter (state : AppState T) frame :
  ROISelectionMode state = true ->
  HandleROIKeys key_enter state frame
  = (let '(state', ok) :=
       InitializeTracking state frame (confirmedROI state frame) in
     if ok then state' else set_ROISelectionMode false state').
Proof.
  intros Hroi.
  cbv beta delta [HandleROIKeys confirmedROI] zeta.
  rewrite Hroi. cbn [negb]. eval_keys. reflexivity.
Qed.

Lemma DrawROISelection_confirmedROI (state : AppState T) frame :
  ui.DrawROISelection state frame
  = if ROISelectionMode state then Some (confirmedROI state frame) else None.
Proof.
  cbv beta delta [ui.DrawROISelection confirmedROI] zeta.
  destruct (ROISelectionMode state); reflexivity.
Qed.

(** The edges of the confirmed rectangle when the centre lies in the
    frame. *)
Lemma confirmedROI_edges (state : AppState T) frame :
  small (Cols frame) -> small (Rows frame) ->
  sizeWithin state (Cols frame) (Rows frame) ->
  centreWithin state (Cols frame) (Rows frame) ->
  confirmedROI state frame
  = mkRectangle
      (Pt (Z.max 0 (ROICenterX state - ROIWidth state / 2))
          (Z.max 0 (ROICenterY state - ROIHeight state / 2)))
      (Pt (Z.min (Cols frame) (ROICenterX state + ROIWidth state / 2))
          (Z.min (Rows frame) (ROICenterY state + ROIHeight state / 2))).
Proof.
  unfold small, sizeWithin, centreWithin.
  intros HW HH [Hw Hh] [Hx Hy].
  unfold confirmedROI, div, sub, add.
  rewrite !Z.quot_div_nonneg by lia.
  assert (Hhw : 20 <= ROIWidth state / 2 <= 2 ^ 59)
    by (Z.div_mod_to_equations; lia).
  assert (Hhh : 20 <= ROIHeight state / 2 <= 2 ^ 59)
    by (Z.div_mod_to_equations; lia).
  set (hw := ROIWidth state / 2) in *. set (hh := ROIHeight state / 2) in *.
  clearbody hw hh. unwrap. cbv zeta. unfold Rect.
  destruct (ROICenterX state - hw <? 0) eqn:E1,
    (ROICenterY state - hh <? 0) eqn:E2,
    (ROICenterX state + hw >? Cols frame) eqn:E3,
    (ROICenterY state + hh >? Rows frame) eqn:E4;
    match goal with
    | |- context [?a >? ?b] => replace (a >? b) with false by lia
    end;
    match goal with
    | |- context [?a >? ?b] => replace (a >? b) with false by lia
    end;
    f_equal; f_equal; lia.
Qed.

(** Within the frame, around the centre and not empty. *)
Lemma confirmedROI_geometry (state : AppState T) frame :
  small (Cols frame) -> small (Rows frame) ->
  sizeWithin state (Cols frame) (Rows frame) ->
  centreWithin state (Cols frame) (Rows frame) ->
  let r := confirmedROI state frame in
  withinFrame r (Cols frame) (Rows frame) /\ Empty r = false /\
  X (Min r) <= ROICenterX state <= X (Max r) /\
  Y (Min r) <= ROICenterY state <= Y (Max r).
Proof.
  intros HW HH Hs Hc. cbv zeta.
  rewrite (confirmedROI_edges state frame HW HH Hs Hc).
  unfold small, sizeWithin, centreWithin, withinFrame, withinX, withinY,
    Empty in *.
  cbn [Min Max X Y].
  destruct Hs as [Hw Hh], Hc as [Hx Hy].
  assert (Hhw : 20 <= ROIWidth state / 2) by (Z.div_mod_to_equations; lia).
  assert (Hhh : 20 <= ROIHeight state / 2) by (Z.div_mod_to_equations; lia).
  set (hw := ROIWidth state / 2) in *. set (hh := ROIHeight state / 2) in *.
  clearbody hw hh. repeat split; try lia.
Qed.

(** X12.  In selection mode, with sizes between 40 and the frame's and
    the centre in the frame, the rectangle drawn as the selection is the
    one ENTER hands to InitializeTracking: the selection cut at the frame
    edge by edge.  It lies within the frame, holds the centre and is not
    empty; when the selection rectangle itself lies within the frame it is
    that rectangle. *)
Theorem confirmed_rectangle (state : AppState T) frame :
  ROISelectionMode state = true ->
  small (Cols frame) -> small (Rows frame) ->
  sizeWithin state (Cols frame) (Rows frame) ->
  centreWithin state (Cols frame) (Rows frame) ->
  let r := confirmedROI state frame in
  ui.DrawROISelection state frame = Some r /\
  HandleROIKeys key_enter state frame
  = (let '(state', ok) := InitializeTracking state frame r in
     if ok then state' else set_ROISelectionMode false state') /\
  withinFrame r (Cols frame) (Rows frame) /\ Empty r = false /\
  X (Min r) <= ROICenterX state <= X (Max r) /\
  Y (Min r) <= ROICenterY state <= Y (Max r) /\
  (selectionInFrame state frame -> r = selectionRect state).
Proof.
  intros Hroi HW HH Hs Hc. cbv zeta.
  split; [rewrite DrawROISelection_confirmedROI, Hroi; reflexivity|].
  split; [now apply HandleROIKeys_enter|].
  destruct (confirmedROI_geometry state frame HW HH Hs Hc)
    as (Hin & Hne & Hx & Hy).
  repeat split; try assumption; try apply Hin; try apply Hx; try apply Hy.
  rewrite (confirmedROI_edges state frame HW HH Hs Hc).
  unfold selectionInFrame, withinFrame, withinX, withinY, selectionRect,
    small, sizeWithin, centreWithin in *.
  cbn [Min Max X Y]. unfold div, sub, add.
  destruct Hs as [Hw Hh], Hc as [Hcx Hcy].
  rewrite !Z.quot_div_nonneg by lia.
  assert (Hhw : 20 <= ROIWidth state / 2 <= 2 ^ 59)
    by (Z.div_mod_to_equations; lia).
  assert (Hhh : 20 <= ROIHeight state / 2 <= 2 ^ 59)
    by (Z.div_mod_to_equations; lia).
  set (hw := ROIWidth state / 2) in *. set (hh := ROIHeight state / 2) in *.
  clearbody hw hh. unwrap.
  intros [[? ?] [? ?]]. f_equal; f_equal; lia.
Qed.

End Confirm.

Lemma confirmed_rectangle_witness :
  let state :=
    pressROIKeys (fst (ProcessInput key_s (initialState (mkScripted [] [])) vga))
      (repeat key_left 30 ++ [key_plus; key_plus]) vga in
  ui.DrawROISelection state vga = Some (Rect 0 170 120 310).
Proof.
  cbv zeta.
  destruct (confirmed_rectangle
              (pressROIKeys
                 (fst (ProcessInput key_s (initialState (mkScripted [] []))
                         vga))
                 (repeat key_left 30 ++ [key_plus; key_plus]) vga) vga)
    as (Ed & _).
  - reflexivity.
  - unfold small. vm_compute. intuition discriminate.
  - unfold small. vm_compute. intuition discriminate.
  - unfold sizeWithin. vm_compute. intuition discriminate.
  - unfold centreWithin. vm_compute. intuition discriminate.
  - rewrite Ed. vm_compute. reflexivity.
Defined.

(** *** Confirming *)

Section Outcome.
Context {T : Type} `{gocv_Tracker T}.

Lemma ProcessInput_enter (state : AppState T) frame :
  ProcessInput key_enter state frame
  = (HandleROIKeys key_enter state frame, false).
Proof.
  unfold ProcessInput, HandleMainKeys. eval_keys. reflexivity.
Qed.

(** X13.  ENTER during a selection (tracking and search are off, as 's'
    left them) asks the tracker once, for the confirmed rectangle.  If
    the tracker accepts, the session tracks that rectangle, with its
    average side as InitialROISize.  If it refuses, the selection is
    left with everything off, and the next turn of the frame loop turns
    the search on. *)
Theorem confirm_outcome (state : AppState T) frame :
  ROISelectionMode state = true ->
  TrackingEnabled state = false ->
  AutoTrackingEnabled state = false ->
  let r := confirmedROI state frame in
  let result := ProcessInput key_enter state frame in
  snd result = false /\
  Tracker (fst result) = fst (Init (Tracker state) frame r) /\
  if snd (Init (Tracker state) frame r) then
    modeOf (fst result) = ActiveTracking /\
    ROI (fst result) = r /\ InitialROISize (fst result) = avgSize r
  else
    modeOf (fst result) = Idle /\ ROI (fst result) = ROI state /\
    forall frame',
      modeOf (fst (beforeRender (fst result) frame')) = AutoSearching /\
      Tracker (fst (beforeRender (fst result) frame')) = Tracker (fst result).
Proof.
  intros Hroi Hoff Hauto. cbv zeta.
  rewrite ProcessInput_enter, HandleROIKeys_enter by assumption.
  unfold InitializeTracking.
  destruct (Init (Tracker state) frame (confirmedROI state frame))
    as [tracker ok].
  cbn [fst snd]. destruct ok; state_simpl.
  - unfold modeOf, trackingMode. state_simpl. auto.
  - unfold modeOf, trackingMode. state_simpl. rewrite Hoff, Hauto.
    repeat split.
    + unfold beforeRender, ProcessAutoTracking. state_simpl.
      rewrite Hoff, Hauto. cbn [negb orb].
      unfold defaultAutoTracking. state_simpl. rewrite Hoff, Hauto.
      cbn [negb andb]. unfold ProcessTracking. state_simpl.
      rewrite Hoff. cbn [negb]. state_simpl. rewrite Hoff. reflexivity.
    + unfold beforeRender, ProcessAutoTracking. state_simpl.
      rewrite Hoff, Hauto. cbn [negb orb].
      unfold defaultAutoTracking. state_simpl. rewrite Hoff, Hauto.
      cbn [negb andb]. unfold ProcessTracking. state_simpl.
      rewrite Hoff. reflexivity.
Qed.

(** X14.  The status line names WASD beside the arrow keys for moving the
    selection, but during a selection the keys 'w', 'a', 's' and 'd' leave
    the tracking state and the selection as they are ('d' toggles the
    debug overlay, a field outside the embedded state). *)
Theorem wasd_do_not_move (state : AppState T) frame key :
  ROISelectionMode state = true ->
  key = key_w \/ key = key_a \/ key = key_s \/ key = key_d ->
  ProcessInput key state frame = (state, false).
Proof.
  intros Hroi Hk. unfold ProcessInput, HandleMainKeys, HandleROIKeys.
  destruct Hk as [-> | [-> | [-> | ->]]]; eval_keys;
    rewrite ?Hroi; state_simpl; rewrite ?Hroi; reflexivity.
Qed.

End Outcome.

Lemma confirm_outcome_witness :
  let state :=
    fst (ProcessInput key_s (initialState (mkScripted [] [false])) vga) in
  Tracker (fst (ProcessInput key_enter state vga)) = mkScripted [] [].
Proof.
  cbv zeta.
  destruct (confirm_outcome
              (fst (ProcessInput key_s (initialState (mkScripted [] [false]))
                      vga)) vga) as (_ & Ht & _).
  - reflexivity.
  - reflexivity.
  - reflexivity.
  - rewrite Ht. vm_compute. reflexivity.
Defined.

Lemma wasd_do_not_move_witness :
  let state := fst (ProcessInput key_s (initialState (mkScripted [] [])) vga) in
  ProcessInput key_w state vga = (state, false).
Proof.
  cbv zeta.
  apply (wasd_do_not_move
           (fst (ProcessInput key_s (initialState (mkScripted [] [])) vga))
           vga key_w).
  - reflexivity.
  - left. reflexivity.
Defined.

(** *** The selection along the frame loop *)

Section Invariant.
Context {T : Type} `{gocv_Tracker T}.
Variables W H' : Z.
Hypothesis HW : 40 <= W <= 2 ^ 59.
Hypothesis HH : 40 <= H' <= 2 ^ 59.

Lemma selectionInv_same (state state' : AppState T) :
  selectionInv state W H' -> sameSelection state state' ->
  selectionInv state' W H'.
Proof.
  unfold selectionInv, sameSelection, sizeWithin, centreWithin.
  intros [Hs Hc] (-> & -> & -> & -> & Hm). split; auto.
Qed.

Lemma sameSelection_refl (state : AppState T) : sameSelection state state.
Proof. unfold sameSelection. auto. Qed.

Lemma sameSelection_ProcessAutoTracking (state : AppState T) frame config :
  sameSelection state (ProcessAutoTracking state frame config).
Proof.
  unfold ProcessAutoTracking.
  destruct (_ || _); [apply sameSelection_refl|].
  destruct (Foreground frame); [|apply sameSelection_refl].
  destruct (detect _ _ _); [|apply sameSelection_refl].
  destruct (Init _ _ _) as [tracker ok].
  destruct ok; unfold sameSelection; state_simpl; auto.
Qed.

Lemma sameSelection_defaultAutoTracking (state : AppState T) :
  sameSelection state (defaultAutoTracking state).
Proof.
  unfold defaultAutoTracking.
  destruct (_ && _); unfold sameSelection; state_simpl; auto.
Qed.

Lemma sameSelection_ProcessTracking (state : AppState T) frame config :
  sameSelection state (fst (ProcessTracking state frame config)).
Proof.
  unfold ProcessTracking.
  destruct (negb (TrackingEnabled state)); [apply sameSelection_refl|].
  destruct (Update _ _) as [tracker [rect ok]]. state_simpl. destruct ok.
  - destruct (negb _ && _); unfold sameSelection; state_simpl; auto.
  - destruct (_ >=? _).
    + state_simpl. destruct (negb (ROISelectionMode state));
        unfold sameSelection; state_simpl; auto.
    + destruct (negb (Empty _)); [|unfold sameSelection; state_simpl; auto].
      destruct (TryTrackingRecovery _ _ _ _) as [tracker' recovered].
      destruct recovered; unfold sameSelection; state_simpl; auto.
Qed.

Lemma selectionInv_beforeRender (state : AppState T) frame :
  selectionInv state W H' ->
  selectionInv (fst (beforeRender state frame)) W H'.
Proof.
  intros Hinv. unfold beforeRender.
  eapply selectionInv_same; [|apply sameSelection_ProcessTracking].
  eapply selectionInv_same; [|apply sameSelection_defaultAutoTracking].
  eapply selectionInv_same; [|apply sameSelection_ProcessAutoTracking].
  eapply selectionInv_same; [exact Hinv|].
  unfold sameSelection. state_simpl. auto.
Qed.

Lemma selectionInv_HandleMainKeys key (state : AppState T) frame :
  Cols frame = W -> Rows frame = H' ->
  selectionInv state W H' ->
  selectionInv (fst (HandleMainKeys key state frame)) W H'.
Proof.
  intros HcW HcH Hinv. unfold HandleMainKeys.
  destruct (key =? key_q); [exact Hinv|].
  destruct (key =? key_s).
  - destruct (negb (ROISelectionMode state)); [|exact Hinv].
    destruct Hinv as [Hs _].
    unfold selectionInv, sizeWithin, centreWithin in *. state_simpl.
    split; [exact Hs|]. intros _. rewrite HcW, HcH. unfold div.
    rewrite !Z.quot_div_nonneg by lia.
    rewrite !small_wrap by (Z.div_mod_to_equations; lia).
    Z.div_mod_to_equations; lia.
  - destruct (key =? key_a).
    + destruct (negb (ROISelectionMode state)); [|exact Hinv].
      unfold EnableAutoTracking.
      destruct (AutoTrackingEnabled state), (negb (ROISelectionMode state));
        state_simpl; (eapply selectionInv_same; [exact Hinv|]);
        unfold sameSelection; state_simpl; auto.
    + destruct (key =? key_r); [|exact Hinv].
      unfold ResetTracking. state_simpl.
      eapply selectionInv_same; [exact Hinv|].
      unfold sameSelection; state_simpl. intuition discriminate.
Qed.

Lemma centre_back c size bound :
  40 <= size <= bound -> bound <= 2 ^ 59 -> 0 <= c <= bound ->
  let c1 := sub c 10 in
  0 <= (if c1 <? div size 2 then div size 2 else c1) <= bound.
Proof.
  intros Hs Hb Hc. cbv zeta. unfold sub, div.
  rewrite Z.quot_div_nonneg by lia.
  assert (Hq : 20 <= size / 2 /\ 2 * (size / 2) <= size)
    by (Z.div_mod_to_equations; lia).
  set (h := size / 2) in *. clearbody h. unwrap.
  destruct (c - 10 <? h) eqn:E; lia.
Qed.

Lemma centre_forth c size bound :
  40 <= size <= bound -> bound <= 2 ^ 59 -> 0 <= c <= bound ->
  let c1 := add c 10 in
  0 <= (if c1 >? sub bound (div size 2) then sub bound (div size 2) else c1)
    <= bound.
Proof.
  intros Hs Hb Hc. cbv zeta. unfold add, sub, div.
  rewrite Z.quot_div_nonneg by lia.
  assert (Hq : 20 <= size / 2 /\ 2 * (size / 2) <= size)
    by (Z.div_mod_to_equations; lia).
  set (h := size / 2) in *. clearbody h. unwrap.
  destruct (c + 10 >? bound - h) eqn:E; lia.
Qed.

Lemma selectionInv_HandleROIKeys key (state : AppState T) frame :
  Cols frame = W -> Rows frame = H' ->
  selectionInv state W H' ->
  selectionInv (HandleROIKeys key state frame) W H'.
Proof.
  intros HcW HcH Hinv. unfold HandleROIKeys.
  destruct (ROISelectionMode state) eqn:Hroi; cbn [negb]; [|exact Hinv].
  destruct Hinv as [[Hw Hh] Hc]. destruct (Hc Hroi) as [Hx Hy].
  rewrite HcW, HcH.
  destruct (key =? key_up).
  { pose proof (centre_back (ROICenterY state) (ROIHeight state) H'
                  Hh ltac:(lia) Hy) as Hn. cbv zeta in Hn.
    state_simpl. destruct (_ <? _);
      unfold selectionInv, sizeWithin, centreWithin; state_simpl; auto. }
  destruct (key =? key_down).
  { pose proof (centre_forth (ROICenterY state) (ROIHeight state) H'
                  Hh ltac:(lia) Hy) as Hn. cbv zeta in Hn.
    state_simpl. destruct (_ >? _);
      unfold selectionInv, sizeWithin, centreWithin; state_simpl; auto. }
  destruct (key =? key_left).
  { pose proof (centre_back (ROICenterX state) (ROIWidth state) W
                  Hw ltac:(lia) Hx) as Hn. cbv zeta in Hn.
    state_simpl. destruct (_ <? _);
      unfold selectionInv, sizeWithin, centreWithin; state_simpl; auto. }
  destruct (key =? key_right).
  { pose proof (centre_forth (ROICenterX state) (ROIWidth state) W
                  Hw ltac:(lia) Hx) as Hn. cbv zeta in Hn.
    state_simpl. destruct (_ >? _);
      unfold selectionInv, sizeWithin, centreWithin; state_simpl; auto. }
  destruct ((key =? key_plus) || (key =? key_equal)).
  { state_simpl. unfold add. rewrite !small_wrap by lia.
    destruct (ROIWidth state + 20 >? W) eqn:E1; state_simpl;
      destruct (ROIHeight state + 20 >? H') eqn:E2;
      unfold selectionInv, sizeWithin, centreWithin; state_simpl;
      repeat split; auto; lia. }
  destruct ((key =? key_minus) || (key =? key_underscore)).
  { state_simpl. unfold sub. rewrite !small_wrap by lia.
    destruct (ROIWidth state - 20 <? 40) eqn:E1; state_simpl;
      destruct (ROIHeight state - 20 <? 40) eqn:E2;
      unfold selectionInv, sizeWithin, centreWithin; state_simpl;
      repeat split; auto; lia. }
  destruct (key =? key_enter).
  { unfold InitializeTracking. destruct (Init _ _ _) as [tracker ok].
    destruct ok; unfold selectionInv, sizeWithin, centreWithin;
      state_simpl; split; auto; discriminate. }
  unfold selectionInv, sizeWithin, centreWithin. auto.
Qed.

Lemma selectionInv_ProcessInput key (state : AppState T) frame :
  Cols frame = W -> Rows frame = H' ->
  selectionInv state W H' ->
  selectionInv (fst (ProcessInput key state frame)) W H'.
Proof.
  intros HcW HcH Hinv. unfold ProcessInput.
  destruct (key =? key_escape).
  - unfold HandleEscapeKey.
    destruct (ROISelectionMode state); [|exact Hinv].
    destruct (negb (TrackingEnabled _)); state_simpl;
      (eapply selectionInv_same; [exact Hinv|]);
      unfold sameSelection; state_simpl; intuition discriminate.
  - pose proof (selectionInv_HandleMainKeys key state frame HcW HcH Hinv)
      as Hm.
    destruct (HandleMainKeys key state frame) as [state' quit].
    cbn [fst] in Hm. destruct quit; state_simpl; auto.
    now apply selectionInv_HandleROIKeys.
Qed.

Lemma selectionInv_runLoop inputs : forall (state : AppState T),
  framesOfSize W H' inputs ->
  selectionInv state W H' -> selectionInv (runLoop state inputs) W H'.
Proof.
  induction inputs as [|[frame key] rest IH]; intros state Hf Hinv; auto.
  apply Forall_cons_iff in Hf as [[HcW HcH] Hrest]. cbn [fst] in HcW, HcH.
  cbn [runLoop]. rewrite Loop.loopBody_beforeRender.
  pose proof (selectionInv_beforeRender state frame Hinv) as Hb.
  destruct (beforeRender state frame) as [s1 rect]. cbn [fst] in Hb.
  pose proof (selectionInv_ProcessInput key s1 frame HcW HcH Hb) as Hi.
  destruct (ProcessInput key s1 frame) as [s2 quit]. cbn [fst] in Hi.
  destruct quit; auto.
Qed.

End Invariant.

Section Reachable.
Context {T : Type} `{gocv_Tracker T}.

(** X15.  Along the frame loop from the start of the program, on frames
    of one size at least 100 wide and high, the selection sizes stay
    between 40 and the frame's, and while a selection is in progress its
    centre stays in the frame: the rectangle drawn for the selection, the
    one ENTER would hand to the tracker, lies within the frame and is
    not empty. *)
Theorem selection_stays_in_frame (tracker : T) inputs frame :
  100 <= Cols frame <= 2 ^ 59 -> 100 <= Rows frame <= 2 ^ 59 ->
  framesOfSize (Cols frame) (Rows frame) inputs ->
  let state := runLoop (initialState tracker) inputs in
  sizeWithin state (Cols frame) (Rows frame) /\
  (ROISelectionMode state = true ->
   centreWithin state (Cols frame) (Rows frame) /\
   ui.DrawROISelection state frame = Some (confirmedROI state frame) /\
   withinFrame (confirmedROI state frame) (Cols frame) (Rows frame) /\
   Empty (confirmedROI state frame) = false).
Proof.
  intros HW HH Hf. cbv zeta.
  assert (Hinit : selectionInv (initialState tracker) (Cols frame)
                    (Rows frame)).
  { unfold selectionInv, sizeWithin, centreWithin. cbn.
    split; [lia | discriminate]. }
  destruct (selectionInv_runLoop (Cols frame) (Rows frame)
              ltac:(lia) ltac:(lia) inputs _ Hf Hinit) as [Hs Hc].
  split; [exact Hs|]. intros Hroi. specialize (Hc Hroi).
  split; [exact Hc|].
  split; [rewrite DrawROISelection_confirmedROI, Hroi; reflexivity|].
  destruct (confirmedROI_geometry
              (runLoop (initialState tracker) inputs) frame)
    as (Hin & Hne & _); auto; unfold small; lia.
Qed.

End Reachable.

Lemma selection_stays_in_frame_witness :
  let state := runLoop (initialState (mkScripted [] [])) cornerThenGrow in
  sizeWithin state 640 480.
Proof.
  cbv zeta.
  destruct (selection_stays_in_frame (mkScripted [] []) cornerThenGrow vga)
    as [Hs _].
  - vm_compute. intuition discriminate.
  - vm_compute. intuition discriminate.
  - unfold framesOfSize, cornerThenGrow. apply Forall_forall.
    intros [frame key] Hin. apply in_map_iff in Hin as (k & E & _).
    inversion E; subst. split; reflexivity.
  - exact Hs.
Defined.

End Selection.

(** ** Recording *)

Module Recording.
Import recording.

Section WithBackend.
Context {Writer : Type}.
Variable VideoWriterFile : String.string -> option Writer.
Variable Close : Writer -> bool.
Variable Write : Writer -> Mat -> bool.

Lemma tryCodecs_find codecs : forall acc,
  tryCodecs VideoWriterFile codecs acc =
  match find (opens VideoWriterFile) codecs with
  | Some fourcc => (VideoWriterFile fourcc, false)
  | None => match codecs with [] => acc | _ => (None, true) end
  end.
Proof.
  induction codecs as [|fourcc rest IH]; intros acc; cbn [tryCodecs find].
  - reflexivity.
  - unfold opens at 1.
    destruct (VideoWriterFile fourcc) as [vw|] eqn:E.
    + rewrite E. reflexivity.
    + rewrite IH. destruct (find _ rest); [reflexivity|].
      destruct rest; reflexivity.
Qed.

(** X16.  StartRecording, when no recording is active, opens the file
    with the first codec of the list that the backend accepts and starts
    recording with that writer; if the list is not empty and no codec is
    accepted it returns an error and changes nothing; with an empty list
    it reports success and records with no writer.  When a recording is
    active it returns an error and changes nothing. *)
Theorem StartRecording_first_codec (state : Recorder Writer) codecs :
  (IsRecording state = true ->
   StartRecording VideoWriterFile state codecs = (state, Some AlreadyActive)) /\
  (IsRecording state = false ->
   match find (opens VideoWriterFile) codecs with
   | Some fourcc =>
       exists vw, VideoWriterFile fourcc = Some vw /\
         StartRecording VideoWriterFile state codecs
         = (mkRecorder true (Some vw), None)
   | None =>
       StartRecording VideoWriterFile state codecs
       = match codecs with
         | [] => (mkRecorder true None, None)
         | _ => (state, Some NoWriter)
         end
   end).
Proof.
  unfold StartRecording. split; intros ->; [reflexivity|].
  rewrite tryCodecs_find.
  destruct (find (opens VideoWriterFile) codecs) as [fourcc|] eqn:Hf.
  - apply find_some in Hf as [_ Ho]. unfold opens in Ho.
    destruct (VideoWriterFile fourcc) as [vw|]; [|discriminate].
    exists vw. auto.
  - destruct codecs; reflexivity.
Qed.

Lemma StopRecording_cases (state : Recorder Writer) :
  IsRecording state = true ->
  (exists vw, VideoWriter state = Some vw /\ Close vw = false /\
     StopRecording Close state = (state, Some CloseFailed)) \/
  StopRecording Close state = (mkRecorder false None, None).
Proof.
  intros Hrec. unfold StopRecording. rewrite Hrec. cbn [negb].
  destruct (VideoWriter state) as [vw|] eqn:Hw.
  - destruct (Close vw) eqn:Hc; [right; reflexivity|].
    left. exists vw. auto.
  - right. reflexivity.
Qed.

Lemma StartRecording_writer (state : Recorder Writer) codecs :
  writerOnlyWhileRecording state ->
  writerOnlyWhileRecording (fst (StartRecording VideoWriterFile state codecs)).
Proof.
  intros Hinv. unfold StartRecording.
  destruct (IsRecording state); [exact Hinv|].
  destruct (tryCodecs _ _ _) as [vw failed].
  destruct failed; [exact Hinv|]. unfold writerOnlyWhileRecording.
  cbn. discriminate.
Qed.

Lemma StopRecording_writer (state : Recorder Writer) :
  writerOnlyWhileRecording state ->
  writerOnlyWhileRecording (fst (StopRecording Close state)).
Proof.
  intros Hinv. unfold StopRecording.
  destruct (negb (IsRecording state)); [exact Hinv|].
  destruct (VideoWriter state) as [vw|] eqn:Hw.
  - destruct (Close vw); [|exact Hinv].
    unfold writerOnlyWhileRecording. reflexivity.
  - unfold writerOnlyWhileRecording. cbn. auto.
Qed.

(** X17.  Starting, stopping, toggling and cleaning up keep a writer only
    while recording; WriteFrame hands the frame to a writer only while
    recording; and CleanupRecording ends the recording unless closing the
    writer fails, in which case the error is dropped and nothing
    changes. *)
Theorem writer_only_while_recording (state : Recorder Writer) codecs frame :
  writerOnlyWhileRecording state ->
  writerOnlyWhileRecording (fst (StartRecording VideoWriterFile state codecs)) /\
  writerOnlyWhileRecording (fst (StopRecording Close state)) /\
  writerOnlyWhileRecording
    (fst (ToggleRecording VideoWriterFile Close state codecs)) /\
  writerOnlyWhileRecording (CleanupRecording Close state) /\
  (IsRecording state = false -> WriteFrame Write state frame = (None, None)) /\
  (IsRecording (CleanupRecording Close state) = true ->
   CleanupRecording Close state = state /\
   exists vw, VideoWriter state = Some vw /\ Close vw = false).
Proof.
  intros Hinv.
  split; [now apply StartRecording_writer|].
  split; [now apply StopRecording_writer|].
  split.
  { unfold ToggleRecording. destruct (IsRecording state).
    - now apply StopRecording_writer.
    - now apply StartRecording_writer. }
  split.
  { unfold CleanupRecording. destruct (IsRecording state); [|exact Hinv].
    now apply StopRecording_writer. }
  split.
  { intros Hoff. unfold WriteFrame. rewrite Hoff. reflexivity. }
  unfold CleanupRecording.
  destruct (IsRecording state) eqn:Hrec; [|congruence].
  destruct (StopRecording_cases state Hrec) as [(vw & Hw & Hc & E)|E];
    rewrite E; cbn [fst IsRecording]; [|discriminate].
  intros _. split; [reflexivity|]. exists vw. auto.
Qed.

(** X18.  When no recording is active and no writer is held, and the
    backend accepts one of the codecs and closes its writer without
    error, toggling twice starts and then stops the recording: both
    calls succeed and the state is as it was. *)
Theorem toggle_twice (state : Recorder Writer) codecs fourcc vw :
  IsRecording state = false -> VideoWriter state = None ->
  find (opens VideoWriterFile) codecs = Some fourcc ->
  VideoWriterFile fourcc = Some vw -> Close vw = true ->
  let first := ToggleRecording VideoWriterFile Close state codecs in
  first = (mkRecorder true (Some vw), None) /\
  ToggleRecording VideoWriterFile Close (fst first) codecs = (state, None).
Proof.
  intros Hoff Hnone Hf Hopen Hclose. cbv zeta.
  assert (E : ToggleRecording VideoWriterFile Close state codecs
              = (mkRecorder true (Some vw), None)).
  { unfold ToggleRecording, StartRecording.
    rewrite Hoff, tryCodecs_find, Hf, Hopen. reflexivity. }
  rewrite E. split; [reflexivity|]. cbn [fst].
  unfold ToggleRecording, StopRecording. cbn [IsRecording VideoWriter negb].
  rewrite Hclose. destruct state as [r w]. cbn in *. subst. reflexivity.
Qed.

End WithBackend.

Lemma StartRecording_first_codec_witness :
  StartRecording Backends.onlyMp4v (mkRecorder false None)
    Backends.defaultCodecs
  = (mkRecorder true (Some 7%nat), None).
Proof.
  destruct (StartRecording_first_codec Backends.onlyMp4v
              (mkRecorder false None) Backends.defaultCodecs) as [_ Hs].
  specialize (Hs eq_refl). cbn in Hs. destruct Hs as (vw & Ho & E).
  injection Ho as <-. exact E.
Defined.

Lemma writer_only_while_recording_witness :
  writerOnlyWhileRecording
    (CleanupRecording (fun _ : nat => true)
       (mkRecorder true (Some 7%nat))).
Proof.
  destruct (writer_only_while_recording Backends.onlyMp4v
              (fun _ : nat => true) (fun _ _ => true)
              (mkRecorder true (Some 7%nat)) Backends.defaultCodecs vga)
    as (_ & _ & _ & Hc & _).
  - unfold writerOnlyWhileRecording. cbn. discriminate.
  - exact Hc.
Defined.

Lemma toggle_twice_witness :
  let first :=
    ToggleRecording Backends.onlyMp4v (fun _ : nat => true)
      (mkRecorder false None) Backends.defaultCodecs in
  ToggleRecording Backends.onlyMp4v (fun _ : nat => true) (fst first)
    Backends.defaultCodecs
  = (mkRecorder false None, None).
Proof.
  cbv zeta.
  destruct (toggle_twice Backends.onlyMp4v (fun _ : nat => true)
              (mkRecorder false None) Backends.defaultCodecs
              Backends.mp4v 7%nat) as [_ E]; [reflexivity .. | exact E].
Defined.

End Recording.

(** ** The debug log *)

Module DebugLog.
Import debuglog.

Lemma lastN_snoc {A} (n : nat) (l : list A) (x : A) :
  lastN n (lastN n l ++ [x]) = lastN n (l ++ [x]).
Proof.
  unfold lastN. rewrite !length_app, length_skipn. cbn [length].
  destruct (Nat.le_gt_cases (length l) n) as [Hle|Hgt].
  - replace (length l - n)%nat with 0%nat by lia. rewrite skipn_0.
    replace (length l - 0 + 1 - n)%nat with (length l + 1 - n)%nat by lia.
    reflexivity.
  - replace (length l - (length l - n) + 1 - n)%nat with 1%nat by lia.
    rewrite !skipn_app, skipn_skipn, length_skipn.
    replace (1 + (length l - n))%nat with (length l + 1 - n)%nat by lia.
    replace (1 - (length l - (length l - n)))%nat
      with (length l + 1 - n - length l)%nat by lia.
    reflexivity.
Qed.

Lemma length_lastN {A} (n : nat) (l : list A) : (length (lastN n l) <= n)%nat.
Proof. unfold lastN. rewrite length_skipn. lia. Qed.

Lemma lastN_short {A} (n : nat) (l : list A) :
  (length l <= n)%nat -> lastN n l = l.
Proof.
  intros Hle. unfold lastN.
  replace (length l - n)%nat with 0%nat by lia. apply skipn_0.
Qed.

(** One call with the debug mode on and the buffer within its bound. *)
Lemma Log_lastN d message :
  DebugMode d = true -> 0 <= maxLogs d ->
  (length (DebugLogs d) <= Z.to_nat (maxLogs d))%nat ->
  Log d message
  = mkDebugLogger true
      (lastN (Z.to_nat (maxLogs d)) (DebugLogs d ++ [message])) (maxLogs d).
Proof.
  intros Hon Hmax Hlen. unfold Log. rewrite Hon. cbn [negb]. f_equal.
  unfold lastN. rewrite length_app. cbn [length].
  destruct (Z.gtb_spec (Z.of_nat (length (DebugLogs d) + 1)) (maxLogs d))
    as [E|E].
  - replace (length (DebugLogs d) + 1 - Z.to_nat (maxLogs d))%nat
      with 1%nat by lia.
    destruct (DebugLogs d ++ [message]); reflexivity.
  - replace (length (DebugLogs d) + 1 - Z.to_nat (maxLogs d))%nat
      with 0%nat by lia.
    reflexivity.
Qed.

(** X19.  With the debug mode on, a bound that is not negative and a
    buffer within the bound, logging messages one after the other leaves
    in the buffer the last maxLogs of the old entries followed by the new
    messages, the oldest dropped first; the buffer never holds more than
    maxLogs entries.  With the debug mode off nothing is logged. *)
Theorem Log_keeps_last_messages d messages :
  (DebugMode d = false -> LogAll d messages = d) /\
  (DebugMode d = true -> 0 <= maxLogs d ->
   (length (DebugLogs d) <= Z.to_nat (maxLogs d))%nat ->
   GetLogs (LogAll d messages)
   = lastN (Z.to_nat (maxLogs d)) (DebugLogs d ++ messages) /\
   Z.of_nat (length (GetLogs (LogAll d messages))) <= maxLogs d /\
   DebugMode (LogAll d messages) = true /\
   maxLogs (LogAll d messages) = maxLogs d).
Proof.
  split.
  - intros Hoff. unfold LogAll.
    induction messages as [|m rest IH]; cbn [fold_left]; auto.
    unfold Log at 2. rewrite Hoff. exact IH.
  - intros Hon Hmax Hlen. unfold LogAll, GetLogs.
    induction messages as [|m rest IH] using rev_ind.
    + cbn [fold_left]. rewrite app_nil_r, lastN_short by assumption.
      repeat split; auto. lia.
    + destruct IH as (Hl & Hb & Hm & Hx).
      rewrite fold_left_app. cbn [fold_left].
      rewrite Log_lastN by (rewrite ?Hx; auto; lia).
      cbn [DebugLogs DebugMode maxLogs]. rewrite Hl, Hx, lastN_snoc.
      rewrite app_assoc. repeat split; auto.
      pose proof (length_lastN (Z.to_nat (maxLogs d))
                    ((DebugLogs d ++ rest) ++ [m])). lia.
Qed.

Lemma Log_keeps_last_messages_witness :
  let d := mkDebugLogger true [Backends.mp4v] 2 in
  GetLogs (LogAll d [Backends.mp4v; Backends.mp4v])
  = [Backends.mp4v; Backends.mp4v].
Proof.
  cbv zeta.
  destruct (Log_keeps_last_messages
              (mkDebugLogger true [Backends.mp4v] 2)
              [Backends.mp4v; Backends.mp4v]) as [_ Hl].
  destruct Hl as (E & _).
  - reflexivity.
  - cbn. lia.
  - cbn. lia.
  - rewrite E. reflexivity.
Defined.

(** *** The lines on the screen *)

Lemma length_append (s1 s2 : String.string) :
  String.length (String.append s1 s2)
  = (String.length s1 + String.length s2)%nat.
Proof. induction s1 as [|c s1 IH]; cbn; auto. Qed.

Lemma length_substring_0 (m : nat) : forall s : String.string,
  (m <= String.length s)%nat ->
  String.length (String.substring 0 m s) = m.
Proof.
  induction m as [|m IH]; intros [|c s] Hle; cbn in *; auto; try lia.
  rewrite IH by lia. reflexivity.
Qed.

(** X20.  A debug line on the screen is never longer than 50 bytes: a
    message of at most 50 bytes is shown as it is, a longer one is shown
    as its first 47 bytes followed by three dots, 50 bytes in all. *)
Theorem debugLine_at_most_50 (logMsg : String.string) :
  (String.length (ui.debugLine logMsg) <= 50)%nat /\
  ((String.length logMsg <= 50)%nat -> ui.debugLine logMsg = logMsg) /\
  ((50 < String.length logMsg)%nat ->
   String.length (ui.debugLine logMsg) = 50%nat /\
   String.substring 0 47 (ui.debugLine logMsg)
   = String.substring 0 47 logMsg /\
   String.substring 47 3 (ui.debugLine logMsg) = ui.ellipsis).
Proof.
  unfold ui.debugLine.
  destruct (Z.gtb_spec (Z.of_nat (String.length logMsg)) 50) as [E|E].
  - assert (Hlen : forall t : String.string,
              String.length t = 3%nat ->
              String.length (String.append (String.substring 0 47 logMsg) t)
              = 50%nat).
    { intros t Ht. rewrite length_append, length_substring_0, Ht by lia.
      reflexivity. }
    split; [rewrite Hlen by reflexivity; lia|]. split; [lia|]. intros _.
    split; [apply Hlen; reflexivity|].
    assert (Hp : forall (m : nat) (s t : String.string),
              (m <= String.length s)%nat ->
              String.substring 0 m (String.append s t)
              = String.substring 0 m s).
    { induction m as [|m IH]; intros [|c s] t Hle; cbn in *;
        try lia; try reflexivity.
      - destruct t; reflexivity.
      - rewrite IH by lia. reflexivity. }
    assert (Hs : forall (m : nat) (s : String.string),
              String.substring 0 m (String.substring 0 m s)
              = String.substring 0 m s).
    { induction m as [|m IH]; intros [|c s]; cbn; try reflexivity.
      rewrite IH. reflexivity. }
    assert (Hq : forall (s t : String.string),
              String.substring (String.length s) 3 (String.append s t)
              = String.substring 0 3 t).
    { induction s as [|c s IH]; intros t; cbn; [reflexivity | apply IH]. }
    split.
    + rewrite Hp by (rewrite length_substring_0; lia). apply Hs.
    + pose proof (Hq (String.substring 0 47 logMsg) ui.ellipsis) as Hd.
      rewrite length_substring_0 in Hd by lia. exact Hd.
  - split; [lia|]. split; [reflexivity|]. lia.
Qed.

Lemma debugLine_at_most_50_witness :
  ui.debugLine ui.suspiciousMessage = ui.suspiciousLine /\
  String.length (ui.debugLine ui.suspiciousMessage) = 50%nat.
Proof.
  destruct (debugLine_at_most_50 ui.suspiciousMessage) as (_ & _ & Hlong).
  destruct Hlong as (Hl & _ & _).
  - cbn. lia.
  - split; [reflexivity | exact Hl].
Defined.

End DebugLog.
